(** * Discord promo checker: a shallow embedding of [promo_checker.py]

    The development follows the source file top to bottom:
    - Python strings are sequences of Unicode code points;
    - the values that [response.json()] produces are the Python objects
      [None], [bool], [int], [float], [str], [list] and [dict];
    - effects (HTTP requests, [time.sleep], the report file) are threaded
      through an explicit world that logs them in order, and a Python
      exception is a result of its own that keeps the effects made so far.

    Console output ([print]) is not part of the model.  The builtins whose
    behaviour lives in the Python runtime ([int], [float], the [repr] of
    floats and strings, the range of [time.sleep], the clock, and whether the
    installed [requests] reports an undecodable body as a
    [RequestException]) are the fields of [Runtime]. *)

From Stdlib Require Import List ZArith NArith QArith Qminmax String Ascii Bool Lia.
From Stdlib Require Import DecimalString Permutation.
Import ListNotations.

#[local] Set Warnings "-register-all".

Close Scope Q_scope.
Open Scope Z_scope.

(* ------------------------------------------------------------------ *)
(** * Strings *)

Definition char := N.
Definition str := list char.

(** UTF-8 decoding, used to write the literals of the source. *)
Fixpoint utf8_decode (bs : list N) : str :=
  match bs with
  | [] => []
  | b0 :: t0 =>
    if (b0 <? 128)%N then b0 :: utf8_decode t0
    else match t0 with
    | [] => []
    | b1 :: t1 =>
      if (b0 <? 224)%N then ((b0 - 192) * 64 + (b1 - 128))%N :: utf8_decode t1
      else match t1 with
      | [] => []
      | b2 :: t2 =>
        if (b0 <? 240)%N
        then ((b0 - 224) * 4096 + (b1 - 128) * 64 + (b2 - 128))%N :: utf8_decode t2
        else match t2 with
        | [] => []
        | b3 :: t3 =>
          ((b0 - 240) * 262144 + (b1 - 128) * 4096 + (b2 - 128) * 64 + (b3 - 128))%N
            :: utf8_decode t3
        end
      end
    end
  end.

Definition lit (s : string) : str :=
  utf8_decode (map N_of_ascii (list_ascii_of_string s)).
Arguments lit s%_string.

Abbreviation length := List.length.

Definition str_eqb (a b : str) : bool :=
  if list_eq_dec N.eq_dec a b then true else false.

(** [str.isspace] on one code point; [str.strip] removes these. *)
Definition isspace (c : char) : bool :=
  ((9 <=? c) && (c <=? 13) || (28 <=? c) && (c <=? 32)
   || (c =? 133) || (c =? 160) || (c =? 5760)
   || (8192 <=? c) && (c <=? 8202)
   || (c =? 8232) || (c =? 8233) || (c =? 8239) || (c =? 8287)
   || (c =? 12288))%N.

Fixpoint lstrip (s : str) : str :=
  match s with
  | [] => []
  | c :: t => if isspace c then lstrip t else s
  end.

Definition rstrip (s : str) : str := rev (lstrip (rev s)).
Definition strip (s : str) : str := rstrip (lstrip s).

Fixpoint startswith (s p : str) : bool :=
  match p, s with
  | [], _ => true
  | _ :: _, [] => false
  | a :: p', b :: s' => (a =? b)%N && startswith s' p'
  end.

Definition nonempty {A} (l : list A) : bool :=
  match l with [] => false | _ => true end.

(** The character class [[A-Za-z0-9]]. *)
Definition isalnum (c : char) : bool :=
  ((48 <=? c) && (c <=? 57) || (65 <=? c) && (c <=? 90)
   || (97 <=? c) && (c <=? 122))%N.

Fixpoint takewhile {A} (f : A -> bool) (l : list A) : list A :=
  match l with
  | [] => []
  | x :: t => if f x then x :: takewhile f t else []
  end.

(* ------------------------------------------------------------------ *)
(** * extract_gift_code *)

Module Re.

(** A pattern [lit([A-Za-z0-9]{16,25})] tried at the head of [text]: the
    literal prefix, then the greedy group (nothing follows the group, so it
    takes the longest run, cut at 25). *)
Fixpoint strip_prefix (p text : str) : option str :=
  match p, text with
  | [], _ => Some text
  | _ :: _, [] => None
  | a :: p', b :: t => if (a =? b)%N then strip_prefix p' t else None
  end.

Definition match_at (p text : str) : option str :=
  match strip_prefix p text with
  | Some rest =>
    let g := firstn 25 (takewhile isalnum rest) in
    if (16 <=? length g)%nat then Some g else None
  | None => None
  end.

(** [re.search]: the leftmost position at which the pattern matches. *)
Fixpoint search (p text : str) : option str :=
  match match_at p text with
  | Some g => Some g
  | None => match text with [] => None | _ :: t => search p t end
  end.

(** [re.match(r'^[A-Za-z0-9]{16,25}$', s)]; [$] also matches just before a
    final newline. *)
Definition match_token (s : str) : bool :=
  let n := length (takewhile isalnum s) in
  (16 <=? n)%nat && (n <=? 25)%nat &&
  match skipn n s with
  | [] => true
  | [c] => (c =? 10)%N
  | _ => false
  end.

End Re.

Definition patterns : list str :=
  [ lit "discord.gift/";
    lit "discord.com/gifts/";
    lit "discordapp.com/gifts/";
    lit "promos.discord.gg/" ].

(** The [for pattern in patterns] loop: the first pattern that matches
    anywhere in the text wins. *)
Fixpoint first_match (ps : list str) (text : str) : option str :=
  match ps with
  | [] => None
  | p :: ps' =>
    match Re.search p text with
    | Some g => Some g
    | None => first_match ps' text
    end
  end.

Definition extract_gift_code (text : str) : option str :=
  match first_match patterns text with
  | Some g => Some g
  | None => if Re.match_token (strip text) then Some (strip text) else None
  end.

(* ------------------------------------------------------------------ *)
(** * Python values *)

(** A Python [float]: not-a-number, the two infinities, or a finite value
    (every finite double is a rational). *)
Inductive pyfloat :=
| PNaN
| PInf
| PNegInf
| PFin (q : Q).

Inductive pynum :=
| PInt (n : Z)
| PFloat (f : pyfloat).

(** The objects that [response.json()] returns.  A [dict] keeps its items in
    insertion order. *)
Inductive value :=
| VNone
| VBool (b : bool)
| VInt (n : Z)
| VFloat (f : pyfloat)
| VStr (s : str)
| VList (l : list value)
| VDict (d : list (str * value)).

Inductive pyexn :=
| RequestException (desc : str)
| AttributeError
| TypeError
| ValueError
| OverflowError
| EOFError.

Inductive result (A : Type) :=
| Ret (a : A)
| Raise (e : pyexn).
Arguments Ret {A} a.
Arguments Raise {A} e.

Definition Qlt_bool (x y : Q) : bool := negb (Qle_bool y x).

Definition float_of_num (n : pynum) : pyfloat :=
  match n with
  | PInt z => PFin (inject_Z z)
  | PFloat f => f
  end.

(** [a < b] and [a <= b] on numbers; Python compares an [int] with a [float]
    by value, and every comparison with NaN is false. *)
Definition float_lt (a b : pyfloat) : bool :=
  match a, b with
  | PNaN, _ | _, PNaN => false
  | PNegInf, PNegInf => false
  | PNegInf, _ => true
  | _, PNegInf => false
  | PInf, _ => false
  | _, PInf => true
  | PFin x, PFin y => Qlt_bool x y
  end.

Definition float_le (a b : pyfloat) : bool :=
  match a, b with
  | PNaN, _ | _, PNaN => false
  | PNegInf, _ => true
  | _, PNegInf => false
  | _, PInf => true
  | PInf, _ => false
  | PFin x, PFin y => Qle_bool x y
  end.

Definition num_lt (a b : pynum) : bool := float_lt (float_of_num a) (float_of_num b).
Definition num_le (a b : pynum) : bool := float_le (float_of_num a) (float_of_num b).

(** Equality of two items of a container ([PyObject_RichCompareBool]):
    identical objects are equal, and the decoder hands out one NaN object. *)
Definition num_eq_item (a b : pynum) : bool :=
  match float_of_num a, float_of_num b with
  | PNaN, PNaN => true
  | x, y => float_le x y && float_le y x
  end.

Definition as_num (v : value) : option pynum :=
  match v with
  | VBool b => Some (PInt (if b then 1 else 0))
  | VInt n => Some (PInt n)
  | VFloat f => Some (PFloat f)
  | _ => None
  end.

Fixpoint dict_get {A} (d : list (str * A)) (k : str) : option A :=
  match d with
  | [] => None
  | (k', v) :: d' => if str_eqb k' k then Some v else dict_get d' k
  end.

(** [bool(v)]. *)
Definition truthy (v : value) : bool :=
  match v with
  | VNone => false
  | VBool b => b
  | VInt n => negb (n =? 0)
  | VFloat f => match f with PFin q => negb (Qeq_bool q 0) | _ => true end
  | VStr s => nonempty s
  | VList l => nonempty l
  | VDict d => nonempty d
  end.

Fixpoint value_eq (a b : value) {struct a} : bool :=
  match a, b with
  | VNone, VNone => true
  | VStr s, VStr t => str_eqb s t
  | VList l, VList m =>
    (fix go (l m : list value) : bool :=
       match l, m with
       | [], [] => true
       | x :: l', y :: m' => value_eq x y && go l' m'
       | _, _ => false
       end) l m
  | VDict d, VDict e =>
    (length d =? length e)%nat &&
    (fix go (d : list (str * value)) : bool :=
       match d with
       | [] => true
       | (k, v) :: d' =>
         match dict_get e k with
         | Some w => value_eq v w
         | None => false
         end && go d'
       end) d
  | _, _ =>
    match as_num a, as_num b with
    | Some x, Some y => num_eq_item x y
    | _, _ => false
    end
  end.

(** The two ordering operators of the source. *)
Inductive cmpop := Ge | Gt.

Definition num_cmp (op : cmpop) (a b : pynum) : bool :=
  match op with
  | Ge => num_le b a
  | Gt => num_lt b a
  end.

Fixpoint str_cmp (op : cmpop) (a b : str) : bool :=
  match a, b with
  | [], [] => match op with Ge => true | Gt => false end
  | [], _ :: _ => false
  | _ :: _, [] => true
  | x :: a', y :: b' =>
    if (x =? y)%N then str_cmp op a' b' else (y <? x)%N
  end.

(** [a >= b] and [a > b]: numbers with numbers, strings with strings, lists
    with lists (at the first pair of unequal items); anything else is a
    [TypeError]. *)
Fixpoint py_cmp (op : cmpop) (a b : value) {struct a} : result bool :=
  match a, b with
  | VStr s, VStr t => Ret (str_cmp op s t)
  | VList l, VList m =>
    (fix go (l m : list value) : result bool :=
       match l, m with
       | [], [] => Ret (match op with Ge => true | Gt => false end)
       | [], _ :: _ => Ret false
       | _ :: _, [] => Ret true
       | x :: l', y :: m' =>
         if value_eq x y then go l' m' else py_cmp op x y
       end) l m
  | _, _ =>
    match as_num a, as_num b with
    | Some x, Some y => Ret (num_cmp op x y)
    | _, _ => Raise TypeError
    end
  end.

Definition str_of_Z (n : Z) : str := lit (NilZero.string_of_int (Z.to_int n)).

Fixpoint join (sep : str) (l : list str) : str :=
  match l with
  | [] => []
  | [x] => x
  | x :: t => x ++ sep ++ join sep t
  end.

(* ------------------------------------------------------------------ *)
(** * The Python runtime and the outside world *)

(** What the program takes from the interpreter and its libraries. *)
Record Runtime := {
  (** [int(s)] on a string; [None] is a [ValueError] *)
  py_int : str -> option Z;
  (** [float(s)] on a string; [None] is a [ValueError] *)
  py_float : str -> option pyfloat;
  (** [repr] of a float and of a string *)
  float_repr : pyfloat -> str;
  str_repr : str -> str;
  (** whether [response.json()] reports an undecodable body with an
      exception that derives from [RequestException] (requests 2.27 and
      later) or with a plain [ValueError] *)
  json_error_is_request_exception : bool;
  (** the longest duration [time.sleep] accepts, at least a minute *)
  sleep_max : Q;
  sleep_max_minute : (60 <= sleep_max)%Q;
  (** [datetime.now().strftime("%Y%m%d_%H%M%S")] *)
  timestamp : str
}.

(** The dict that [check_promo_code] returns; the keys that only the 200
    branch sets are optional. *)
Record Outcome := {
  code : str;
  valid : bool;
  status : str;
  emoji : str;
  plan : value;
  uses : option value;
  max_uses : option value;
  message : str;
  raw_data : option value
}.

(** [o['code']], for the places where [code] names the argument. *)
Definition code_of (o : Outcome) : str := code o.

(** The [results] dict of [bulk_check_from_file]. *)
Record Results := {
  claimable : list Outcome;
  claimed : list Outcome;
  invalid : list Outcome;
  rate_limited : list Outcome;
  error : list Outcome
}.

(** What [response.json()] gives: the decoded value, or a decoding error
    with its description. *)
Inductive json_result :=
| Decoded (v : value)
| Undecodable (desc : str).

(** What the program observes of a response: [status_code],
    [headers.get('Retry-After')], [text] and [json()]. *)
Record response := {
  status_code : Z;
  retry_after : option str;
  text : str;
  json : json_result
}.

(** One call of [requests.get]: a response, or a [RequestException] with its
    [str(e)]. *)
Inductive behaviour :=
| Response (r : response)
| Failure (desc : str).

Inductive event :=
| EGet (url : str)
| ESleep (d : pynum)
| EWrite (filename : str) (r : Results).

(** [nreq] counts the requests made so far; the transport answers the
    [n]-th request of a run with [net n]. *)
Record world := {
  nreq : nat;
  log : list event
}.

Definition M (A : Type) : Type := world -> result A * world.

Definition ret {A} (a : A) : M A := fun w => (Ret a, w).
Definition raise {A} (e : pyexn) : M A := fun w => (Raise e, w).
Definition bind {A B} (c : M A) (k : A -> M B) : M B :=
  fun w =>
    match c w with
    | (Ret a, w') => k a w'
    | (Raise e, w') => (Raise e, w')
    end.
Definition lift {A} (r : result A) : M A := fun w => (r, w).

Declare Scope py_scope.
Delimit Scope py_scope with py.
Notation "x <- c ;; k" := (bind c (fun x => k))
  (at level 61, c at next level, right associativity) : py_scope.
Notation "c ;;; k" := (bind c (fun _ => k))
  (at level 61, right associativity) : py_scope.
Open Scope py_scope.

(** [try: body except requests.exceptions.RequestException as e: handler]. *)
Definition try_except {A} (body : M A) (handler : str -> M A) : M A :=
  fun w =>
    match body w with
    | (Raise (RequestException desc), w') => handler desc w'
    | r => r
    end.

Definition emit (e : event) : M unit :=
  fun w => (Ret tt, {| nreq := nreq w; log := log w ++ [e] |}).

(** [obj.get(key, default)]: only a dict has the method. *)
Definition py_get (obj : value) (key : str) (default : value) : result value :=
  match obj with
  | VDict d => Ret (match dict_get d key with Some v => v | None => default end)
  | _ => Raise AttributeError
  end.

(** How one iteration of a [for] loop ends. *)
Inductive flow (A : Type) :=
| Return (a : A)
| Continue.
Arguments Return {A} a.
Arguments Continue {A}.

Section Program.

Variable rt : Runtime.

(** [repr(v)] and [str(v)]. *)
Fixpoint py_repr (v : value) : str :=
  match v with
  | VNone => lit "None"
  | VBool b => if b then lit "True" else lit "False"
  | VInt n => str_of_Z n
  | VFloat f => float_repr rt f
  | VStr s => str_repr rt s
  | VList l => lit "[" ++ join (lit ", ") (map py_repr l) ++ lit "]"
  | VDict d =>
    lit "{" ++
    join (lit ", ")
      ((fix items (d : list (str * value)) : list str :=
          match d with
          | [] => []
          | (k, x) :: d' => (str_repr rt k ++ lit ": " ++ py_repr x) :: items d'
          end) d)
    ++ lit "}"
  end.

Definition py_str (v : value) : str :=
  match v with
  | VStr s => s
  | _ => py_repr v
  end.

(** [time.sleep(d)]: a negative or NaN duration is a [ValueError], one that
    is too long an [OverflowError]. *)
Definition sleep_error (d : pynum) : option pyexn :=
  match float_of_num d with
  | PNaN => Some ValueError
  | PNegInf => Some ValueError
  | PInf => Some OverflowError
  | PFin q =>
    if Qlt_bool q 0 then Some ValueError
    else if Qle_bool q (sleep_max rt) then None
    else Some OverflowError
  end.

Definition time_sleep (d : pynum) : M unit :=
  match sleep_error d with
  | Some e => raise e
  | None => emit (ESleep d)
  end.

(** [response.json()]. *)
Definition response_json (r : response) : result value :=
  match json r with
  | Decoded v => Ret v
  | Undecodable desc =>
    if json_error_is_request_exception rt
    then Raise (RequestException desc)
    else Raise ValueError
  end.

Variable net : nat -> behaviour.

Definition requests_get (url : str) : M response :=
  fun w =>
    let w' := {| nreq := S (nreq w); log := log w ++ [EGet url] |} in
    match net (nreq w) with
    | Response r => (Ret r, w')
    | Failure desc => (Raise (RequestException desc), w')
    end.

Definition gift_url (code : str) : str :=
  lit "https://discord.com/api/v9/entitlements/gift-codes/" ++ code.

(** Lines 40-74: the 200 branch. *)
Definition on_200 (code : str) (debug : bool) (r : response) : result Outcome :=
  match response_json r with
  | Raise e => Raise e
  | Ret data =>
  match py_get data (lit "redeemed") (VBool false) with
  | Raise e => Raise e
  | Ret is_redeemed =>
  match py_get data (lit "uses") (VInt 0) with
  | Raise e => Raise e
  | Ret uses =>
  match py_get data (lit "max_uses") (VInt 1) with
  | Raise e => Raise e
  | Ret max_uses =>
  match py_get data (lit "subscription_plan") (VDict []) with
  | Raise e => Raise e
  | Ret plan_info =>
  match py_get plan_info (lit "name") (VStr (lit "Unknown")) with
  | Raise e => Raise e
  | Ret plan_name =>
  match (if truthy is_redeemed then Ret true else py_cmp Ge uses max_uses) with
  | Raise e => Raise e
  | Ret is_claimed =>
    let status := if is_claimed then lit "CLAIMED" else lit "CLAIMABLE" in
    let status_emoji := if is_claimed then lit "❌" else lit "✅" in
    match (match py_cmp Gt uses (VInt 0) with
           | Ret false => py_cmp Gt max_uses (VInt 1)
           | r => r
           end) with
    | Raise e => Raise e
    | Ret show_uses =>
      let extra_info :=
        if show_uses
        then lit " (Uses: " ++ py_str uses ++ lit "/" ++ py_str max_uses ++ lit ")"
        else [] in
      Ret {| code := code;
             valid := true;
             status := status;
             emoji := status_emoji;
             plan := plan_name;
             uses := Some uses;
             max_uses := Some max_uses;
             message := status_emoji ++ lit " Code is " ++ status ++ lit " - "
                        ++ py_str plan_name ++ extra_info;
             raw_data := Some (if debug then data else VNone) |}
    end
  end end end end end end end.

(** The dicts of the other branches share their shape. *)
Definition failed (code status emoji message : str) : Outcome :=
  {| code := code;
     valid := false;
     status := status;
     emoji := emoji;
     plan := VStr (lit "N/A");
     uses := None;
     max_uses := None;
     message := message;
     raw_data := None |}.

(** The dicts of lines 77-84, 95-102, 108-115, 122-129 and 131-138. *)
Definition invalid_outcome (code : str) : Outcome :=
  failed code (lit "INVALID") (lit "⚠️")
    (lit "⚠️ Code is INVALID (Unknown Gift Code)").

Definition rate_limited_outcome (code : str) : Outcome :=
  failed code (lit "RATE_LIMITED") (lit "⏳")
    (lit "⏳ Rate limited - Try again later or increase delay").

Definition error_outcome (code : str) (error_msg : value) : Outcome :=
  failed code (lit "ERROR") (lit "❌")
    (lit "❌ Error checking code: " ++ py_str error_msg).

Definition network_error (code : str) (e : str) : Outcome :=
  failed code (lit "ERROR") (lit "❌") (lit "❌ Network error: " ++ e).

Definition max_retries_exceeded (code : str) : Outcome :=
  failed code (lit "ERROR") (lit "❌") (lit "❌ Max retries exceeded").

(** Lines 104-115: a status other than 200, 404 and 429. *)
Definition on_other (code : str) (r : response) : result Outcome :=
  match (if nonempty (text r) then response_json r else Ret (VDict [])) with
  | Raise e => Raise e
  | Ret error_data =>
    match py_get error_data (lit "message") (VStr (lit "Unknown error")) with
    | Raise e => Raise e
    | Ret error_msg => Ret (error_outcome code error_msg)
    end
  end.

(** Lines 86-102: the 429 branch. *)
Definition on_429 (code : str) (max_retries attempt : Z) (r : response)
  : M (flow Outcome) :=
  if attempt <? max_retries - 1 then
    match (match retry_after r with
           | None => Some 3
           | Some h => py_int rt h
           end) with
    | None => raise ValueError
    | Some retry_after =>
      let wait_time := Z.min (retry_after * 2 ^ attempt) 30 in
      time_sleep (PInt wait_time) ;;;
      ret Continue
    end
  else
    ret (Return (rate_limited_outcome code)).

(** Lines 117-129: the handler of the [try]. *)
Definition on_request_exception (code : str) (max_retries attempt : Z) (e : str)
  : M (flow Outcome) :=
  if attempt <? max_retries - 1 then
    let wait_time := Z.min (2 * 2 ^ attempt) 10 in
    time_sleep (PInt wait_time) ;;;
    ret Continue
  else
    ret (Return (network_error code e)).

(** Lines 36-129: one iteration of the retry loop. *)
Definition attempt_once (code : str) (debug : bool) (max_retries attempt : Z)
  : M (flow Outcome) :=
  try_except
    (r <- requests_get (gift_url code) ;;
     if status_code r =? 200 then
       o <- lift (on_200 code debug r) ;; ret (Return o)
     else if status_code r =? 404 then
       ret (Return (invalid_outcome code))
     else if status_code r =? 429 then
       on_429 code max_retries attempt r
     else
       o <- lift (on_other code r) ;; ret (Return o))
    (on_request_exception code max_retries attempt).

(** [for attempt in range(max_retries)]: [n] iterations are left, the next
    one is number [attempt]; [None] when the range is exhausted. *)
Fixpoint retry_loop (code : str) (debug : bool) (max_retries : Z)
    (n : nat) (attempt : Z) : M (option Outcome) :=
  match n with
  | O => ret None
  | S n' =>
    f <- attempt_once code debug max_retries attempt ;;
    match f with
    | Return o => ret (Some o)
    | Continue => retry_loop code debug max_retries n' (attempt + 1)
    end
  end.

Definition check_promo_code (code : str) (debug : bool) (max_retries : Z)
  : M Outcome :=
  r <- retry_loop code debug max_retries (Z.to_nat max_retries) 0 ;;
  match r with
  | Some o => ret o
  | None => ret (max_retries_exceeded code)
  end.

(* ---------------------------------------------------------------- *)
(** ** bulk_check_from_file *)

(** Lines 150-156: the codes of the lines of the input file. *)
Definition codes_of_lines (lines : list str) : list str :=
  fold_left
    (fun codes_to_check line =>
       let line := strip line in
       if nonempty line && negb (startswith line (lit "#")) then
         match extract_gift_code line with
         | Some code =>
           if nonempty code then codes_to_check ++ [code] else codes_to_check
         | None => codes_to_check
         end
       else codes_to_check)
    lines [].

(** Lines 179-193: the result goes to the list of its status. *)
Definition record_result (results : Results) (result : Outcome) : Results :=
  if str_eqb (status result) (lit "CLAIMABLE") then
    {| claimable := claimable results ++ [result];
       claimed := claimed results;
       invalid := invalid results;
       rate_limited := rate_limited results;
       error := error results |}
  else if str_eqb (status result) (lit "CLAIMED") then
    {| claimable := claimable results;
       claimed := claimed results ++ [result];
       invalid := invalid results;
       rate_limited := rate_limited results;
       error := error results |}
  else if str_eqb (status result) (lit "INVALID") then
    {| claimable := claimable results;
       claimed := claimed results;
       invalid := invalid results ++ [result];
       rate_limited := rate_limited results;
       error := error results |}
  else if str_eqb (status result) (lit "RATE_LIMITED") then
    {| claimable := claimable results;
       claimed := claimed results;
       invalid := invalid results;
       rate_limited := rate_limited results ++ [result];
       error := error results |}
  else
    {| claimable := claimable results;
       claimed := claimed results;
       invalid := invalid results;
       rate_limited := rate_limited results;
       error := error results ++ [result] |}.

Definition empty_results : Results :=
  {| claimable := []; claimed := []; invalid := []; rate_limited := []; error := [] |}.

(** Lines 174-196: [for i, code in enumerate(codes_to_check, 1)], with
    [total = len(codes_to_check)]. *)
Fixpoint check_all (delay : pynum) (total : nat) (codes : list str) (i : nat)
    (results : Results) : M Results :=
  match codes with
  | [] => ret results
  | code :: rest =>
    result <- check_promo_code code false 3 ;;
    let results := record_result results result in
    (if (i <? total)%nat then time_sleep delay else ret tt) ;;;
    check_all delay total rest (S i) results
  end.

(** [save_results]: the report is written from [results]. *)
Definition save_results (results : Results) (filename : str) : M unit :=
  emit (EWrite filename results).

(** The files that exist, each with its [readlines()]. *)
Variable fs : str -> option (list str).

Definition bulk_check_from_file (filename : str) (output_file : option str)
    (delay : pynum) : M unit :=
  match fs filename with
  | None => ret tt
  | Some lines =>
    let codes_to_check := codes_of_lines lines in
    if negb (nonempty codes_to_check) then ret tt
    else
      results <- check_all delay (length codes_to_check) codes_to_check 1%nat
                   empty_results ;;
      match output_file with
      | Some name =>
        if nonempty name then save_results results name
        else save_results results (lit "results_" ++ timestamp rt ++ lit ".txt")
      | None => save_results results (lit "results_" ++ timestamp rt ++ lit ".txt")
      end
  end.

(* ---------------------------------------------------------------- *)
(** ** main, bulk mode *)

(** Lines 344-357: the delay read from the console. *)
Definition main_delay (entered : str) : pyfloat :=
  let delay_input := strip entered in
  if nonempty delay_input then
    match py_float rt delay_input with
    | Some delay =>
      if float_lt delay (float_of_num (PInt 0)) then PFin (5 # 2)
      else if float_lt (float_of_num (PInt 60)) delay then PFin (60 # 1)
      else delay
    | None => PFin (5 # 2)
    end
  else PFin (5 # 2).

(** Lines 341-359. *)
Definition main_bulk (filename_entered delay_entered : str) : M unit :=
  bulk_check_from_file (strip filename_entered) None
    (PFloat (main_delay delay_entered)).

End Program.

(* ------------------------------------------------------------------ *)
(** * A concrete runtime and transports, for running the model *)

Module Fixture.

Definition digit (c : char) : option Z :=
  if ((48 <=? c) && (c <=? 57))%N then Some (Z.of_N c - 48) else None.

Fixpoint digits (acc : Z) (s : str) : option Z :=
  match s with
  | [] => Some acc
  | c :: t =>
    match digit c with
    | Some d => digits (10 * acc + d) t
    | None => None
    end
  end.

(** Plain decimal numerals with an optional sign, as [int] and [float] read
    them; other spellings are left out of this runtime. *)
Definition decimal (s : str) : option Z :=
  match strip s with
  | [] => None
  | 45%N :: (_ :: _) as t => option_map Z.opp (digits 0 t)
  | 43%N :: (_ :: _) as t => digits 0 t
  | t => digits 0 t
  end.

(** A runtime to run the model with.  Its [repr] of a finite float is a
    stand-in (numerator and denominator); no run below prints a float. *)
Definition runtime (modern_requests : bool) : Runtime :=
  {| py_int := decimal;
     py_float := fun s => option_map (fun z => PFin (inject_Z z)) (decimal s);
     float_repr := fun f =>
       match f with
       | PNaN => lit "nan"
       | PInf => lit "inf"
       | PNegInf => lit "-inf"
       | PFin q => str_of_Z (Qnum q) ++ lit "/" ++ str_of_Z (Zpos (Qden q))
       end;
     str_repr := fun s => lit "'" ++ s ++ lit "'";
     json_error_is_request_exception := modern_requests;
     sleep_max := 86400 # 1;
     sleep_max_minute := ltac:(unfold Qle; simpl; lia);
     timestamp := lit "20240101_120000" |}.

Definition initial : world := {| nreq := 0; log := [] |}.

Definition sample_code : str := lit "ABCDEFGHIJKLMNOP1234".

Definition always (b : behaviour) : nat -> behaviour := fun _ => b.

(** A 500 whose body is the JSON array [[]]. *)
Definition array_500 : behaviour :=
  Response {| status_code := 500; retry_after := None;
              text := lit "[]"; json := Decoded (VList []) |}.

(** A 502 with an HTML page for a body. *)
Definition html_502 : behaviour :=
  Response {| status_code := 502; retry_after := None;
              text := lit "<html><body>Bad Gateway</body></html>";
              json := Undecodable (lit "Expecting value: line 1 column 1 (char 0)") |}.

(** A 200 whose body is the JSON array [[]]. *)
Definition array_200 : behaviour :=
  Response {| status_code := 200; retry_after := None;
              text := lit "[]"; json := Decoded (VList []) |}.

(** A 429 whose Retry-After header is a date. *)
Definition dated_429 : behaviour :=
  Response {| status_code := 429;
              retry_after := Some (lit "Wed, 21 Oct 2015 07:28:00 GMT");
              text := lit "{}"; json := Decoded (VDict []) |}.

(** A 429 that asks for five seconds. *)
Definition rate_limit : response :=
  {| status_code := 429; retry_after := Some (lit "5");
     text := lit "{}"; json := Decoded (VDict []) |}.

(** The body of an unused gift of Nitro, and its 200 response. *)
Definition nitro : list (str * value) :=
  [ (lit "uses", VInt 0); (lit "max_uses", VInt 1); (lit "redeemed", VBool false);
    (lit "subscription_plan", VDict [(lit "name", VStr (lit "Nitro"))]) ].

Definition ok_200 : response :=
  {| status_code := 200; retry_after := None;
     text := lit "{...}"; json := Decoded (VDict nitro) |}.

Definition not_found : response :=
  {| status_code := 404; retry_after := None;
     text := lit "{}"; json := Decoded (VDict []) |}.

(** A 429 that asks for minus one second. *)
Definition negative_429 : response :=
  {| status_code := 429; retry_after := Some (lit "-1");
     text := lit "{}"; json := Decoded (VDict []) |}.

(** The body of a redeemed gift that gives no counts, and its 200 response. *)
Definition redeemed_only : list (str * value) := [ (lit "redeemed", VBool true) ].

Definition redeemed_200 : response :=
  {| status_code := 200; retry_after := None;
     text := lit "{...}"; json := Decoded (VDict redeemed_only) |}.

(** An input file of four lines, one of them with a code. *)
Definition codes_txt : list str :=
  [ lit "# my codes"; lit "";
    lit "https://discord.gift/ABCDEFGHIJKLMNOP1234"; lit "not a code" ].

End Fixture.

(* ------------------------------------------------------------------ *)
(** * Notions used to state the properties *)

(** The wait that the 429 branch reads from a response. *)
Definition retry_seconds (rt : Runtime) (r : response) : option Z :=
  match retry_after r with
  | None => Some 3
  | Some h => py_int rt h
  end.

(** The world after one more request, and after one more sleep. *)
Definition after_get (url : str) (w : world) : world :=
  {| nreq := S (nreq w); log := log w ++ [EGet url] |}.

Definition after_sleep (d : pynum) (w : world) : world :=
  {| nreq := nreq w; log := log w ++ [ESleep d] |}.

(** A failed attempt that is followed by a retry: the request, then the
    sleep. *)
Definition failed_attempt (code : str) (i : nat) : list event :=
  [ EGet (gift_url code); ESleep (PInt (Z.min (2 * 2 ^ Z.of_nat i) 10)) ].

(** [d.get(key, default)] on the items of a dict. *)
Definition field (d : list (str * value)) (key : str) (default : value) : value :=
  match dict_get d key with
  | Some v => v
  | None => default
  end.

(** What an attempt makes of the result of a branch that ends the lookup. *)
Definition finish (rt : Runtime) (code : str) (max_retries : Z)
    (res : result Outcome) (attempt : Z) (w : world)
  : result (flow Outcome) * world :=
  match res with
  | Ret o => (Ret (Return o), w)
  | Raise (RequestException desc) =>
    on_request_exception rt code max_retries attempt desc w
  | Raise e => (Raise e, w)
  end.

(** The body of a 200 response as the endpoint documents it: an object with
    an optional boolean [redeemed], optional integers [uses] and [max_uses]
    and an optional object [subscription_plan]. *)
Definition body_redeemed (d : list (str * value)) : option bool :=
  match dict_get d (lit "redeemed") with
  | None => Some false
  | Some (VBool b) => Some b
  | Some _ => None
  end.

Definition body_count (d : list (str * value)) (key : str) (default : Z) : option Z :=
  match dict_get d key with
  | None => Some default
  | Some (VInt n) => Some n
  | Some _ => None
  end.

Definition body_plan (d : list (str * value)) : option (list (str * value)) :=
  match dict_get d (lit "subscription_plan") with
  | None => Some []
  | Some (VDict p) => Some p
  | Some _ => None
  end.

(** The values that compare as numbers, and the dicts. *)
Definition is_number (v : value) : bool :=
  match as_num v with Some _ => true | None => false end.

Definition is_dict (v : value) : bool :=
  match v with VDict _ => true | _ => false end.

(** A 200 body on which the 200 branch raises nothing. *)
Definition body_200_ok (v : value) : bool :=
  match v with
  | VDict d =>
    is_dict (field d (lit "subscription_plan") (VDict []))
    && is_number (field d (lit "uses") (VInt 0))
    && is_number (field d (lit "max_uses") (VInt 1))
  | _ => false
  end.

(** [response.json()] gives a value that is [ok], or fails with a
    [RequestException]. *)
Definition decodes_to (rt : Runtime) (ok : value -> bool) (r : response) : bool :=
  match json r with
  | Decoded v => ok v
  | Undecodable _ => json_error_is_request_exception rt
  end.

(** Behaviours of the transport on which every operation of the lookup is
    defined: a decoded 200 body is an object whose use counts are numbers and
    whose plan is an object; a 429 has no Retry-After header or one that
    [int] reads as a non-negative number; any other body is empty or an
    object.  A body that does not decode is covered when the decoding error
    is a [RequestException]. *)
Definition conforming (rt : Runtime) (b : behaviour) : bool :=
  match b with
  | Failure _ => true
  | Response r =>
    if status_code r =? 200 then decodes_to rt body_200_ok r
    else if status_code r =? 404 then true
    else if status_code r =? 429 then
      match retry_seconds rt r with
      | Some n => 0 <=? n
      | None => false
      end
    else if nonempty (text r) then decodes_to rt is_dict r
    else true
  end.

(** The delay as the specification words it: the entered number clamped to
    the interval from 0 to 60. *)
Definition clamped_delay (v : Q) : Q := Qmin (Qmax v 0) 60.

(** The positions of a character in a string, counted from [i]. *)
Fixpoint positions (c : char) (l : str) (i : nat) : list nat :=
  match l with
  | [] => []
  | x :: t => if (x =? c)%N then i :: positions c t (S i) else positions c t (S i)
  end.

(** The full stop, which every pattern has and no code has. *)
Definition dot : char := 46%N.

(** The URLs requested and the files written, in the order of the log. *)
Fixpoint requests_of (l : list event) : list str :=
  match l with
  | [] => []
  | EGet url :: t => url :: requests_of t
  | _ :: t => requests_of t
  end.

Fixpoint files_of (l : list event) : list str :=
  match l with
  | [] => []
  | EWrite name _ :: t => name :: files_of t
  | _ :: t => files_of t
  end.

(** The requests of a batch in which the lookup of each code made the
    number of requests listed for it. *)
Fixpoint lookups (codes : list str) (ks : list nat) : list str :=
  match codes, ks with
  | code :: codes', k :: ks' => repeat (gift_url code) k ++ lookups codes' ks'
  | _, _ => []
  end.

(** The number of entries of a [results] dict. *)
Definition entries (r : Results) : nat :=
  (length (claimable r) + length (claimed r) + length (invalid r)
   + length (rate_limited r) + length (error r))%nat.

(** The lines of the input file that are given to [extract_gift_code]. *)
Definition candidate (line : str) : bool :=
  nonempty (strip line) && negb (startswith (strip line) (lit "#")).

(** The codes of one line of the input file. *)
Definition codes_of_line (line : str) : list str :=
  if candidate line then
    match extract_gift_code (strip line) with
    | Some code => [code]
    | None => []
    end
  else [].

(** A lookup with the default [max_retries] makes one to three requests. *)
Definition attempts_ok (k : nat) : Prop := (1 <= k <= 3)%nat.

(** The name under which the report of a batch is saved. *)
Definition report_name (rt : Runtime) (output_file : option str) : str :=
  match output_file with
  | Some name =>
    if nonempty name then name else lit "results_" ++ timestamp rt ++ lit ".txt"
  | None => lit "results_" ++ timestamp rt ++ lit ".txt"
  end.

(** A computation that requests nothing and writes no file. *)
Definition quiet {A} (c : M A) : Prop :=
  forall w r w', c w = (r, w') ->
    requests_of (log w') = requests_of (log w) /\ files_of (log w') = files_of (log w).

(** The five kinds of outcome. *)
Definition kinds : list str :=
  [ lit "CLAIMABLE"; lit "CLAIMED"; lit "INVALID"; lit "RATE_LIMITED"; lit "ERROR" ].

Definition well_formed (code : str) (o : Outcome) : Prop :=
  code_of o = code /\ In (status o) kinds.

(* ------------------------------------------------------------------ *)
(** * The report, the console session and [main] *)

Definition newline : str := [10%N].

(** [s * n]. *)
Definition times (s : str) (n : nat) : str := List.concat (repeat s n).

(** [len(l)] in an f-string. *)
Definition count_of {A} (l : list A) : str := str_of_Z (Z.of_nat (length l)).

Section Report.

Variable rt : Runtime.

(** [datetime.now().strftime('%Y-%m-%d %H:%M:%S')]. *)
Variable now : str.

Definition dashes : str := times (lit "-") 70 ++ newline.

(** Lines 221-269: the arguments of the calls of [f.write], in order. *)
Definition report_writes (results : Results) : list str :=
  [ times (lit "=") 70 ++ newline;
    lit "Discord Promo Code Check Results - " ++ now ++ newline;
    times (lit "=") 70 ++ newline ++ newline ]
  ++ (if nonempty (claimable results) then
        [ lit "✅ CLAIMABLE CODES (" ++ count_of (claimable results) ++ lit "):"
            ++ newline;
          dashes ]
        ++ flat_map (fun r =>
                       [ lit "Code: " ++ code r ++ newline;
                         lit "Plan: " ++ py_str rt (plan r) ++ newline;
                         lit "Status: " ++ message r ++ newline;
                         dashes ])
             (claimable results)
        ++ [ newline ]
      else [])
  ++ (if nonempty (claimed results) then
        [ lit "❌ CLAIMED CODES (" ++ count_of (claimed results) ++ lit "):"
            ++ newline;
          dashes ]
        ++ flat_map (fun r =>
                       [ lit "Code: " ++ code r ++ newline;
                         lit "Plan: " ++ py_str rt (plan r) ++ newline;
                         dashes ])
             (claimed results)
        ++ [ newline ]
      else [])
  ++ (if nonempty (invalid results) then
        [ lit "⚠️ INVALID CODES (" ++ count_of (invalid results) ++ lit "):"
            ++ newline;
          dashes ]
        ++ flat_map (fun r => [ lit "Code: " ++ code r ++ newline; dashes ])
             (invalid results)
        ++ [ newline ]
      else [])
  ++ (if nonempty (rate_limited results) then
        [ lit "⏳ RATE LIMITED CODES (" ++ count_of (rate_limited results)
            ++ lit "):" ++ newline;
          dashes ]
        ++ flat_map (fun r =>
                       [ lit "Code: " ++ code r ++ newline;
                         lit "Message: " ++ message r ++ newline;
                         dashes ])
             (rate_limited results)
        ++ [ newline;
             lit "💡 TIP: Re-run these codes with a higher delay (3-5 seconds)"
               ++ newline;
             lit "to avoid Discord's rate limits." ++ newline ++ newline ]
      else [])
  ++ (if nonempty (error results) then
        [ lit "❌ ERROR CODES (" ++ count_of (error results) ++ lit "):" ++ newline;
          dashes ]
        ++ flat_map (fun r =>
                       [ lit "Code: " ++ code r ++ newline;
                         lit "Message: " ++ message r ++ newline;
                         dashes ])
             (error results)
      else []).

End Report.

Section Console.

Variable rt : Runtime.
Variable net : nat -> behaviour.

(** [str.lower]. *)
Variable lower : str -> str.

(** [user_input.lower() in ['quit', 'exit', 'q']]. *)
Definition quits (user_input : str) : bool :=
  str_eqb (lower user_input) (lit "quit")
  || str_eqb (lower user_input) (lit "exit")
  || str_eqb (lower user_input) (lit "q").

(** Lines 283-318: the [while True] loop, over the lines that [input()] will
    return; each iteration reads one, and [input()] raises [EOFError] when
    there is none left. *)
Fixpoint interactive_loop (inputs : list str) (debug_mode : bool) : M unit :=
  match inputs with
  | [] => raise EOFError
  | entered :: inputs' =>
    let user_input := strip entered in
    if quits user_input then ret tt
    else if str_eqb (lower user_input) (lit "debug") then
      interactive_loop inputs' (negb debug_mode)
    else if negb (nonempty user_input) then interactive_loop inputs' debug_mode
    else
      match extract_gift_code user_input with
      | None => interactive_loop inputs' debug_mode
      | Some code =>
        if negb (nonempty code) then interactive_loop inputs' debug_mode
        else
          result <- check_promo_code rt net code debug_mode 3 ;;
          time_sleep rt (PFloat (PFin (1 # 2))) ;;;
          interactive_loop inputs' debug_mode
      end
  end.

Definition interactive_mode (inputs : list str) : M unit :=
  interactive_loop inputs false.

Variable fs : str -> option (list str).

(** Lines 330-361; the prompts of bulk mode are read before anything else
    happens, so an input that ends before the second of them raises
    [EOFError] with the world as it was. *)
Definition main (inputs : list str) : M unit :=
  match inputs with
  | [] => raise EOFError
  | entered :: inputs' =>
    let choice := strip entered in
    if str_eqb choice (lit "1") then interactive_mode inputs'
    else if str_eqb choice (lit "2") then
      match inputs' with
      | filename :: delay_input :: _ => main_bulk rt net fs filename delay_input
      | _ => raise EOFError
      end
    else ret tt
  end.

End Console.

(* ------------------------------------------------------------------ *)
(** * Further notions *)

(** The log of a lookup that requested, waited, requested again and so on,
    with the waits in [waits]: one request more than waits. *)
Fixpoint lookup_log (code : str) (waits : list Z) : list event :=
  match waits with
  | [] => [EGet (gift_url code)]
  | z :: waits' => EGet (gift_url code) :: ESleep (PInt z) :: lookup_log code waits'
  end.

(** A wait of the retry loop: whole seconds, 30 at most. *)
Definition short_wait (z : Z) : Prop := 0 <= z <= 30.

(** The wait before the retry when attempt number [attempt] met [b]: a
    transport failure, or a 429 whose Retry-After is absent or a
    non-negative integer; [None] for the behaviours that are not retried
    with a wait. *)
Definition backoff (rt : Runtime) (b : behaviour) (attempt : Z) : option Z :=
  match b with
  | Failure _ => Some (Z.min (2 * 2 ^ attempt) 10)
  | Response r =>
    if status_code r =? 429 then
      match retry_seconds rt r with
      | Some n => if 0 <=? n then Some (Z.min (n * 2 ^ attempt) 30) else None
      | None => None
      end
    else None
  end.

(** The attempts from request number [start] on, numbered from [attempt],
    were retried after the waits [waits]. *)
Fixpoint retried (rt : Runtime) (net : nat -> behaviour) (start : nat)
    (attempt : Z) (waits : list Z) : Prop :=
  match waits with
  | [] => True
  | z :: waits' =>
    backoff rt (net start) attempt = Some z
    /\ retried rt net (S start) (attempt + 1) waits'
  end.

(** The outcome with which a response ends the lookup, if it does. *)
Definition answer (rt : Runtime) (code : str) (debug : bool) (r : response)
  : option Outcome :=
  if status_code r =? 200 then
    match on_200 rt code debug r with Ret o => Some o | Raise _ => None end
  else if status_code r =? 404 then Some (invalid_outcome code)
  else if status_code r =? 429 then None
  else match on_other rt code r with Ret o => Some o | Raise _ => None end.

(** A step that either waits and asks for another attempt, or leaves the
    world as it is. *)
Definition waits_or_ends (max_retries attempt : Z) (c : M (flow Outcome)) : Prop :=
  forall w res w',
    c w = (res, w') ->
    (res = Ret Continue /\ attempt < max_retries - 1 /\
     exists z, short_wait z /\ w' = after_sleep (PInt z) w)
    \/ (res <> Ret Continue /\ w' = w).

(** What the dicts of [check_promo_code] have in common: the code that was
    asked for, a message that starts with the emoji, and either the keys of
    an answer ([valid], with the counts and [raw_data]) or those of a
    refusal. *)
Definition consistent (code : str) (o : Outcome) : Prop :=
  code_of o = code
  /\ startswith (message o) (emoji o) = true
  /\ ((valid o = true
       /\ (status o = lit "CLAIMABLE" /\ emoji o = lit "✅"
           \/ status o = lit "CLAIMED" /\ emoji o = lit "❌")
       /\ uses o <> None /\ max_uses o <> None /\ raw_data o <> None)
      \/ (valid o = false
          /\ In (status o) [lit "INVALID"; lit "RATE_LIMITED"; lit "ERROR"]
          /\ plan o = VStr (lit "N/A")
          /\ uses o = None /\ max_uses o = None /\ raw_data o = None)).

(** The entries of a [results] dict, category after category. *)
Definition all_entries (r : Results) : list Outcome :=
  claimable r ++ claimed r ++ invalid r ++ rate_limited r ++ error r.

(** Every entry is in the list of its status. *)
Definition classified (r : Results) : Prop :=
  Forall (fun o => status o = lit "CLAIMABLE") (claimable r)
  /\ Forall (fun o => status o = lit "CLAIMED") (claimed r)
  /\ Forall (fun o => status o = lit "INVALID") (invalid r)
  /\ Forall (fun o => status o = lit "RATE_LIMITED") (rate_limited r)
  /\ Forall (fun o => status o = lit "ERROR") (error r).


(** The lines of a console session that are read before a word that ends
    it, and the code that each of them gives. *)
Definition spoken (lower : str -> str) (inputs : list str) : list str :=
  takewhile (fun entered => negb (quits lower (strip entered))) inputs.

Definition codes_of_entry (lower : str -> str) (entered : str) : list str :=
  if str_eqb (lower (strip entered)) (lit "debug") then []
  else match extract_gift_code (strip entered) with
       | Some code => [code]
       | None => []
       end.

Definition session_codes (lower : str -> str) (inputs : list str) : list str :=
  flat_map (codes_of_entry lower) (spoken lower inputs).

(** The lines of the report that name a code, and the tip of the report. *)
Definition code_line (code : str) : str := lit "Code: " ++ code ++ newline.

Definition is_code_line (chunk : str) : bool := startswith chunk (lit "Code: ").

Definition is_tip (chunk : str) : bool := startswith chunk (lit "💡").

Module Console.

(** [str.lower] on letters A to Z. *)
Definition ascii_lower (s : str) : str :=
  map (fun c => if ((65 <=? c) && (c <=? 90))%N then (c + 32)%N else c) s.

(** A runtime whose [float] also reads "nan". *)
Definition runtime : Runtime :=
  {| py_int := py_int (Fixture.runtime true);
     py_float := fun s =>
       if str_eqb (ascii_lower (strip s)) (lit "nan") then Some PNaN
       else py_float (Fixture.runtime true) s;
     float_repr := float_repr (Fixture.runtime true);
     str_repr := str_repr (Fixture.runtime true);
     json_error_is_request_exception := true;
     sleep_max := sleep_max (Fixture.runtime true);
     sleep_max_minute := sleep_max_minute (Fixture.runtime true);
     timestamp := timestamp (Fixture.runtime true) |}.

(** An input file with two codes. *)
Definition two_codes : list str :=
  [ lit "ABCDEFGHIJKLMNOP1234"; lit "https://discord.gift/QRSTUVWXYZ0123456789" ].

(** A transport that is rate limited once and then answers. *)
Definition limited_once : nat -> behaviour :=
  fun n => match n with
           | O => Response Fixture.rate_limit
           | S _ => Response Fixture.ok_200
           end.

End Console.

(** How a session ends when no lookup and no pause raises: by returning
    when a word that ends it is among the lines, and with the [EOFError] of
    [input()] otherwise. *)
Definition session_result (lower : str -> str) (inputs : list str) : result unit :=
  if existsb (fun entered => quits lower (strip entered)) inputs
  then Ret tt else Raise EOFError.

(* ------------------------------------------------------------------ *)
(** * Facts about the retry loop *)

Section RetryFacts.

Variable rt : Runtime.
Variable net : nat -> behaviour.

Lemma sleep_error_short (z : Z) :
  0 <= z <= 60 -> sleep_error rt (PInt z) = None.
Proof.
  intros [Hlo Hhi]. unfold sleep_error, Qlt_bool. cbn [float_of_num].
  assert (H0 : Qle_bool 0 (inject_Z z) = true).
  { apply Qle_bool_iff. unfold Qle; simpl. lia. }
  assert (H1 : Qle_bool (inject_Z z) (sleep_max rt) = true).
  { apply Qle_bool_iff. apply Qle_trans with (y := (60 # 1)%Q).
    - unfold Qle; simpl. lia.
    - apply (sleep_max_minute rt). }
  rewrite H0, H1. reflexivity.
Qed.

Lemma sleep_error_kind (d : pynum) (e : pyexn) :
  sleep_error rt d = Some e -> e = ValueError \/ e = OverflowError.
Proof.
  unfold sleep_error.
  destruct (float_of_num d) as [| | |q]; try (intros [= <-]; auto).
  destruct (Qlt_bool q 0); [intros [= <-]; auto|].
  destruct (Qle_bool q (sleep_max rt)); [discriminate | intros [= <-]; auto].
Qed.

Lemma time_sleep_short (z : Z) (w : world) :
  0 <= z <= 60 -> time_sleep rt (PInt z) w = (Ret tt, after_sleep (PInt z) w).
Proof.
  intros H. unfold time_sleep. rewrite (sleep_error_short z H). reflexivity.
Qed.

Lemma time_sleep_negative (z : Z) (w : world) :
  z < 0 -> time_sleep rt (PInt z) w = (Raise ValueError, w).
Proof.
  intros H. unfold time_sleep, sleep_error, Qlt_bool. cbn [float_of_num].
  assert (H0 : Qle_bool 0 (inject_Z z) = false).
  { destruct (Qle_bool 0 (inject_Z z)) eqn:E; [|reflexivity].
    apply Qle_bool_iff in E. unfold Qle in E; simpl in E. lia. }
  rewrite H0. reflexivity.
Qed.

Lemma backoff_429_range (n attempt : Z) :
  0 <= n -> 0 <= attempt -> 0 <= Z.min (n * 2 ^ attempt) 30 <= 60.
Proof.
  intros Hn Ha. assert (0 < 2 ^ attempt) by (apply Z.pow_pos_nonneg; lia). nia.
Qed.

Lemma backoff_error_range (attempt : Z) :
  0 <= attempt -> 0 <= Z.min (2 * 2 ^ attempt) 10 <= 60.
Proof.
  intros Ha. assert (0 < 2 ^ attempt) by (apply Z.pow_pos_nonneg; lia). lia.
Qed.

Variables (code : str) (debug : bool) (max_retries : Z).

Lemma attempt_failure (attempt : Z) (w : world) (desc : str) :
  net (nreq w) = Failure desc ->
  attempt_once rt net code debug max_retries attempt w =
  on_request_exception rt code max_retries attempt desc (after_get (gift_url code) w).
Proof.
  intros H. unfold attempt_once, try_except, bind, requests_get.
  rewrite H. reflexivity.
Qed.

Lemma attempt_429 (attempt : Z) (w : world) (r : response) :
  net (nreq w) = Response r -> status_code r = 429 ->
  attempt_once rt net code debug max_retries attempt w =
  on_429 rt code max_retries attempt r (after_get (gift_url code) w).
Proof.
  intros H Hs. unfold attempt_once, try_except, bind, requests_get.
  rewrite H, Hs. cbn [Z.eqb Pos.eqb].
  unfold on_429.
  destruct (attempt <? max_retries - 1); [|reflexivity].
  destruct (match retry_after r with None => Some 3 | Some h => py_int rt h end)
    as [n|]; [|reflexivity].
  unfold bind, time_sleep.
  destruct (sleep_error rt _) as [e|] eqn:E; [|reflexivity].
  destruct (sleep_error_kind _ _ E); subst e; reflexivity.
Qed.

End RetryFacts.

(* ------------------------------------------------------------------ *)
(** * Rate limiting *)

Section RateLimited.

Variable rt : Runtime.
Variable net : nat -> behaviour.
Variables (code : str) (debug : bool).

Lemma on_429_retry (max_retries attempt n : Z) (r : response) (w : world) :
  attempt < max_retries - 1 -> 0 <= attempt ->
  retry_seconds rt r = Some n -> 0 <= n ->
  on_429 rt code max_retries attempt r w
  = (Ret Continue, after_sleep (PInt (Z.min (n * 2 ^ attempt) 30)) w).
Proof.
  intros Hlt Ha Hn Hn0. unfold on_429.
  apply Z.ltb_lt in Hlt. rewrite Hlt.
  unfold retry_seconds in Hn. rewrite Hn.
  unfold bind. rewrite time_sleep_short by (apply backoff_429_range; assumption).
  reflexivity.
Qed.

Lemma on_429_last (max_retries attempt : Z) (r : response) (w : world) :
  max_retries - 1 <= attempt ->
  on_429 rt code max_retries attempt r w = (Ret (Return (rate_limited_outcome code)), w).
Proof.
  intros H. unfold on_429. apply Z.ltb_ge in H. rewrite H. reflexivity.
Qed.

(** With [max_retries = 3] and a 429 on each attempt whose Retry-After header
    is absent or a non-negative integer, three requests are made, the two
    retries are preceded by sleeps of [min(retry_after * 2^attempt, 30)]
    seconds ([retry_after] being the integer of the header, 3 without the
    header), and the outcome is RATE_LIMITED. *)
Theorem rate_limited_three_attempts (w : world) (r0 r1 r2 : response) (n0 n1 : Z) :
  net (nreq w) = Response r0 -> status_code r0 = 429 ->
  net (S (nreq w)) = Response r1 -> status_code r1 = 429 ->
  net (S (S (nreq w))) = Response r2 -> status_code r2 = 429 ->
  retry_seconds rt r0 = Some n0 -> 0 <= n0 ->
  retry_seconds rt r1 = Some n1 -> 0 <= n1 ->
  check_promo_code rt net code debug 3 w
  = (Ret (rate_limited_outcome code),
     {| nreq := nreq w + 3;
        log := log w ++ [ EGet (gift_url code);
                          ESleep (PInt (Z.min (n0 * 2 ^ 0) 30));
                          EGet (gift_url code);
                          ESleep (PInt (Z.min (n1 * 2 ^ 1) 30));
                          EGet (gift_url code) ] |})
  /\ status (rate_limited_outcome code) = lit "RATE_LIMITED".
Proof.
  intros H0 S0 H1 S1 H2 S2 N0 P0 N1 P1. split; [|reflexivity].
  unfold check_promo_code.
  change (Z.to_nat 3) with 3%nat. cbn [retry_loop]. unfold bind at 1 2.
  erewrite attempt_429; [|exact H0|exact S0].
  rewrite (on_429_retry 3 0 n0 r0 _) by (assumption || lia).
  unfold bind at 1.
  erewrite attempt_429; [|exact H1|exact S1].
  rewrite (on_429_retry 3 (0 + 1) n1 r1 _) by (assumption || lia).
  unfold bind at 1.
  erewrite attempt_429; [|exact H2|exact S2].
  rewrite on_429_last by lia.
  unfold ret, after_sleep, after_get. cbn [nreq log].
  repeat rewrite <- app_assoc. cbn [app].
  replace (S (S (S (nreq w)))) with (nreq w + 3)%nat by lia.
  reflexivity.
Qed.

End RateLimited.

(** C1: a 429 on each attempt does not always give three requests and
    RATE_LIMITED.  When the Retry-After header is the integer -1 the wait
    is [min(-1 * 2^0, 30) = -1], [time.sleep] raises a [ValueError] and the
    lookup ends with it after one request; when the header is a date, [int]
    raises the [ValueError].  The only handler is for [RequestException]. *)
Theorem unusable_retry_after_raises :
  (status_code Fixture.negative_429 = 429
   /\ retry_seconds (Fixture.runtime true) Fixture.negative_429 = Some (-1))
  /\
  check_promo_code (Fixture.runtime true)
    (Fixture.always (Response Fixture.negative_429))
    Fixture.sample_code false 3 Fixture.initial
  = (Raise ValueError,
     {| nreq := 1; log := [EGet (gift_url Fixture.sample_code)] |})
  /\
  check_promo_code (Fixture.runtime true) (Fixture.always Fixture.dated_429)
    Fixture.sample_code false 3 Fixture.initial
  = (Raise ValueError,
     {| nreq := 1; log := [EGet (gift_url Fixture.sample_code)] |}).
Proof. repeat split; vm_compute; reflexivity. Qed.

(* ------------------------------------------------------------------ *)
(** * Transport failures *)

Section TransportFailure.

Variable rt : Runtime.
Variable net : nat -> behaviour.
Variables (code : str) (debug : bool) (max_retries : Z).

Lemma on_request_exception_retry (attempt : Z) (desc : str) (w : world) :
  attempt < max_retries - 1 -> 0 <= attempt ->
  on_request_exception rt code max_retries attempt desc w
  = (Ret Continue, after_sleep (PInt (Z.min (2 * 2 ^ attempt) 10)) w).
Proof.
  intros Hlt Ha. unfold on_request_exception.
  apply Z.ltb_lt in Hlt. rewrite Hlt. unfold bind.
  rewrite time_sleep_short by (apply backoff_error_range; assumption).
  reflexivity.
Qed.

Lemma on_request_exception_last (attempt : Z) (desc : str) (w : world) :
  max_retries - 1 <= attempt ->
  on_request_exception rt code max_retries attempt desc w
  = (Ret (Return (network_error code desc)), w).
Proof.
  intros H. unfold on_request_exception. apply Z.ltb_ge in H. rewrite H.
  reflexivity.
Qed.

Lemma retry_loop_failures (m : nat) :
  forall (a : nat) (w : world),
    Z.of_nat a + Z.of_nat (S m) = max_retries ->
    (forall i, (i <= m)%nat -> exists desc, net (nreq w + i) = Failure desc) ->
    exists desc,
      net (nreq w + m) = Failure desc /\
      retry_loop rt net code debug max_retries (S m) (Z.of_nat a) w
      = (Ret (Some (network_error code desc)),
         {| nreq := nreq w + S m;
            log := log w ++ flat_map (failed_attempt code) (seq a m)
                         ++ [EGet (gift_url code)] |}).
Proof.
  induction m as [|m IH]; intros a w Hsum Hnet.
  - destruct (Hnet 0%nat (Nat.le_refl _)) as [desc Hd].
    exists desc. split; [exact Hd|].
    rewrite Nat.add_0_r in Hd.
    cbn [retry_loop]. unfold bind.
    rewrite (attempt_failure rt net code debug max_retries _ w desc Hd).
    rewrite on_request_exception_last by lia.
    unfold ret, after_get. cbn [seq flat_map app].
    replace (nreq w + 1)%nat with (S (nreq w)) by lia. reflexivity.
  - destruct (Hnet 0%nat (Nat.le_0_l _)) as [d0 Hd0].
    rewrite Nat.add_0_r in Hd0.
    set (w1 := after_sleep (PInt (Z.min (2 * 2 ^ Z.of_nat a) 10))
                 (after_get (gift_url code) w)).
    destruct (IH (S a) w1) as [desc [Hlast Hrun]].
    + lia.
    + intros i Hi. destruct (Hnet (S i)) as [d Hd]; [lia|].
      exists d. cbn [w1 after_sleep after_get nreq].
      replace (S (nreq w) + i)%nat with (nreq w + S i)%nat by lia. exact Hd.
    + exists desc. split.
      * cbn [w1 after_sleep after_get nreq] in Hlast.
        replace (nreq w + S m)%nat with (S (nreq w) + m)%nat by lia. exact Hlast.
      * change (retry_loop rt net code debug max_retries (S (S m)) (Z.of_nat a) w)
          with (bind (attempt_once rt net code debug max_retries (Z.of_nat a))
                  (fun f => match f with
                            | Return o => ret (Some o)
                            | Continue =>
                              retry_loop rt net code debug max_retries (S m)
                                (Z.of_nat a + 1)
                            end) w).
        unfold bind.
        rewrite (attempt_failure rt net code debug max_retries _ w d0 Hd0).
        rewrite on_request_exception_retry by lia.
        fold w1.
        replace (Z.of_nat a + 1) with (Z.of_nat (S a)) by lia.
        rewrite Hrun. f_equal.
        cbn [w1 after_sleep after_get nreq log].
        replace (S (nreq w) + S m)%nat with (nreq w + S (S m))%nat by lia.
        f_equal. rewrite <- !app_assoc. reflexivity.
Qed.

(** C3: when every attempt ends in a transport failure, each retry is
    preceded by a sleep of [min(2 * 2^attempt, 10)] seconds, and after
    [max_retries] requests the outcome is ERROR with the description of the
    last failure in its message. *)
Theorem transport_failures_exhaust_retries (w : world) :
  1 <= max_retries ->
  (forall i, (i < Z.to_nat max_retries)%nat ->
             exists desc, net (nreq w + i) = Failure desc) ->
  exists desc,
    net (nreq w + (Z.to_nat max_retries - 1)) = Failure desc /\
    check_promo_code rt net code debug max_retries w
    = (Ret (network_error code desc),
       {| nreq := nreq w + Z.to_nat max_retries;
          log := log w
                 ++ flat_map (failed_attempt code) (seq 0 (Z.to_nat max_retries - 1))
                 ++ [EGet (gift_url code)] |}) /\
    status (network_error code desc) = lit "ERROR" /\
    message (network_error code desc) = lit "❌ Network error: " ++ desc.
Proof.
  intros Hpos Hnet.
  destruct (Z.to_nat max_retries) as [|m] eqn:Em; [lia|].
  destruct (retry_loop_failures m 0%nat w) as [desc [Hlast Hrun]].
  - lia.
  - intros i Hi. apply Hnet. lia.
  - exists desc. replace (S m - 1)%nat with m by lia.
    split; [exact Hlast|]. split; [|split; reflexivity].
    unfold check_promo_code, bind. rewrite Em.
    change (Z.of_nat 0) with 0 in Hrun. rewrite Hrun. reflexivity.
Qed.

End TransportFailure.

(* ------------------------------------------------------------------ *)
(** * Terminal responses *)

Lemma py_cmp_num (op : cmpop) (a b : value) (x y : pynum) :
  as_num a = Some x -> as_num b = Some y ->
  py_cmp op a b = Ret (num_cmp op x y).
Proof.
  destruct a; try discriminate; destruct b; try discriminate;
    cbn; intros [= <-] [= <-]; reflexivity.
Qed.

Lemma Qle_bool_inject (x y : Z) : Qle_bool (inject_Z x) (inject_Z y) = (x <=? y).
Proof.
  unfold Qle_bool, inject_Z. cbn [Qnum Qden]. rewrite !Z.mul_1_r. reflexivity.
Qed.

Lemma num_le_int (x y : Z) : num_le (PInt x) (PInt y) = (x <=? y).
Proof. unfold num_le. cbn. apply Qle_bool_inject. Qed.

Lemma num_lt_int (x y : Z) : num_lt (PInt x) (PInt y) = (x <? y).
Proof.
  unfold num_lt. cbn. unfold Qlt_bool. rewrite Qle_bool_inject.
  rewrite Z.ltb_antisym. reflexivity.
Qed.

Section Terminal.

Variable rt : Runtime.
Variable net : nat -> behaviour.
Variables (code : str) (debug : bool) (max_retries : Z).

Lemma attempt_200 (attempt : Z) (w : world) (r : response) :
  net (nreq w) = Response r -> status_code r = 200 ->
  attempt_once rt net code debug max_retries attempt w
  = finish rt code max_retries (on_200 rt code debug r) attempt (after_get (gift_url code) w).
Proof.
  intros H Hs. unfold attempt_once, try_except, bind, requests_get.
  rewrite H, Hs. cbn [Z.eqb Pos.eqb]. unfold lift, finish.
  destruct (on_200 rt code debug r) as [o|[]]; reflexivity.
Qed.

Lemma attempt_404 (attempt : Z) (w : world) (r : response) :
  net (nreq w) = Response r -> status_code r = 404 ->
  attempt_once rt net code debug max_retries attempt w
  = (Ret (Return (invalid_outcome code)), after_get (gift_url code) w).
Proof.
  intros H Hs. unfold attempt_once, try_except, bind, requests_get.
  rewrite H, Hs. reflexivity.
Qed.

Lemma attempt_other (attempt : Z) (w : world) (r : response) :
  net (nreq w) = Response r ->
  status_code r <> 200 -> status_code r <> 404 -> status_code r <> 429 ->
  attempt_once rt net code debug max_retries attempt w
  = finish rt code max_retries (on_other rt code r) attempt (after_get (gift_url code) w).
Proof.
  intros H H2 H4 H9. unfold attempt_once, try_except, bind, requests_get.
  rewrite H.
  apply Z.eqb_neq in H2, H4, H9. rewrite H2, H4, H9. unfold lift, finish.
  destruct (on_other rt code r) as [o|[]]; reflexivity.
Qed.

(** With at least one attempt allowed, a first attempt that returns or
    raises decides the lookup. *)
Lemma check_first_return (w w' : world) (o : Outcome) :
  1 <= max_retries ->
  attempt_once rt net code debug max_retries 0 w = (Ret (Return o), w') ->
  check_promo_code rt net code debug max_retries w = (Ret o, w').
Proof.
  intros Hpos H. unfold check_promo_code.
  destruct (Z.to_nat max_retries) as [|n] eqn:E; [lia|].
  cbn [retry_loop]. unfold bind. rewrite H. reflexivity.
Qed.

Lemma check_first_raise (w w' : world) (e : pyexn) :
  1 <= max_retries ->
  attempt_once rt net code debug max_retries 0 w = (Raise e, w') ->
  check_promo_code rt net code debug max_retries w = (Raise e, w').
Proof.
  intros Hpos H. unfold check_promo_code.
  destruct (Z.to_nat max_retries) as [|n] eqn:E; [lia|].
  cbn [retry_loop]. unfold bind. rewrite H. reflexivity.
Qed.

(** The 200 branch on a decoded object whose use counts are numbers and
    whose plan is an object. *)
Lemma on_200_object (r : response) (d p : list (str * value)) (u m : pynum) :
  json r = Decoded (VDict d) ->
  field d (lit "subscription_plan") (VDict []) = VDict p ->
  as_num (field d (lit "uses") (VInt 0)) = Some u ->
  as_num (field d (lit "max_uses") (VInt 1)) = Some m ->
  exists o,
    on_200 rt code debug r = Ret o /\
    code_of o = code /\
    valid o = true /\
    status o = (if truthy (field d (lit "redeemed") (VBool false)) || num_le m u
                then lit "CLAIMED" else lit "CLAIMABLE") /\
    plan o = field p (lit "name") (VStr (lit "Unknown")) /\
    uses o = Some (field d (lit "uses") (VInt 0)) /\
    max_uses o = Some (field d (lit "max_uses") (VInt 1)) /\
    raw_data o = Some (if debug then VDict d else VNone).
Proof.
  intros Hj Hp Hu Hm. unfold on_200, response_json. rewrite Hj.
  cbn [py_get]. fold (field d (lit "redeemed") (VBool false)).
  fold (field d (lit "uses") (VInt 0)).
  fold (field d (lit "max_uses") (VInt 1)).
  fold (field d (lit "subscription_plan") (VDict [])).
  rewrite Hp. cbn [py_get].
  rewrite (py_cmp_num Ge _ _ u m Hu Hm).
  rewrite (py_cmp_num Gt _ (VInt 0) u (PInt 0) Hu eq_refl).
  rewrite (py_cmp_num Gt _ (VInt 1) m (PInt 1) Hm eq_refl).
  cbn [num_cmp].
  destruct (truthy (field d (lit "redeemed") (VBool false)));
    destruct (num_le m u); destruct (num_lt (PInt 0) u);
    try destruct (num_lt (PInt 1) m);
    (eexists; split; [reflexivity|]; unfold code_of; cbn [valid status plan uses max_uses raw_data orb];
     repeat split; reflexivity).
Qed.

End Terminal.

(* ------------------------------------------------------------------ *)
(** * Classification of a 200 response *)

Lemma body_redeemed_field d b :
  body_redeemed d = Some b -> field d (lit "redeemed") (VBool false) = VBool b.
Proof.
  unfold body_redeemed, field.
  destruct (dict_get d (lit "redeemed")) as [[]|]; intros [= <-]; reflexivity.
Qed.

Lemma body_count_field d key default n :
  body_count d key default = Some n -> field d key (VInt default) = VInt n.
Proof.
  unfold body_count, field.
  destruct (dict_get d key) as [[]|]; intros [= <-]; reflexivity.
Qed.

Lemma body_plan_field d p :
  body_plan d = Some p -> field d (lit "subscription_plan") (VDict []) = VDict p.
Proof.
  unfold body_plan, field.
  destruct (dict_get d (lit "subscription_plan")) as [[]|]; intros [= <-]; reflexivity.
Qed.

Lemma claimed_not_claimable : lit "CLAIMED" <> lit "CLAIMABLE".
Proof. cbv. discriminate. Qed.

Section Classification.

Variable rt : Runtime.
Variable net : nat -> behaviour.
Variables (code : str) (debug : bool) (max_retries : Z).

(** C2, as the code has it: a 200 response whose body is an object of the
    documented form (a boolean [redeemed], integers [uses] and [max_uses],
    an object [subscription_plan], each of them optional) is classified
    CLAIMED exactly when [redeemed] is true or [uses >= max_uses], with
    [redeemed], [uses] and [max_uses] read as false, 0 and 1 when absent,
    and CLAIMABLE otherwise; without [uses] and [max_uses] a code is
    CLAIMABLE unless it is redeemed, and a redeemed one is CLAIMED whatever
    the counts. *)
Theorem classification_200 (w : world) (r : response)
    (d p : list (str * value)) (b : bool) (u m : Z) :
  1 <= max_retries ->
  net (nreq w) = Response r -> status_code r = 200 ->
  json r = Decoded (VDict d) ->
  body_redeemed d = Some b ->
  body_count d (lit "uses") 0 = Some u ->
  body_count d (lit "max_uses") 1 = Some m ->
  body_plan d = Some p ->
  exists o,
    check_promo_code rt net code debug max_retries w
    = (Ret o, after_get (gift_url code) w) /\
    (status o = lit "CLAIMED" <-> b = true \/ m <= u) /\
    (status o = lit "CLAIMABLE" <-> ~ (b = true \/ m <= u)) /\
    (dict_get d (lit "uses") = None -> dict_get d (lit "max_uses") = None ->
     b = false -> status o = lit "CLAIMABLE") /\
    (b = true -> status o = lit "CLAIMED").
Proof.
  intros Hpos Hnet Hs Hj Hb Hu Hm Hp.
  destruct (on_200_object rt code debug r d p (PInt u) (PInt m) Hj
              (body_plan_field d p Hp))
    as [o (Ho & _ & _ & Hst & _)].
  { rewrite (body_count_field _ _ _ _ Hu). reflexivity. }
  { rewrite (body_count_field _ _ _ _ Hm). reflexivity. }
  exists o. split.
  { apply check_first_return; [assumption|].
    rewrite (attempt_200 rt net code debug max_retries 0 w r Hnet Hs).
    rewrite Ho. reflexivity. }
  rewrite (body_redeemed_field d b Hb) in Hst. cbn [truthy] in Hst.
  rewrite num_le_int in Hst.
  assert (Hdec : (b || (m <=? u)) = true <-> b = true \/ m <= u).
  { rewrite orb_true_iff, Z.leb_le. reflexivity. }
  pose proof claimed_not_claimable as Hne.
  destruct (b || (m <=? u)) eqn:E; rewrite Hst.
  - assert (Hc : b = true \/ m <= u) by (apply Hdec; reflexivity).
    split; [|split; [|split]].
    + tauto.
    + split; [intros H; exfalso; apply Hne; exact H | tauto].
    + intros Hnu Hnm Hbf. exfalso. subst b.
      unfold body_count in Hu, Hm. rewrite Hnu in Hu. rewrite Hnm in Hm.
      injection Hu as <-. injection Hm as <-. destruct Hc; [discriminate|lia].
    + reflexivity.
  - assert (Hc : ~ (b = true \/ m <= u)).
    { intros H. apply Hdec in H. discriminate. }
    split; [|split; [|split]].
    + split; [intros H; exfalso; apply Hne; symmetry; exact H | tauto].
    + tauto.
    + reflexivity.
    + intros Hbt. exfalso. apply Hc. left. exact Hbt.
Qed.

End Classification.

(** C2 as worded fails: a body without [uses] and [max_uses] does not always
    give CLAIMABLE.  When it says [redeemed: true] the code is CLAIMED, by
    the test [is_redeemed or uses >= max_uses] of line 53. *)
Lemma missing_counts_counterexample :
  (status_code Fixture.redeemed_200 = 200
   /\ json Fixture.redeemed_200 = Decoded (VDict Fixture.redeemed_only)
   /\ dict_get Fixture.redeemed_only (lit "uses") = None
   /\ dict_get Fixture.redeemed_only (lit "max_uses") = None)
  /\
  exists o,
    check_promo_code (Fixture.runtime true)
      (Fixture.always (Response Fixture.redeemed_200))
      Fixture.sample_code false 3 Fixture.initial
    = (Ret o, after_get (gift_url Fixture.sample_code) Fixture.initial)
    /\ status o = lit "CLAIMED"
    /\ status o <> lit "CLAIMABLE".
Proof.
  split; [repeat split; reflexivity|].
  eexists. split; [vm_compute; reflexivity|].
  split; [reflexivity | vm_compute; discriminate].
Qed.

(* ------------------------------------------------------------------ *)
(** * One request, no retry *)

Section OneRequest.

Variable rt : Runtime.
Variable net : nat -> behaviour.
Variables (code : str) (debug : bool) (max_retries : Z).

Lemma on_other_object (r : response) (d : list (str * value)) :
  text r = [] /\ d = [] \/ text r <> [] /\ json r = Decoded (VDict d) ->
  on_other rt code r
  = Ret (error_outcome rt code (field d (lit "message") (VStr (lit "Unknown error")))).
Proof.
  unfold on_other. intros [[Ht ->]|[Ht Hj]].
  - rewrite Ht. reflexivity.
  - destruct (text r); [contradiction|]. cbn [nonempty].
    unfold response_json. rewrite Hj. reflexivity.
Qed.

Lemma check_200_returns (w : world) (r : response) (v : value) :
  1 <= max_retries ->
  net (nreq w) = Response r -> status_code r = 200 ->
  json r = Decoded v -> body_200_ok v = true ->
  exists o, check_promo_code rt net code debug max_retries w
            = (Ret o, after_get (gift_url code) w).
Proof.
  intros Hpos Hnet Hs Hj Hok.
  destruct v as [| | | | | |d]; try discriminate.
  cbn [body_200_ok] in Hok.
  apply andb_prop in Hok. destruct Hok as [Hok Hm].
  apply andb_prop in Hok. destruct Hok as [Hp Hu].
  destruct (field d (lit "subscription_plan") (VDict [])) as [| | | | | |p] eqn:Ep;
    try discriminate.
  unfold is_number in Hu, Hm.
  destruct (as_num (field d (lit "uses") (VInt 0))) as [u|] eqn:Eu; [|discriminate].
  destruct (as_num (field d (lit "max_uses") (VInt 1))) as [m|] eqn:Em; [|discriminate].
  destruct (on_200_object rt code debug r d p u m Hj Ep Eu Em) as [o [Ho _]].
  exists o. apply check_first_return; [assumption|].
  rewrite (attempt_200 rt net code debug max_retries 0 w r Hnet Hs).
  rewrite Ho. reflexivity.
Qed.

(** Where the body is what the endpoint documents, the responses other than
    429 end the lookup: a 404, a 200 whose body decodes to an object (with
    numeric use counts and an object for the plan) and a response of any
    other status whose body is empty or decodes to an object are answered
    after one request, without a sleep; the 404 gives INVALID, the other
    status ERROR with the [message] field of the body in its message, or
    "Unknown error" without that field. *)
Theorem terminal_responses (w : world) (r : response) :
  1 <= max_retries ->
  net (nreq w) = Response r ->
  (status_code r = 404 ->
   check_promo_code rt net code debug max_retries w
   = (Ret (invalid_outcome code), after_get (gift_url code) w)
   /\ status (invalid_outcome code) = lit "INVALID")
  /\
  (status_code r = 200 ->
   forall v, json r = Decoded v -> body_200_ok v = true ->
   exists o, check_promo_code rt net code debug max_retries w
             = (Ret o, after_get (gift_url code) w))
  /\
  (status_code r <> 200 -> status_code r <> 404 -> status_code r <> 429 ->
   forall d,
     text r = [] /\ d = [] \/ text r <> [] /\ json r = Decoded (VDict d) ->
     let error_msg := field d (lit "message") (VStr (lit "Unknown error")) in
     check_promo_code rt net code debug max_retries w
     = (Ret (error_outcome rt code error_msg), after_get (gift_url code) w)
     /\ status (error_outcome rt code error_msg) = lit "ERROR"
     /\ message (error_outcome rt code error_msg)
        = lit "❌ Error checking code: " ++ py_str rt error_msg).
Proof.
  intros Hpos Hnet. split; [|split].
  - intros Hs. split; [|reflexivity].
    apply check_first_return; [assumption|].
    apply attempt_404 with (r := r); assumption.
  - intros Hs v Hj Hok. exact (check_200_returns w r v Hpos Hnet Hs Hj Hok).
  - intros H2 H4 H9 d Hd error_msg. split; [|split; reflexivity].
    apply check_first_return; [assumption|].
    rewrite (attempt_other rt net code debug max_retries 0 w r Hnet H2 H4 H9).
    rewrite (on_other_object r d Hd). reflexivity.
Qed.

End OneRequest.

(** C4: a response with a status other than 200, 404 and 429 is meant to end
    the lookup at once with ERROR and "Unknown error" when its body has no
    [message]; the code does so for an empty body only.  With a 500 whose
    body is a JSON array the lookup raises; with a 502 that carries an HTML
    page the decoding error is handled as a transport failure, so that the
    request is repeated after sleeps of 2 and 4 seconds and the message
    reports a network error (or, where the decoding error is a plain
    [ValueError], the exception leaves the function). *)
Theorem error_body_is_not_terminal :
  check_promo_code (Fixture.runtime true) (Fixture.always Fixture.array_500)
    Fixture.sample_code false 3 Fixture.initial
  = (Raise AttributeError,
     {| nreq := 1; log := [EGet (gift_url Fixture.sample_code)] |})
  /\
  check_promo_code (Fixture.runtime true) (Fixture.always Fixture.html_502)
    Fixture.sample_code false 3 Fixture.initial
  = (Ret (network_error Fixture.sample_code
            (lit "Expecting value: line 1 column 1 (char 0)")),
     {| nreq := 3;
        log := [ EGet (gift_url Fixture.sample_code); ESleep (PInt 2);
                 EGet (gift_url Fixture.sample_code); ESleep (PInt 4);
                 EGet (gift_url Fixture.sample_code) ] |})
  /\
  check_promo_code (Fixture.runtime false) (Fixture.always Fixture.html_502)
    Fixture.sample_code false 3 Fixture.initial
  = (Raise ValueError,
     {| nreq := 1; log := [EGet (gift_url Fixture.sample_code)] |}).
Proof. repeat split; vm_compute; reflexivity. Qed.

(* ------------------------------------------------------------------ *)
(** * What the branches can raise and return *)

Lemma py_cmp_raises_type_error (op : cmpop) :
  forall (a b : value) (e : pyexn), py_cmp op a b = Raise e -> e = TypeError.
Proof.
  fix IH 1. intros a b e.
  destruct a as [| | | | |l|]; destruct b as [| | | | |m|]; cbn;
    try discriminate; try (intros [= <-]; reflexivity);
    try (match goal with
         | |- context [match ?x with Some _ => _ | None => _ end] =>
           destruct x; try discriminate; intros [= <-]; reflexivity
         end).
  revert m. induction l as [|x l IHl]; intros [|y m]; try discriminate.
  destruct (value_eq x y); [apply IHl | apply IH].
Qed.

Section Branches.

Variable rt : Runtime.
Variables (code : str) (debug : bool).

Lemma kinds_claimed : In (lit "CLAIMED") kinds.
Proof. right; left; reflexivity. Qed.

Lemma kinds_claimable : In (lit "CLAIMABLE") kinds.
Proof. left; reflexivity. Qed.

Lemma kinds_error : In (lit "ERROR") kinds.
Proof. do 4 right; left; reflexivity. Qed.

(** The 200 branch returns only on a decoded body, and then what it
    returns carries the body or [None], a message that starts with the mark
    and ["Code is"], the code and one of the five kinds. *)
Lemma on_200_returns (r : response) (o : Outcome) :
  on_200 rt code debug r = Ret o ->
  exists data,
    json r = Decoded data /\
    raw_data o = Some (if debug then data else VNone) /\
    nth 2 (message o) 0%N = 67%N /\
    well_formed code o /\
    is_dict data = true.
Proof.
  intros H. unfold on_200, response_json in H.
  destruct (json r) as [data|desc];
    [|destruct (json_error_is_request_exception rt); discriminate].
  assert (Hd : is_dict data = true).
  { destruct data; try reflexivity; discriminate H. }
  repeat match type of H with
         | match ?x with _ => _ end = _ => destruct x eqn:?; try discriminate
         end.
  all: injection H as <-; exists data; unfold well_formed, code_of;
    cbn [message status raw_data];
    repeat split; try reflexivity; try exact Hd;
    match goal with
    | |- context [if ?b then lit "CLAIMED" else _] => destruct b
    | |- context [if ?b then lit "❌" else _] => destruct b
    end;
    (reflexivity || auto using kinds_claimed, kinds_claimable).
Qed.

End Branches.

Section Attempts.

Variable rt : Runtime.
Variable net : nat -> behaviour.
Variables (code : str) (debug : bool) (max_retries : Z).

Lemma on_other_returns (r : response) (o : Outcome) :
  on_other rt code r = Ret o ->
  nth 2 (message o) 0%N = 69%N /\ well_formed code o.
Proof.
  unfold on_other. intros H.
  repeat match type of H with
         | match ?x with _ => _ end = _ => destruct x eqn:?; try discriminate
         end.
  injection H as <-. split; [reflexivity|].
  split; [reflexivity | apply kinds_error].
Qed.

(** How the handler of the [try] ends. *)
Lemma on_request_exception_flow (attempt : Z) (desc : str) (w w' : world)
    (f : flow Outcome) :
  on_request_exception rt code max_retries attempt desc w = (Ret f, w') ->
  f = Continue /\ attempt < max_retries - 1
  \/ f = Return (network_error code desc).
Proof.
  unfold on_request_exception.
  destruct (attempt <? max_retries - 1) eqn:E.
  - unfold bind, time_sleep. destruct (sleep_error rt _); cbn; [discriminate|].
    intros [= <- _]. left. split; [reflexivity | apply Z.ltb_lt; exact E].
  - intros [= <- _]. right. reflexivity.
Qed.

Lemma on_429_flow (attempt : Z) (r : response) (w w' : world) (f : flow Outcome) :
  on_429 rt code max_retries attempt r w = (Ret f, w') ->
  f = Continue /\ attempt < max_retries - 1
  \/ f = Return (rate_limited_outcome code).
Proof.
  unfold on_429.
  destruct (attempt <? max_retries - 1) eqn:E.
  - destruct (match retry_after r with None => Some 3 | Some h => py_int rt h end);
      [|discriminate].
    unfold bind, time_sleep. destruct (sleep_error rt _); cbn; [discriminate|].
    intros [= <- _]. left. split; [reflexivity | apply Z.ltb_lt; exact E].
  - intros [= <- _]. right. reflexivity.
Qed.

Lemma finish_flow (res : result Outcome) (attempt : Z) (w w' : world)
    (f : flow Outcome) :
  finish rt code max_retries res attempt w = (Ret f, w') ->
  (exists o, res = Ret o /\ f = Return o)
  \/ (exists desc, res = Raise (RequestException desc) /\
        (f = Continue /\ attempt < max_retries - 1
         \/ f = Return (network_error code desc))).
Proof.
  unfold finish. destruct res as [o|[desc| | | | |]]; try discriminate.
  - intros [= <- _]. left. exists o. split; reflexivity.
  - intros H. right. exists desc. split; [reflexivity|].
    apply on_request_exception_flow with (w := w) (w' := w'). exact H.
Qed.

(** An attempt that continues was not the last one, and an attempt that
    returns gives a well-formed outcome other than the one after the loop. *)
Lemma attempt_flow (attempt : Z) (w w' : world) (f : flow Outcome) :
  attempt_once rt net code debug max_retries attempt w = (Ret f, w') ->
  match f with
  | Continue => attempt < max_retries - 1
  | Return o => well_formed code o /\ nth 2 (message o) 0%N <> 77%N
  end.
Proof.
  assert (Hnet_err : forall desc,
             well_formed code (network_error code desc) /\
             nth 2 (message (network_error code desc)) 0%N <> 77%N).
  { intros desc. split; [split; [reflexivity | apply kinds_error]|].
    cbv. discriminate. }
  destruct (net (nreq w)) as [r|desc] eqn:Hnet.
  - destruct (Z.eq_dec (status_code r) 200) as [H2|H2];
      [|destruct (Z.eq_dec (status_code r) 404) as [H4|H4];
        [|destruct (Z.eq_dec (status_code r) 429) as [H9|H9]]].
    + rewrite (attempt_200 rt net code debug max_retries attempt w r Hnet H2).
      intros H. apply finish_flow in H.
      destruct H as [[o [Ho ->]]|[desc [_ [[-> Hlt]| ->]]]]; auto.
      destruct (on_200_returns rt code debug r o Ho) as [data (_ & _ & Hn & Hwf & _)].
      split; [exact Hwf|]. rewrite Hn. discriminate.
    + rewrite (attempt_404 rt net code debug max_retries attempt w r Hnet H4).
      intros [= <- _]. split; [split; [reflexivity|]|].
      * do 2 right; left; reflexivity.
      * cbv. discriminate.
    + rewrite (attempt_429 rt net code debug max_retries attempt w r Hnet H9).
      intros H. apply on_429_flow in H. destruct H as [[-> Hlt]| ->]; auto.
      split; [split; [reflexivity|]|].
      * do 3 right; left; reflexivity.
      * cbv. discriminate.
    + rewrite (attempt_other rt net code debug max_retries attempt w r Hnet H2 H4 H9).
      intros H. apply finish_flow in H.
      destruct H as [[o [Ho ->]]|[desc [_ [[-> Hlt]| ->]]]]; auto.
      destruct (on_other_returns r o Ho) as [Hn Hwf].
      split; [exact Hwf|]. rewrite Hn. discriminate.
  - rewrite (attempt_failure rt net code debug max_retries attempt w desc Hnet).
    intros H. apply on_request_exception_flow in H.
    destruct H as [[-> Hlt]| ->]; auto.
Qed.

Lemma retry_loop_some (n : nat) :
  forall (attempt : Z) (w w' : world) (o : Outcome),
    retry_loop rt net code debug max_retries n attempt w = (Ret (Some o), w') ->
    well_formed code o /\ nth 2 (message o) 0%N <> 77%N.
Proof.
  induction n as [|n IH]; intros attempt w w' o.
  - discriminate.
  - cbn [retry_loop]. unfold bind.
    destruct (attempt_once rt net code debug max_retries attempt w)
      as [[[o1|]|e] w1] eqn:E.
    + intros [= <- _]. exact (attempt_flow attempt w w1 (Return o1) E).
    + apply IH.
    + discriminate.
Qed.


End Attempts.

Lemma py_get_raises_attribute_error (obj : value) (key : str) (default : value)
    (e : pyexn) :
  py_get obj key default = Raise e -> e = AttributeError.
Proof. destruct obj; cbn; try discriminate; intros [= <-]; reflexivity. Qed.

Section Decoded.

Variable rt : Runtime.
Variable net : nat -> behaviour.
Variables (code : str) (debug : bool) (max_retries : Z).

(** On a decoded body the 200 branch raises nothing that the handler of the
    [try] would catch. *)
Lemma on_200_decoded_raises (r : response) (data : value) (e : pyexn) :
  json r = Decoded data ->
  on_200 rt code debug r = Raise e ->
  e = AttributeError \/ e = TypeError.
Proof.
  intros Hj H. unfold on_200, response_json in H. rewrite Hj in H.
  repeat match type of H with
         | match ?x with _ => _ end = _ =>
           let E := fresh "E" in destruct x eqn:E; try discriminate
         end;
    injection H as <-;
    match goal with
    | E : py_get _ _ _ = Raise _ |- _ =>
      left; exact (py_get_raises_attribute_error _ _ _ _ E)
    | E : (if truthy ?a then _ else _) = Raise _ |- _ =>
      right; destruct (truthy a); [discriminate|];
      exact (py_cmp_raises_type_error _ _ _ _ E)
    | E : match py_cmp Gt ?a (VInt 0) with _ => _ end = Raise _ |- _ =>
      right; destruct (py_cmp Gt a (VInt 0)) as [[|]|] eqn:Eg;
      [ discriminate
      | exact (py_cmp_raises_type_error _ _ _ _ E)
      | injection E as <-; exact (py_cmp_raises_type_error _ _ _ _ Eg) ]
    end.
Qed.

(** C8, as the code has it: the dict returned for a 200 response whose body
    decodes always has the key [raw_data]; it holds the decoded body,
    unchanged, when [debug] is set and [None] when it is not; and a dict is
    returned whenever the body is an object with numeric use counts and an
    object for the plan. *)
Theorem raw_data_follows_debug (w : world) (r : response) (data : value) :
  1 <= max_retries ->
  net (nreq w) = Response r -> status_code r = 200 ->
  json r = Decoded data ->
  (forall o w',
      check_promo_code rt net code debug max_retries w = (Ret o, w') ->
      raw_data o = Some (if debug then data else VNone))
  /\
  (body_200_ok data = true ->
   exists o, check_promo_code rt net code debug max_retries w
             = (Ret o, after_get (gift_url code) w)).
Proof.
  intros Hpos Hnet Hs Hj.
  pose proof (attempt_200 rt net code debug max_retries 0 w r Hnet Hs) as Ha.
  split.
  - intros o w' Hrun.
    destruct (on_200 rt code debug r) as [o0|e] eqn:E.
    + cbn [finish] in Ha.
      rewrite (check_first_return rt net code debug max_retries w _ o0 Hpos Ha) in Hrun.
      injection Hrun as <- _.
      destruct (on_200_returns rt code debug r o0 E)
        as [data' (Hj' & Hraw & _ & _ & Hd)].
      rewrite Hj in Hj'. injection Hj' as <-. exact Hraw.
    + exfalso.
      assert (Hr : attempt_once rt net code debug max_retries 0 w
                   = (Raise e, after_get (gift_url code) w)).
      { rewrite Ha.
        destruct (on_200_decoded_raises r data e Hj E); subst e; reflexivity. }
      rewrite (check_first_raise rt net code debug max_retries w _ e Hpos Hr) in Hrun.
      discriminate.
  - intros Hok.
    exact (check_200_returns rt net code debug max_retries w r data
             Hpos Hnet Hs Hj Hok).
Qed.


End Decoded.

(** C8 as worded fails: without [debug] the key [raw_data] is not absent from
    the dict of a 200 response, it is there and holds [None], by the
    expression [data if debug else None] of line 73. *)
Lemma raw_data_key_counterexample :
  (status_code Fixture.ok_200 = 200
   /\ json Fixture.ok_200 = Decoded (VDict Fixture.nitro))
  /\
  exists o,
    check_promo_code (Fixture.runtime true)
      (Fixture.always (Response Fixture.ok_200))
      Fixture.sample_code false 3 Fixture.initial
    = (Ret o, after_get (gift_url Fixture.sample_code) Fixture.initial)
    /\ raw_data o = Some VNone
    /\ raw_data o <> None.
Proof.
  split; [split; reflexivity|].
  eexists. split; [vm_compute; reflexivity|].
  split; [reflexivity | discriminate].
Qed.

(* ------------------------------------------------------------------ *)
(** * Exceptions that leave the lookup *)

(** C5: exceptions do leave [check_promo_code].  A 200 whose body is the
    JSON array [[]] makes [data.get] raise an [AttributeError], and a 429
    whose Retry-After header is a date makes [int] raise a [ValueError];
    the only handler is for [RequestException]. *)
Theorem malformed_response_raises :
  check_promo_code (Fixture.runtime true) (Fixture.always Fixture.dated_429)
    Fixture.sample_code false 3 Fixture.initial
  = (Raise ValueError,
     {| nreq := 1; log := [EGet (gift_url Fixture.sample_code)] |})
  /\
  check_promo_code (Fixture.runtime true) (Fixture.always Fixture.array_200)
    Fixture.sample_code false 3 Fixture.initial
  = (Raise AttributeError,
     {| nreq := 1; log := [EGet (gift_url Fixture.sample_code)] |})
  /\
  ~ (exists o w',
        check_promo_code (Fixture.runtime true) (Fixture.always Fixture.array_200)
          Fixture.sample_code false 3 Fixture.initial = (Ret o, w')).
Proof.
  split; [vm_compute; reflexivity|].
  assert (H : check_promo_code (Fixture.runtime true)
                (Fixture.always Fixture.array_200)
                Fixture.sample_code false 3 Fixture.initial
              = (Raise AttributeError,
                 {| nreq := 1; log := [EGet (gift_url Fixture.sample_code)] |})).
  { vm_compute. reflexivity. }
  split; [exact H|].
  intros (o & w' & Hrun). rewrite H in Hrun. discriminate.
Qed.

Section Conforming.

Variable rt : Runtime.
Variable net : nat -> behaviour.
Variables (code : str) (debug : bool) (max_retries : Z).

Lemma on_request_exception_total (attempt : Z) (desc : str) (w : world) :
  0 <= attempt ->
  exists f w', on_request_exception rt code max_retries attempt desc w = (Ret f, w').
Proof.
  intros Ha. destruct (Z_lt_le_dec attempt (max_retries - 1)) as [Hlt|Hge].
  - rewrite on_request_exception_retry by assumption. eauto.
  - rewrite on_request_exception_last by assumption. eauto.
Qed.

Lemma on_429_total (attempt n : Z) (r : response) (w : world) :
  0 <= attempt -> retry_seconds rt r = Some n -> 0 <= n ->
  exists f w', on_429 rt code max_retries attempt r w = (Ret f, w').
Proof.
  intros Ha Hn Hn0. destruct (Z_lt_le_dec attempt (max_retries - 1)) as [Hlt|Hge].
  - rewrite (on_429_retry rt code max_retries attempt n r w) by assumption. eauto.
  - rewrite on_429_last by assumption. eauto.
Qed.

Lemma finish_total (res : result Outcome) (attempt : Z) (w : world) :
  0 <= attempt ->
  (exists o, res = Ret o) \/ (exists desc, res = Raise (RequestException desc)) ->
  exists f w', finish rt code max_retries res attempt w = (Ret f, w').
Proof.
  intros Ha [[o ->]|[desc ->]]; cbn [finish].
  - eauto.
  - apply on_request_exception_total. exact Ha.
Qed.

Lemma on_200_conforming (r : response) :
  decodes_to rt body_200_ok r = true ->
  (exists o, on_200 rt code debug r = Ret o)
  \/ (exists desc, on_200 rt code debug r = Raise (RequestException desc)).
Proof.
  unfold decodes_to. destruct (json r) as [v|desc] eqn:Hj; intros Hok.
  - left. destruct v as [| | | | | |d]; try discriminate.
    cbn [body_200_ok] in Hok.
    apply andb_prop in Hok. destruct Hok as [Hok Hm].
    apply andb_prop in Hok. destruct Hok as [Hp Hu].
    destruct (field d (lit "subscription_plan") (VDict [])) as [| | | | | |p] eqn:Ep;
      try discriminate.
    unfold is_number in Hu, Hm.
    destruct (as_num (field d (lit "uses") (VInt 0))) as [u|] eqn:Eu; [|discriminate].
    destruct (as_num (field d (lit "max_uses") (VInt 1))) as [m|] eqn:Em; [|discriminate].
    destruct (on_200_object rt code debug r d p u m Hj Ep Eu Em) as [o [Ho _]].
    exists o. exact Ho.
  - right. exists desc. unfold on_200, response_json. rewrite Hj, Hok. reflexivity.
Qed.

Lemma on_other_conforming (r : response) :
  (if nonempty (text r) then decodes_to rt is_dict r else true) = true ->
  (exists o, on_other rt code r = Ret o)
  \/ (exists desc, on_other rt code r = Raise (RequestException desc)).
Proof.
  destruct (text r) as [|c t] eqn:Ht; cbn [nonempty].
  - intros _. left. rewrite (on_other_object rt code r []); [eauto|].
    left. split; [exact Ht | reflexivity].
  - unfold decodes_to. destruct (json r) as [v|desc] eqn:Hj; intros Hok.
    + left. destruct v as [| | | | | |d]; try discriminate.
      rewrite (on_other_object rt code r d); [eauto|].
      right. split; [rewrite Ht; discriminate | exact Hj].
    + right. exists desc. unfold on_other, response_json.
      rewrite Ht, Hj, Hok. reflexivity.
Qed.

Lemma attempt_conforming (attempt : Z) (w : world) :
  0 <= attempt ->
  conforming rt (net (nreq w)) = true ->
  exists f w', attempt_once rt net code debug max_retries attempt w = (Ret f, w').
Proof.
  intros Ha Hc. destruct (net (nreq w)) as [r|desc] eqn:Hnet.
  - cbn [conforming] in Hc.
    destruct (Z.eqb_spec (status_code r) 200) as [H2|H2];
      [|destruct (Z.eqb_spec (status_code r) 404) as [H4|H4];
        [|destruct (Z.eqb_spec (status_code r) 429) as [H9|H9]]].
    + rewrite (attempt_200 rt net code debug max_retries attempt w r Hnet H2).
      apply finish_total; [exact Ha|]. apply on_200_conforming. exact Hc.
    + rewrite (attempt_404 rt net code debug max_retries attempt w r Hnet H4). eauto.
    + rewrite (attempt_429 rt net code debug max_retries attempt w r Hnet H9).
      destruct (retry_seconds rt r) as [n|] eqn:Hn; [|discriminate].
      apply on_429_total with (n := n); [exact Ha | exact Hn | apply Z.leb_le; exact Hc].
    + rewrite (attempt_other rt net code debug max_retries attempt w r Hnet H2 H4 H9).
      apply finish_total; [exact Ha|]. apply on_other_conforming. exact Hc.
  - rewrite (attempt_failure rt net code debug max_retries attempt w desc Hnet).
    apply on_request_exception_total. exact Ha.
Qed.

Lemma retry_loop_conforming (n : nat) :
  (forall k, conforming rt (net k) = true) ->
  forall (attempt : Z) (w : world),
    0 <= attempt ->
    exists r w', retry_loop rt net code debug max_retries n attempt w = (Ret r, w').
Proof.
  intros Hc. induction n as [|n IH]; intros attempt w Ha.
  - cbn. unfold ret. eauto.
  - cbn [retry_loop]. unfold bind.
    destruct (attempt_conforming attempt w Ha (Hc _)) as (f & w1 & Hf).
    rewrite Hf. destruct f as [o|].
    + unfold ret. eauto.
    + apply IH. lia.
Qed.

Lemma check_conforming (w : world) :
  (forall k, conforming rt (net k) = true) ->
  exists o w',
    check_promo_code rt net code debug max_retries w = (Ret o, w') /\
    well_formed code o.
Proof.
  intros Hc.
  destruct (retry_loop_conforming (Z.to_nat max_retries) Hc 0 w (Z.le_refl 0))
    as (r & w' & Hloop).
  unfold check_promo_code, bind. rewrite Hloop. destruct r as [o|].
  - exists o, w'. split; [reflexivity|].
    exact (proj1 (retry_loop_some rt net code debug max_retries _ 0 w w' o Hloop)).
  - exists (max_retries_exceeded code), w'. split; [reflexivity|].
    split; [reflexivity | apply kinds_error].
Qed.

(** On a transport all of whose behaviours are [conforming], whatever
    [max_retries] and whatever the order of responses and failures, the
    lookup returns an outcome for the code it was given, of one of the five
    kinds, and raises nothing. *)
Theorem lookup_returns_on_conforming_transport (w : world) :
  (forall k, conforming rt (net k) = true) ->
  exists o w',
    check_promo_code rt net code debug max_retries w = (Ret o, w') /\
    well_formed code o.
Proof. exact (check_conforming w). Qed.

End Conforming.

(* ------------------------------------------------------------------ *)
(** * The delay of bulk mode *)

Lemma Qlt_bool_iff (x y : Q) : Qlt_bool x y = true <-> (x < y)%Q.
Proof.
  unfold Qlt_bool. rewrite negb_true_iff. split.
  - intros H. apply Qnot_le_lt. intros Hle.
    apply Qle_bool_iff in Hle. congruence.
  - intros H. destruct (Qle_bool y x) eqn:E; [|reflexivity].
    apply Qle_bool_iff in E. exfalso. exact (Qlt_not_le _ _ H E).
Qed.

Lemma Qlt_bool_false (x y : Q) : Qlt_bool x y = false <-> (y <= x)%Q.
Proof.
  unfold Qlt_bool. rewrite negb_false_iff. apply Qle_bool_iff.
Qed.

(** C7 as worded fails: a negative delay is not clamped to 0, it is replaced
    by the default. *)
Lemma delay_clamp_counterexample :
  py_float (Fixture.runtime true) (strip (lit "-1")) = Some (PFin (inject_Z (-1)))
  /\ main_delay (Fixture.runtime true) (lit "-1") = PFin (5 # 2)
  /\ ~ (clamped_delay (inject_Z (-1)) == 5 # 2)%Q.
Proof.
  split; [reflexivity|]. split; [reflexivity|].
  vm_compute. discriminate.
Qed.

(** C7, as the code has it: the delay is the default 2.5 when the entered
    text is empty, is not a number, or is a negative number; it is 60 when
    the number is above 60 and the number itself otherwise, so that the
    delay handed to the batch run is within 0 and 60.  A text that reads as
    NaN is left aside. *)
Theorem main_delay_cases (rt : Runtime) (entered : str) :
  match (if nonempty (strip entered) then py_float rt (strip entered) else None) with
  | None => main_delay rt entered = PFin (5 # 2)
  | Some PNaN => True
  | Some PInf => main_delay rt entered = PFin (60 # 1)
  | Some PNegInf => main_delay rt entered = PFin (5 # 2)
  | Some (PFin q) =>
    ((q < 0)%Q -> main_delay rt entered = PFin (5 # 2)) /\
    ((60 < q)%Q -> main_delay rt entered = PFin (60 # 1)) /\
    ((0 <= q <= 60)%Q -> main_delay rt entered = PFin q)
  end
  /\
  ((if nonempty (strip entered) then py_float rt (strip entered) else None)
   <> Some PNaN ->
   exists q, main_delay rt entered = PFin q /\ (0 <= q <= 60)%Q).
Proof.
  unfold main_delay.
  destruct (nonempty (strip entered)).
  2:{ split; [reflexivity|]. intros _. exists (5 # 2)%Q. split; [reflexivity|].
      split; unfold Qle; simpl; lia. }
  destruct (py_float rt (strip entered)) as [[| | |q]|].
  - split; [exact I | intros H; contradiction H; reflexivity].
  - split; [reflexivity|]. intros _. exists (60 # 1)%Q. split; [reflexivity|].
    split; unfold Qle; simpl; lia.
  - split; [reflexivity|]. intros _. exists (5 # 2)%Q. split; [reflexivity|].
    split; unfold Qle; simpl; lia.
  - cbn [float_lt float_of_num].
    change (inject_Z 0) with 0%Q. change (inject_Z 60) with (60 # 1)%Q.
    destruct (Qlt_bool q 0) eqn:E0.
    + apply Qlt_bool_iff in E0. split.
      * split; [reflexivity|]. split.
        -- intros H. exfalso. apply (Qlt_irrefl q).
           apply Qlt_trans with (y := (60 # 1)%Q); [|exact H].
           apply Qlt_trans with (y := 0%Q); [exact E0 | reflexivity].
        -- intros [H _]. exfalso. exact (Qlt_not_le _ _ E0 H).
      * intros _. exists (5 # 2)%Q. split; [reflexivity|].
        split; unfold Qle; simpl; lia.
    + apply Qlt_bool_false in E0.
      destruct (Qlt_bool (60 # 1) q) eqn:E60.
      * apply Qlt_bool_iff in E60. split.
        -- split; [intros H; exfalso; exact (Qlt_not_le _ _ H E0)|].
           split; [reflexivity|].
           intros [_ H]. exfalso. exact (Qlt_not_le _ _ E60 H).
        -- intros _. exists (60 # 1)%Q. split; [reflexivity|].
           split; unfold Qle; simpl; lia.
      * apply Qlt_bool_false in E60. split.
        -- split; [intros H; exfalso; exact (Qlt_not_le _ _ H E0)|].
           split; [intros H; exfalso; exact (Qlt_not_le _ _ H E60)|].
           reflexivity.
        -- intros _. exists q. split; [reflexivity|]. split; assumption.
  - split; [reflexivity|]. intros _. exists (5 # 2)%Q. split; [reflexivity|].
    split; unfold Qle; simpl; lia.
Qed.

(* ------------------------------------------------------------------ *)
(** * Extraction of the code *)

Section ListFacts.

Context {A : Type} (f : A -> bool).

Lemma takewhile_all (l : list A) : forallb f l = true -> takewhile f l = l.
Proof.
  induction l as [|x l IH]; cbn; [reflexivity|].
  intros H. apply andb_prop in H. destruct H as [Hx Hl].
  rewrite Hx, (IH Hl). reflexivity.
Qed.

Lemma takewhile_stops (l rest : list A) :
  forallb f l = true ->
  match rest with [] => True | c :: _ => f c = false end ->
  takewhile f (l ++ rest) = l.
Proof.
  induction l as [|x l IH]; cbn.
  - intros _. destruct rest as [|c rest]; cbn; [reflexivity|].
    intros ->. reflexivity.
  - intros H Hrest. apply andb_prop in H. destruct H as [Hx Hl].
    rewrite Hx, (IH Hl Hrest). reflexivity.
Qed.

Lemma forallb_takewhile (l : list A) : forallb f (takewhile f l) = true.
Proof.
  induction l as [|x l IH]; cbn; [reflexivity|].
  destruct (f x) eqn:E; cbn; [rewrite E, IH|]; reflexivity.
Qed.

Lemma forallb_firstn (n : nat) (l : list A) :
  forallb f l = true -> forallb f (firstn n l) = true.
Proof.
  revert l. induction n as [|n IH]; intros [|x l]; cbn; try reflexivity.
  intros H. apply andb_prop in H. destruct H as [Hx Hl].
  rewrite Hx, (IH l Hl). reflexivity.
Qed.

Lemma takewhile_skipn (l : list A) :
  l = takewhile f l ++ skipn (length (takewhile f l)) l.
Proof.
  induction l as [|x l IH]; cbn; [reflexivity|].
  destruct (f x); cbn; [f_equal; exact IH | reflexivity].
Qed.

End ListFacts.

Lemma alnum_not_space (c : char) : isalnum c = true -> isspace c = false.
Proof.
  intros H. apply not_true_is_false. intros Hs.
  unfold isalnum, isspace in *.
  repeat (rewrite ?orb_true_iff, ?andb_true_iff, ?N.leb_le, ?N.eqb_eq in H).
  repeat (rewrite ?orb_true_iff, ?andb_true_iff, ?N.leb_le, ?N.eqb_eq in Hs).
  lia.
Qed.

Lemma alnum_not_dot (l : str) : forallb isalnum l = true -> ~ In dot l.
Proof.
  intros H Hin. rewrite forallb_forall in H. specialize (H dot Hin). discriminate.
Qed.

Lemma lstrip_head (s : str) (c : char) (t : str) :
  lstrip s = c :: t -> isspace c = false.
Proof.
  induction s as [|x s IH]; cbn; [discriminate|].
  destruct (isspace x) eqn:E; [exact IH|].
  intros [= <- _]. exact E.
Qed.

Lemma lstrip_alnum (s : str) : forallb isalnum s = true -> lstrip s = s.
Proof.
  destruct s as [|c s]; cbn; [reflexivity|].
  intros H. apply andb_prop in H. destruct H as [Hc _].
  rewrite (alnum_not_space c Hc). reflexivity.
Qed.

Lemma forallb_rev {A} (f : A -> bool) (l : list A) :
  forallb f l = true -> forallb f (rev l) = true.
Proof.
  rewrite !forallb_forall. intros H x Hx. apply H. apply in_rev. exact Hx.
Qed.

Lemma strip_alnum (s : str) : forallb isalnum s = true -> strip s = s.
Proof.
  intros H. unfold strip, rstrip. rewrite (lstrip_alnum s H).
  rewrite (lstrip_alnum (rev s) (forallb_rev _ _ H)). apply rev_involutive.
Qed.

Lemma strip_last (text a : str) (c : char) :
  strip text = a ++ [c] -> isspace c = false.
Proof.
  unfold strip, rstrip. intros H.
  apply (f_equal (@rev char)) in H.
  rewrite rev_involutive, rev_app_distr in H. cbn in H.
  exact (lstrip_head _ _ _ H).
Qed.

(** On a stripped text, the anchored pattern accepts exactly the codes. *)
Lemma match_token_strip (text : str) :
  Re.match_token (strip text)
  = forallb isalnum (strip text)
    && (16 <=? length (strip text))%nat && (length (strip text) <=? 25)%nat.
Proof.
  set (s := strip text). unfold Re.match_token.
  destruct (forallb isalnum s) eqn:Hall.
  - rewrite (takewhile_all isalnum s Hall). rewrite skipn_all.
    cbn [andb]. rewrite andb_true_r. reflexivity.
  - cbn [andb].
    pose proof (takewhile_skipn isalnum s) as Hsplit.
    destruct (skipn (length (takewhile isalnum s)) s) as [|c [|c' rest]] eqn:Hrest.
    + rewrite app_nil_r in Hsplit. rewrite Hsplit in Hall.
      rewrite forallb_takewhile in Hall. discriminate.
    + assert (Hsp : isspace c = false)
        by (apply (strip_last text (takewhile isalnum s) c); exact Hsplit).
      destruct (N.eqb_spec c 10) as [->|Hne]; [discriminate Hsp|].
      rewrite !andb_false_r. reflexivity.
    + rewrite !andb_false_r. reflexivity.
Qed.

Section Search.

Lemma strip_prefix_app (p rest : str) : Re.strip_prefix p (p ++ rest) = Some rest.
Proof.
  induction p as [|a p IH]; cbn; [reflexivity|].
  rewrite N.eqb_refl. exact IH.
Qed.

Lemma strip_prefix_some (p : str) :
  forall t rest, Re.strip_prefix p t = Some rest -> t = p ++ rest.
Proof.
  induction p as [|a p IH]; intros t rest; cbn.
  - intros [= <-]. reflexivity.
  - destruct t as [|b t]; [discriminate|].
    destruct (N.eqb_spec a b) as [<-|]; [|discriminate].
    intros H. rewrite (IH t rest H). reflexivity.
Qed.

Lemma match_at_some (p t g : str) :
  Re.match_at p t = Some g ->
  exists rest, t = p ++ rest /\ g = firstn 25 (takewhile isalnum rest)
               /\ (16 <= length g)%nat.
Proof.
  unfold Re.match_at.
  destruct (Re.strip_prefix p t) as [rest|] eqn:E; [|discriminate].
  destruct (Nat.leb_spec 16 (length (firstn 25 (takewhile isalnum rest))));
    [|discriminate].
  intros [= <-]. exists rest.
  split; [apply strip_prefix_some; exact E|]. split; [reflexivity | assumption].
Qed.

Lemma match_at_group (p t g : str) :
  Re.match_at p t = Some g ->
  forallb isalnum g = true /\ (16 <= length g <= 25)%nat.
Proof.
  intros H. destruct (match_at_some p t g H) as (rest & _ & -> & Hlen).
  split; [apply forallb_firstn, forallb_takewhile|].
  split; [exact Hlen | apply firstn_le_length].
Qed.

(** A match at position [k] puts the characters of the pattern there. *)
Lemma match_at_chars (p text g : str) (k : nat) :
  Re.match_at p (skipn k text) = Some g ->
  forall d, (d < length p)%nat -> nth_error text (k + d) = nth_error p d.
Proof.
  intros H d Hd. destruct (match_at_some _ _ _ H) as (rest & Ht & _).
  rewrite <- nth_error_skipn, Ht. apply nth_error_app1. exact Hd.
Qed.

Lemma search_unfold (p text : str) :
  Re.search p text
  = match Re.match_at p text with
    | Some g => Some g
    | None => match text with [] => None | _ :: t => Re.search p t end
    end.
Proof. destruct text; reflexivity. Qed.

Lemma search_none (p : str) :
  forall text,
    (forall k, Re.match_at p (skipn k text) = None) -> Re.search p text = None.
Proof.
  intros t. induction t as [|c t IH]; intros H; rewrite search_unfold.
  - pose proof (H 0%nat) as H0. cbn [skipn] in H0. rewrite H0. reflexivity.
  - pose proof (H 0%nat) as H0. cbn [skipn] in H0. rewrite H0.
    apply IH. intros k. exact (H (S k)).
Qed.

Lemma search_found (p : str) :
  forall pre rest g,
    (forall k, (k < length pre)%nat ->
               Re.match_at p (skipn k (pre ++ rest)) = None) ->
    Re.match_at p rest = Some g ->
    Re.search p (pre ++ rest) = Some g.
Proof.
  induction pre as [|c pre IH]; intros rest g Hpre Hm; rewrite search_unfold.
  - cbn [app]. rewrite Hm. reflexivity.
  - pose proof (Hpre 0%nat ltac:(cbn; lia)) as H0. cbn [skipn] in H0.
    rewrite H0. cbn [app].
    apply IH; [|exact Hm].
    intros k Hk. apply (Hpre (S k)). cbn. lia.
Qed.

Lemma search_group (p : str) :
  forall text g,
    Re.search p text = Some g ->
    forallb isalnum g = true /\ (16 <= length g <= 25)%nat.
Proof.
  intros t. induction t as [|c t IH]; intros g; rewrite search_unfold.
  - destruct (Re.match_at p []) as [g'|] eqn:E; [|discriminate].
    intros [= <-]. exact (match_at_group _ _ _ E).
  - destruct (Re.match_at p (c :: t)) as [g'|] eqn:E.
    + intros [= <-]. exact (match_at_group _ _ _ E).
    + apply IH.
Qed.

(** A pattern with a character that the text lacks matches nowhere. *)
Lemma search_missing_char (p text : str) (c : char) :
  In c p -> ~ In c text -> Re.search p text = None.
Proof.
  intros Hp Ht. apply search_none. intros k.
  destruct (Re.match_at p (skipn k text)) as [g|] eqn:E; [exfalso|reflexivity].
  destruct (In_nth_error _ _ Hp) as [d Hd].
  assert (Hlt : (d < length p)%nat).
  { apply nth_error_Some. rewrite Hd. discriminate. }
  pose proof (match_at_chars p text g k E d Hlt) as Hc.
  rewrite Hd in Hc. apply Ht. exact (nth_error_In _ _ Hc).
Qed.

Lemma match_at_head (host token post : str) :
  forallb isalnum token = true ->
  (16 <= length token <= 25)%nat ->
  match post with [] => True | c :: _ => isalnum c = false end ->
  Re.match_at host (host ++ token ++ post) = Some token.
Proof.
  intros Hall Hlen Hpost. unfold Re.match_at.
  rewrite strip_prefix_app, (takewhile_stops isalnum token post Hall Hpost).
  rewrite firstn_all2 by lia.
  destruct (Nat.leb_spec 16 (length token)); [reflexivity | lia].
Qed.

End Search.

Lemma nth_error_positions (c : char) (l : str) :
  forall i n, nth_error l n = Some c -> In (i + n)%nat (positions c l i).
Proof.
  induction l as [|x l IH]; intros i [|n]; cbn; try discriminate.
  - intros [= ->]. rewrite N.eqb_refl. left. lia.
  - intros H. specialize (IH (S i) n H).
    replace (i + S n)%nat with (S i + n)%nat by lia.
    destruct (x =? c)%N; [right|]; exact IH.
Qed.

Section Alignment.

(** A gift URL: some text without a full stop, the host and path of a
    pattern, the code, and a rest without a full stop that does not go on
    with a letter or a digit. *)
Variables (pre host token post : str).
Hypothesis pre_no_dot : ~ In dot pre.
Hypothesis post_no_dot : ~ In dot post.
Hypothesis token_alnum : forallb isalnum token = true.

Let url := pre ++ host ++ token ++ post.

Lemma dot_in_host (n : nat) :
  nth_error url n = Some dot ->
  exists dh, nth_error host dh = Some dot /\ n = (length pre + dh)%nat.
Proof.
  unfold url. intros H.
  destruct (Nat.ltb_spec n (length pre)) as [Hlt|Hge].
  - rewrite nth_error_app1 in H by assumption.
    exfalso. apply pre_no_dot. exact (nth_error_In _ _ H).
  - rewrite nth_error_app2 in H by assumption.
    destruct (Nat.ltb_spec (n - length pre) (length host)) as [Hlt|Hge'].
    + rewrite nth_error_app1 in H by assumption.
      exists (n - length pre)%nat. split; [exact H | lia].
    + rewrite nth_error_app2 in H by assumption.
      apply nth_error_In in H. apply in_app_or in H.
      exfalso. destruct H as [H|H];
        [exact (alnum_not_dot token token_alnum H) | exact (post_no_dot H)].
Qed.

Lemma host_char (c : nat) :
  (c < length host)%nat -> nth_error url (length pre + c) = nth_error host c.
Proof.
  intros Hc. unfold url. rewrite nth_error_app2 by lia.
  replace (length pre + c - length pre)%nat with c by lia.
  apply nth_error_app1. exact Hc.
Qed.

(** Where a pattern matches in the URL, its full stops lie on full stops
    of the host, and it agrees with the host wherever the two overlap. *)
Lemma match_aligned (p g : str) (k : nat) :
  Re.match_at p (skipn k url) = Some g ->
  (forall dp, nth_error p dp = Some dot ->
     exists dh, In dh (positions dot host 0) /\ (k + dp = length pre + dh)%nat)
  /\
  (forall d c, (d < length p)%nat -> (c < length host)%nat ->
     (k + d = length pre + c)%nat -> nth_error p d = nth_error host c).
Proof.
  intros Hm. split.
  - intros dp Hdp.
    assert (Hlt : (dp < length p)%nat).
    { apply nth_error_Some. rewrite Hdp. discriminate. }
    pose proof (match_at_chars p url g k Hm dp Hlt) as Hc. rewrite Hdp in Hc.
    destruct (dot_in_host _ Hc) as (dh & Hdh & Heq).
    exists dh. split; [|exact Heq].
    exact (nth_error_positions dot host 0 dh Hdh).
  - intros d c Hd Hc Heq.
    rewrite <- (match_at_chars p url g k Hm d Hd), Heq. apply host_char. exact Hc.
Qed.

End Alignment.

(** The full stop of a pattern is at [dq]; a match at [k] would put it on a
    full stop of the host, where the two disagree one or two characters
    further or one character before. *)
Ltac disagree Hchars d c :=
  let Hx := fresh "Hx" in
  pose proof (Hchars d c ltac:(cbv; lia) ltac:(cbv; lia) ltac:(lia)) as Hx;
  cbv in Hx; discriminate Hx.

Ltac no_match_at dq :=
  match goal with
  | |- ?lhs = None =>
    match lhs with Re.match_at ?q (skipn ?k (?pre ++ ?host ++ ?token ++ ?post)) =>
    let g := fresh "g" in
    let E := fresh "E" in
    let Hdots := fresh "Hdots" in
    let Hchars := fresh "Hchars" in
    let dh := fresh "dh" in
    let Hin := fresh "Hin" in
    let Heq := fresh "Heq" in
    destruct lhs as [g|] eqn:E; [exfalso|reflexivity];
    destruct (match_aligned pre host token post
                ltac:(assumption) ltac:(assumption) ltac:(assumption) q g k E)
      as [Hdots Hchars];
    destruct (Hdots dq eq_refl) as (dh & Hin & Heq);
    cbv in Hin;
    repeat (destruct Hin as [Hin|Hin]); try contradiction; subst dh;
    first
      [ lia
      | match type of Heq with
        | (_ + ?a = _ + ?b)%nat =>
          first [ disagree Hchars (S a) (S b)
                | disagree Hchars (S (S a)) (S (S b))
                | let a' := eval cbv in (pred a) in
                  let b' := eval cbv in (pred b) in
                  disagree Hchars a' b' ]
        end ]
    end
  end.

(** The code of a gift URL is extracted as it stands. *)
Lemma gift_url_extracted (i : nat) (host pre token post : str) :
  nth_error patterns i = Some host ->
  ~ In dot pre -> ~ In dot post ->
  forallb isalnum token = true ->
  (16 <= length token <= 25)%nat ->
  match post with [] => True | c :: _ => isalnum c = false end ->
  extract_gift_code (pre ++ host ++ token ++ post) = Some token.
Proof.
  intros Hhost Hpre Hpost Htok Hlen Hend.
  pose proof (match_at_head host token post Htok Hlen Hend) as Hhead.
  unfold extract_gift_code, patterns. cbn [first_match].
  destruct i as [|[|[|[|i]]]]; cbn [nth_error] in Hhost;
    [| | | |destruct i; discriminate]; injection Hhost as <-.
  - rewrite (search_found _ pre _ token); [reflexivity| |exact Hhead].
    intros k Hk. no_match_at 7%nat.
  - rewrite (search_none (lit "discord.gift/")) by (intros k; no_match_at 7%nat).
    rewrite (search_found _ pre _ token); [reflexivity| |exact Hhead].
    intros k Hk. no_match_at 7%nat.
  - rewrite (search_none (lit "discord.gift/")) by (intros k; no_match_at 7%nat).
    rewrite (search_none (lit "discord.com/gifts/")) by (intros k; no_match_at 7%nat).
    rewrite (search_found _ pre _ token); [reflexivity| |exact Hhead].
    intros k Hk. no_match_at 10%nat.
  - rewrite (search_none (lit "discord.gift/")) by (intros k; no_match_at 7%nat).
    rewrite (search_none (lit "discord.com/gifts/")) by (intros k; no_match_at 7%nat).
    rewrite (search_none (lit "discordapp.com/gifts/"))
      by (intros k; no_match_at 10%nat).
    rewrite (search_found _ pre _ token); [reflexivity| |exact Hhead].
    intros k Hk. no_match_at 6%nat.
Qed.

Lemma first_match_at (text : str) :
  forall ps i p g,
    nth_error ps i = Some p ->
    Re.search p text = Some g ->
    (forall j q, (j < i)%nat -> nth_error ps j = Some q -> Re.search q text = None) ->
    first_match ps text = Some g.
Proof.
  induction ps as [|q ps IH]; intros i p g Hi Hs Hbefore.
  - destruct i; discriminate.
  - destruct i as [|i]; cbn [first_match].
    + injection Hi as ->. rewrite Hs. reflexivity.
    + rewrite (Hbefore 0%nat q) by (cbn; lia || reflexivity).
      apply (IH i p g Hi Hs).
      intros j q' Hj Hq'. apply (Hbefore (S j) q'); [lia | exact Hq'].
Qed.

Lemma first_match_none (text : str) :
  forall ps,
    (forall p, In p ps -> Re.search p text = None) -> first_match ps text = None.
Proof.
  induction ps as [|q ps IH]; intros H; cbn [first_match]; [reflexivity|].
  rewrite (H q (or_introl eq_refl)). apply IH.
  intros p Hp. apply H. right. exact Hp.
Qed.

Lemma patterns_have_dot (p : str) : In p patterns -> In dot p.
Proof.
  unfold patterns. cbn [In].
  intros [<-|[<-|[<-|[<-|[]]]]]; cbv;
    repeat (first [left; reflexivity | right]).
Qed.

(** The four patterns are tried in their order and the first that matches
    gives its group, 16 to 25 letters and digits; when none matches, the
    stripped text is returned exactly when it consists of 16 to 25 letters
    and digits; the code of a gift URL of each of the four hosts is returned
    as it stands when nothing that could continue it follows; and letters
    and digits alone, fewer than 16 or more than 25, give [None]. *)
Theorem extract_gift_code_spec :
  length patterns = 4%nat
  /\
  (forall text i p g,
      nth_error patterns i = Some p ->
      Re.search p text = Some g ->
      (forall j q, (j < i)%nat -> nth_error patterns j = Some q ->
                   Re.search q text = None) ->
      extract_gift_code text = Some g
      /\ forallb isalnum g = true /\ (16 <= length g <= 25)%nat)
  /\
  (forall text,
      (forall p, In p patterns -> Re.search p text = None) ->
      extract_gift_code text
      = if forallb isalnum (strip text)
           && (16 <=? length (strip text))%nat && (length (strip text) <=? 25)%nat
        then Some (strip text) else None)
  /\
  (forall i host pre token post,
      nth_error patterns i = Some host ->
      ~ In dot pre -> ~ In dot post ->
      forallb isalnum token = true ->
      (16 <= length token <= 25)%nat ->
      match post with [] => True | c :: _ => isalnum c = false end ->
      extract_gift_code (pre ++ host ++ token ++ post) = Some token)
  /\
  (forall token,
      forallb isalnum token = true ->
      (length token < 16 \/ 25 < length token)%nat ->
      extract_gift_code token = None).
Proof.
  assert (Hfallback : forall text,
             (forall p, In p patterns -> Re.search p text = None) ->
             extract_gift_code text
             = if forallb isalnum (strip text)
                  && (16 <=? length (strip text))%nat
                  && (length (strip text) <=? 25)%nat
               then Some (strip text) else None).
  { intros t Hnone. unfold extract_gift_code.
    rewrite (first_match_none t patterns Hnone), match_token_strip. reflexivity. }
  split; [reflexivity|]. split; [|split; [exact Hfallback|split]].
  - intros t i p g Hi Hs Hbefore. split.
    + unfold extract_gift_code.
      rewrite (first_match_at t patterns i p g Hi Hs Hbefore). reflexivity.
    + exact (search_group p t g Hs).
  - exact gift_url_extracted.
  - intros token Hall Hlen. rewrite Hfallback.
    + rewrite (strip_alnum token Hall), Hall. cbn [andb].
      destruct (Nat.leb_spec 16 (length token));
        destruct (Nat.leb_spec (length token) 25); cbn; try reflexivity; lia.
    + intros p Hp. apply (search_missing_char p token dot).
      * exact (patterns_have_dot p Hp).
      * exact (alnum_not_dot token Hall).
Qed.

(** C6: a token of more than 25 letters and digits is refused when it is
    the whole input, by the anchors of the last pattern, but not when it
    stands in a gift URL: the URL patterns have nothing after the group, so
    that the group takes the first 25 characters of the token and these are
    returned as the code. *)
Theorem long_url_code_is_cut :
  (forallb isalnum (lit "ABCDEFGHIJKLMNOPQRSTUVWXYZ0123") = true
   /\ length (lit "ABCDEFGHIJKLMNOPQRSTUVWXYZ0123") = 30%nat)
  /\
  extract_gift_code (lit "ABCDEFGHIJKLMNOPQRSTUVWXYZ0123") = None
  /\
  extract_gift_code (lit "https://discord.gift/ABCDEFGHIJKLMNOPQRSTUVWXYZ0123")
  = Some (lit "ABCDEFGHIJKLMNOPQRSTUVWXY").
Proof. repeat split; vm_compute; reflexivity. Qed.

(* ------------------------------------------------------------------ *)
(** * The requests of a lookup *)

Lemma requests_of_app (l1 l2 : list event) :
  requests_of (l1 ++ l2) = requests_of l1 ++ requests_of l2.
Proof.
  induction l1 as [|[url|d|name r] l1 IH]; cbn; [reflexivity| |exact IH|exact IH].
  rewrite IH. reflexivity.
Qed.

Lemma files_of_app (l1 l2 : list event) :
  files_of (l1 ++ l2) = files_of l1 ++ files_of l2.
Proof.
  induction l1 as [|[url|d|name r] l1 IH]; cbn; [reflexivity|exact IH|exact IH|].
  rewrite IH. reflexivity.
Qed.

Section Requests.

Variable rt : Runtime.
Variable net : nat -> behaviour.

Lemma quiet_ret {A} (a : A) : quiet (ret a).
Proof. intros w r w' [= _ <-]. split; reflexivity. Qed.

Lemma quiet_raise {A} (e : pyexn) : quiet (@raise A e).
Proof. intros w r w' [= _ <-]. split; reflexivity. Qed.

Lemma quiet_bind {A B} (c : M A) (k : A -> M B) :
  quiet c -> (forall a, quiet (k a)) -> quiet (bind c k).
Proof.
  intros Hc Hk w r w'. unfold bind.
  destruct (c w) as [[a|e] w1] eqn:E.
  - intros H. destruct (Hc w _ w1 E) as [H1 H2].
    destruct (Hk a w1 r w' H) as [H3 H4]. split; congruence.
  - intros [= _ <-]. exact (Hc w _ w1 E).
Qed.

Lemma quiet_sleep (d : pynum) : quiet (time_sleep rt d).
Proof.
  unfold time_sleep. destruct (sleep_error rt d); [apply quiet_raise|].
  intros w r w' [= _ <-]. cbn [log].
  rewrite requests_of_app, files_of_app. cbn. rewrite !app_nil_r.
  split; reflexivity.
Qed.

Variables (code : str) (debug : bool) (max_retries : Z).

Lemma quiet_on_request_exception (attempt : Z) (desc : str) :
  quiet (on_request_exception rt code max_retries attempt desc).
Proof.
  unfold on_request_exception. destruct (attempt <? max_retries - 1).
  - apply quiet_bind; [apply quiet_sleep | intros _; apply quiet_ret].
  - apply quiet_ret.
Qed.

Lemma quiet_on_429 (attempt : Z) (r : response) :
  quiet (on_429 rt code max_retries attempt r).
Proof.
  unfold on_429. destruct (attempt <? max_retries - 1).
  - destruct (match retry_after r with None => Some 3 | Some h => py_int rt h end).
    + apply quiet_bind; [apply quiet_sleep | intros _; apply quiet_ret].
    + apply quiet_raise.
  - apply quiet_ret.
Qed.

Lemma quiet_finish (res : result Outcome) (attempt : Z) :
  quiet (finish rt code max_retries res attempt).
Proof.
  unfold finish. destruct res as [o|[desc| | | | |]];
    try (intros w r w' [= _ <-]; split; reflexivity).
  apply quiet_on_request_exception.
Qed.

(** Each attempt makes one request, however it ends. *)
Lemma attempt_requests (attempt : Z) (w w' : world) (r : result (flow Outcome)) :
  attempt_once rt net code debug max_retries attempt w = (r, w') ->
  requests_of (log w') = requests_of (log w) ++ [gift_url code]
  /\ files_of (log w') = files_of (log w).
Proof.
  assert (Hget : requests_of (log (after_get (gift_url code) w))
                 = requests_of (log w) ++ [gift_url code]
                 /\ files_of (log (after_get (gift_url code) w)) = files_of (log w)).
  { cbn [after_get log]. rewrite requests_of_app, files_of_app. cbn.
    rewrite app_nil_r. split; reflexivity. }
  destruct Hget as [Hg Hf].
  assert (Hq : forall c : M (flow Outcome), quiet c ->
               c (after_get (gift_url code) w) = (r, w') ->
               requests_of (log w') = requests_of (log w) ++ [gift_url code]
               /\ files_of (log w') = files_of (log w)).
  { intros c Hc H. destruct (Hc _ _ _ H) as [H1 H2]. split; congruence. }
  destruct (net (nreq w)) as [resp|desc] eqn:Hnet.
  - destruct (Z.eq_dec (status_code resp) 200) as [H2|H2];
      [|destruct (Z.eq_dec (status_code resp) 404) as [H4|H4];
        [|destruct (Z.eq_dec (status_code resp) 429) as [H9|H9]]].
    + rewrite (attempt_200 rt net code debug max_retries attempt w resp Hnet H2).
      apply Hq, quiet_finish.
    + rewrite (attempt_404 rt net code debug max_retries attempt w resp Hnet H4).
      apply (Hq (ret (Return (invalid_outcome code)))), quiet_ret.
    + rewrite (attempt_429 rt net code debug max_retries attempt w resp Hnet H9).
      apply Hq, quiet_on_429.
    + rewrite (attempt_other rt net code debug max_retries attempt w resp Hnet H2 H4 H9).
      apply Hq, quiet_finish.
  - rewrite (attempt_failure rt net code debug max_retries attempt w desc Hnet).
    apply Hq, quiet_on_request_exception.
Qed.

Lemma retry_loop_requests (n : nat) :
  forall (attempt : Z) (w w' : world) (r : result (option Outcome)),
    retry_loop rt net code debug max_retries n attempt w = (r, w') ->
    exists k,
      (k <= n)%nat /\ (1 <= n -> 1 <= k)%nat /\
      requests_of (log w') = requests_of (log w) ++ repeat (gift_url code) k
      /\ files_of (log w') = files_of (log w).
Proof.
  induction n as [|n IH]; intros attempt w w' r.
  - intros [= _ <-]. exists 0%nat. cbn. rewrite app_nil_r. repeat split; lia.
  - cbn [retry_loop]. unfold bind.
    destruct (attempt_once rt net code debug max_retries attempt w)
      as [[[o|]|e] w1] eqn:E;
      destruct (attempt_requests attempt w w1 _ E) as [Hr Hf].
    + intros [= _ <-]. exists 1%nat. cbn. repeat split; (lia || assumption).
    + intros H. destruct (IH _ _ _ _ H) as (k & Hk & _ & Hr' & Hf').
      exists (S k). split; [lia|]. split; [lia|].
      rewrite Hr', Hr, <- app_assoc, Hf', Hf. split; reflexivity.
    + intros [= _ <-]. exists 1%nat. cbn. repeat split; (lia || assumption).
Qed.

End Requests.

(** A lookup with the default three attempts makes one to three requests,
    all for its code. *)
Lemma check_promo_code_requests (rt : Runtime) (net : nat -> behaviour)
    (code : str) (debug : bool) (w w' : world) (r : result Outcome) :
  check_promo_code rt net code debug 3 w = (r, w') ->
  exists k,
    (1 <= k <= 3)%nat /\
    requests_of (log w') = requests_of (log w) ++ repeat (gift_url code) k
    /\ files_of (log w') = files_of (log w).
Proof.
  unfold check_promo_code, bind.
  destruct (retry_loop rt net code debug 3 (Z.to_nat 3) 0 w) as [[[o|]|e] w1] eqn:E;
    destruct (retry_loop_requests rt net code debug 3 _ _ _ _ _ E)
      as (k & Hk & Hk1 & Hr & Hf);
    intros [= _ <-]; exists k;
    (split; [change (Z.to_nat 3) with 3%nat in *; lia | split; assumption]).
Qed.

(* ------------------------------------------------------------------ *)
(** * The batch run *)

Lemma first_match_some (text : str) :
  forall ps g,
    first_match ps text = Some g -> exists p, In p ps /\ Re.search p text = Some g.
Proof.
  induction ps as [|q ps IH]; intros g; cbn [first_match]; [discriminate|].
  destruct (Re.search q text) as [g'|] eqn:E.
  - intros [= <-]. exists q. split; [left; reflexivity | exact E].
  - intros H. destruct (IH g H) as (p & Hp & Hs).
    exists p. split; [right; exact Hp | exact Hs].
Qed.

(** Whatever is extracted is a code: 16 to 25 letters and digits. *)
Lemma extract_gift_code_some (text c : str) :
  extract_gift_code text = Some c ->
  forallb isalnum c = true /\ (16 <= length c <= 25)%nat.
Proof.
  unfold extract_gift_code.
  destruct (first_match patterns text) as [g|] eqn:E.
  - intros [= <-]. destruct (first_match_some text patterns g E) as (p & _ & Hs).
    exact (search_group p text g Hs).
  - rewrite match_token_strip.
    destruct (forallb isalnum (strip text)) eqn:Hall; [|discriminate].
    destruct (Nat.leb_spec 16 (length (strip text))); [|discriminate].
    destruct (Nat.leb_spec (length (strip text)) 25); [|discriminate].
    intros [= <-]. split; [exact Hall | lia].
Qed.

Lemma codes_of_lines_flat_map (lines : list str) :
  codes_of_lines lines = flat_map codes_of_line lines.
Proof.
  unfold codes_of_lines.
  assert (H : forall acc,
             fold_left
               (fun codes_to_check line =>
                  let line := strip line in
                  if nonempty line && negb (startswith line (lit "#")) then
                    match extract_gift_code line with
                    | Some code =>
                      if nonempty code then codes_to_check ++ [code]
                      else codes_to_check
                    | None => codes_to_check
                    end
                  else codes_to_check) lines acc
             = acc ++ flat_map codes_of_line lines).
  { induction lines as [|line lines IH]; intros acc; cbn [fold_left flat_map].
    - rewrite app_nil_r. reflexivity.
    - rewrite IH. unfold codes_of_line at 2, candidate. cbv zeta.
      destruct (nonempty (strip line) && negb (startswith (strip line) (lit "#"))).
      + destruct (extract_gift_code (strip line)) as [c|] eqn:E.
        * destruct (extract_gift_code_some _ _ E) as [_ Hlen].
          destruct c as [|x c]; [cbn in Hlen; lia|].
          cbn [nonempty]. rewrite <- app_assoc. reflexivity.
        * reflexivity.
      + reflexivity. }
  exact (H []).
Qed.

Lemma entries_record_result (results : Results) (result : Outcome) :
  entries (record_result results result) = S (entries results).
Proof.
  unfold record_result, entries.
  repeat match goal with
         | |- context [if ?b then _ else _] => destruct b
         end;
    cbn [claimable claimed invalid rate_limited error];
    rewrite length_app; cbn [length]; lia.
Qed.

Lemma lookups_nil_r (codes : list str) : lookups codes [] = [].
Proof. destruct codes; reflexivity. Qed.

Section Batch.

Variable rt : Runtime.
Variable net : nat -> behaviour.
Variable delay : pynum.
Variable total : nat.

(** The lookups of a batch happen in the order of the codes, one lookup for
    each code that is reached, and the batch that ends normally has reached
    them all and recorded one entry for each. *)
Lemma check_all_requests (codes : list str) :
  forall (i : nat) (results : Results) (w w' : world) (r : result Results),
    check_all rt net delay total codes i results w = (r, w') ->
    exists ks,
      (length ks <= length codes)%nat /\
      Forall attempts_ok ks /\
      requests_of (log w') = requests_of (log w) ++ lookups codes ks /\
      files_of (log w') = files_of (log w) /\
      (forall res, r = Ret res ->
                   length ks = length codes /\
                   entries res = (entries results + length codes)%nat).
Proof.
  induction codes as [|c codes IH]; intros i results w w' r.
  - intros [= <- <-]. exists []. cbn [length lookups]. rewrite app_nil_r.
    split; [lia|]. split; [constructor|]. split; [reflexivity|].
    split; [reflexivity|]. intros res [= <-]. split; lia.
  - cbn [check_all]. unfold bind at 1.
    destruct (check_promo_code rt net c false 3 w) as [[o|e] w1] eqn:E;
      destruct (check_promo_code_requests rt net c false w w1 _ E)
        as (k & Hk & Hr & Hf).
    + unfold bind at 1.
      destruct ((if (i <? total)%nat then time_sleep rt delay else ret tt) w1)
        as [[[]|e] w2] eqn:Es.
      * assert (Hq : requests_of (log w2) = requests_of (log w1)
                     /\ files_of (log w2) = files_of (log w1)).
        { destruct (i <? total)%nat;
            [exact (quiet_sleep rt delay _ _ _ Es) | exact (quiet_ret tt _ _ _ Es)]. }
        destruct Hq as [Hr2 Hf2].
        intros H. destruct (IH _ _ _ _ _ H) as (ks & Hlen & Hall & Hr' & Hf' & Hres).
        exists (k :: ks). cbn [length lookups].
        split; [lia|]. split; [constructor; assumption|].
        split; [rewrite Hr', Hr2, Hr, <- app_assoc; reflexivity|].
        split; [congruence|].
        intros res Hret. destruct (Hres res Hret) as [Hl He].
        rewrite entries_record_result in He. split; lia.
      * assert (Hq : requests_of (log w2) = requests_of (log w1)
                     /\ files_of (log w2) = files_of (log w1)).
        { destruct (i <? total)%nat;
            [exact (quiet_sleep rt delay _ _ _ Es) | exact (quiet_ret tt _ _ _ Es)]. }
        destruct Hq as [Hr2 Hf2].
        intros [= <- <-]. exists [k]. cbn [length lookups].
        rewrite lookups_nil_r, app_nil_r.
        split; [lia|]. split; [constructor; [exact Hk | constructor]|].
        split; [congruence|]. split; [congruence|]. discriminate.
    + intros [= <- <-]. exists [k]. cbn [length lookups].
      rewrite lookups_nil_r, app_nil_r.
      split; [lia|]. split; [constructor; [exact Hk | constructor]|].
      split; [assumption|]. split; [assumption|]. discriminate.
Qed.

(** On a conforming transport, with a delay that [time.sleep] accepts, the
    batch ends normally. *)
Lemma check_all_conforming (codes : list str) :
  (forall k, conforming rt (net k) = true) ->
  sleep_error rt delay = None ->
  forall (i : nat) (results : Results) (w : world),
    exists res w', check_all rt net delay total codes i results w = (Ret res, w').
Proof.
  intros Hc Hd. induction codes as [|c codes IH]; intros i results w.
  - cbn. unfold ret. eauto.
  - cbn [check_all]. unfold bind at 1.
    destruct (check_conforming rt net c false 3 w Hc) as (o & w1 & Ho & _).
    rewrite Ho. unfold bind at 1.
    destruct (i <? total)%nat.
    + unfold time_sleep. rewrite Hd. cbn [emit]. apply IH.
    + cbn [ret]. apply IH.
Qed.

End Batch.

Section BatchRun.

Variable rt : Runtime.
Variable net : nat -> behaviour.
Variable fs : str -> option (list str).

Lemma save_results_log (results : Results) (name : str) (w : world) :
  save_results results name w
  = (Ret tt, {| nreq := nreq w; log := log w ++ [EWrite name results] |}).
Proof. reflexivity. Qed.

Lemma bulk_unfold (filename : str) (output_file : option str) (delay : pynum)
    (lines : list str) (w : world) :
  fs filename = Some lines ->
  codes_of_lines lines <> [] ->
  bulk_check_from_file rt net fs filename output_file delay w
  = bind (check_all rt net delay (length (codes_of_lines lines))
            (codes_of_lines lines) 1%nat empty_results)
      (fun results => save_results results (report_name rt output_file)) w.
Proof.
  intros Hfs Hne. unfold bulk_check_from_file. rewrite Hfs.
  destruct (codes_of_lines lines) as [|c cs] eqn:E; [contradiction|].
  cbn [nonempty negb]. unfold bind.
  destruct (check_all rt net delay (length (c :: cs)) (c :: cs) 1 empty_results w)
    as [[res|e] w1]; [|reflexivity].
  unfold report_name. destruct output_file as [name|]; [|reflexivity].
  destruct (nonempty name); reflexivity.
Qed.

(** Blank lines and lines that start with [#] are left out before the
    extraction, and so are the lines in which no code is found; nothing of
    them reaches the results.  Without any code the run makes no request and
    writes no file.  Otherwise the codes are looked up in the order of the
    lines, once each, as far as the run gets: the requests of the run are
    those of the first code, then those of the second, and so on, one to
    three for each; a run that ends normally has looked up every code, and
    on a conforming transport, with a delay that [time.sleep] accepts, the
    run does end normally, with one entry per code in the report. *)
Theorem batch_lookups (filename : str) (output_file : option str)
    (delay : pynum) (lines : list str) (w : world) :
  fs filename = Some lines ->
  codes_of_lines lines = flat_map codes_of_line lines
  /\
  (forall line,
      strip line = [] \/ startswith (strip line) (lit "#") = true ->
      candidate line = false /\ codes_of_line line = [])
  /\
  (forall line, extract_gift_code (strip line) = None -> codes_of_line line = [])
  /\
  (codes_of_lines lines = [] ->
   bulk_check_from_file rt net fs filename output_file delay w = (Ret tt, w))
  /\
  (forall r w',
      bulk_check_from_file rt net fs filename output_file delay w = (r, w') ->
      exists ks,
        (length ks <= length (codes_of_lines lines))%nat /\
        Forall attempts_ok ks /\
        requests_of (log w')
        = requests_of (log w) ++ lookups (codes_of_lines lines) ks /\
        (r = Ret tt -> length ks = length (codes_of_lines lines)))
  /\
  (codes_of_lines lines <> [] ->
   (forall k, conforming rt (net k) = true) ->
   sleep_error rt delay = None ->
   exists w1 results,
     bulk_check_from_file rt net fs filename output_file delay w
     = (Ret tt, {| nreq := nreq w1;
                   log := log w1 ++ [EWrite (report_name rt output_file) results] |})
     /\ files_of (log w1) = files_of (log w)
     /\ entries results = length (codes_of_lines lines)).
Proof.
  intros Hfs.
  split; [apply codes_of_lines_flat_map|].
  split.
  { intros line Hline.
    assert (Hc : candidate line = false).
    { unfold candidate. destruct Hline as [-> | ->]; [reflexivity|].
      cbn [negb]. apply andb_false_r. }
    split; [exact Hc|]. unfold codes_of_line. rewrite Hc. reflexivity. }
  split.
  { intros line Hnone. unfold codes_of_line. rewrite Hnone.
    destruct (candidate line); reflexivity. }
  split.
  { intros Hnil. unfold bulk_check_from_file. rewrite Hfs, Hnil. reflexivity. }
  split.
  - intros r w'.
    destruct (codes_of_lines lines) as [|c cs] eqn:Ecodes.
    + unfold bulk_check_from_file. rewrite Hfs, Ecodes. cbn [nonempty negb].
      intros [= <- <-]. exists []. cbn. rewrite app_nil_r.
      repeat split; (lia || constructor).
    + rewrite (bulk_unfold filename output_file delay lines w Hfs)
        by (rewrite Ecodes; discriminate).
      rewrite Ecodes. unfold bind.
      destruct (check_all rt net delay (length (c :: cs)) (c :: cs) 1 empty_results w)
        as [[res|e] w1] eqn:E;
        destruct (check_all_requests rt net delay _ _ _ _ _ _ _ E)
          as (ks & Hlen & Hall & Hr & Hf & Hres).
      * rewrite save_results_log. intros [= <- <-]. exists ks.
        split; [exact Hlen|]. split; [exact Hall|]. split.
        -- cbn [log]. rewrite requests_of_app. cbn. rewrite app_nil_r. exact Hr.
        -- intros _. exact (proj1 (Hres res eq_refl)).
      * intros [= <- <-]. exists ks.
        split; [exact Hlen|]. split; [exact Hall|]. split; [exact Hr|].
        discriminate.
  - intros Hne Hc Hd.
    rewrite (bulk_unfold filename output_file delay lines w Hfs Hne). unfold bind.
    destruct (check_all_conforming rt net delay (length (codes_of_lines lines))
                (codes_of_lines lines) Hc Hd 1%nat empty_results w)
      as (res & w1 & Hrun).
    rewrite Hrun, save_results_log.
    destruct (check_all_requests rt net delay _ _ _ _ _ _ _ Hrun)
      as (ks & _ & _ & _ & Hf & Hres).
    exists w1, res. split; [reflexivity|]. split; [exact Hf|].
    exact (proj2 (Hres res eq_refl)).
Qed.

End BatchRun.

(** C9: a batch does not always look up every code.  The loop of lines
    174-196 handles no exception, so that the batch ends with the first
    lookup or pause that raises: with two codes in the file and a 200 whose
    body is the JSON array [[]] for the first of them, the [AttributeError]
    of the lookup ends the batch after one request; and with the delay
    entered as "nan" in bulk mode, the [ValueError] of [time.sleep] ends it
    after the first lookup.  The second code is not looked up and no report
    is written. *)
Theorem batch_stops_at_exception :
  codes_of_lines Console.two_codes
  = [Fixture.sample_code; lit "QRSTUVWXYZ0123456789"]
  /\
  bulk_check_from_file (Fixture.runtime true) (Fixture.always Fixture.array_200)
    (fun _ => Some Console.two_codes) (lit "codes.txt") None
    (PFloat (PFin (5 # 2))) Fixture.initial
  = (Raise AttributeError,
     {| nreq := 1; log := [EGet (gift_url Fixture.sample_code)] |})
  /\
  main Console.runtime (Fixture.always (Response Fixture.not_found))
    Console.ascii_lower (fun _ => Some Console.two_codes)
    [lit "2"; lit "codes.txt"; lit "nan"] Fixture.initial
  = (Raise ValueError,
     {| nreq := 1; log := [EGet (gift_url Fixture.sample_code)] |}).
Proof. repeat split; vm_compute; reflexivity. Qed.

(* ------------------------------------------------------------------ *)
(** * The theorems at work on concrete runs *)

Module Run.

Import Fixture.

Lemma rate_limited_three_attempts_witness :
  (status_code rate_limit = 429 /\ retry_seconds (runtime true) rate_limit = Some 5)
  /\
  check_promo_code (runtime true) (always (Response rate_limit)) sample_code false 3
    initial
  = (Ret (rate_limited_outcome sample_code),
     {| nreq := 3;
        log := [ EGet (gift_url sample_code); ESleep (PInt 5);
                 EGet (gift_url sample_code); ESleep (PInt 10);
                 EGet (gift_url sample_code) ] |}).
Proof.
  split; [split; reflexivity|].
  exact (proj1 (rate_limited_three_attempts (runtime true)
                  (always (Response rate_limit)) sample_code false initial
                  rate_limit rate_limit rate_limit 5 5
                  eq_refl eq_refl eq_refl eq_refl eq_refl eq_refl
                  eq_refl ltac:(lia) eq_refl ltac:(lia))).
Defined.

Lemma classification_200_witness :
  (1 <= 3 /\ body_redeemed nitro = Some false
   /\ body_count nitro (lit "uses") 0 = Some 0
   /\ body_count nitro (lit "max_uses") 1 = Some 1)
  /\
  exists o,
    check_promo_code (runtime true) (always (Response ok_200)) sample_code false 3
      initial
    = (Ret o, after_get (gift_url sample_code) initial)
    /\ status o = lit "CLAIMABLE".
Proof.
  split; [repeat split; (lia || reflexivity)|].
  destruct (classification_200 (runtime true) (always (Response ok_200))
              sample_code false 3 initial ok_200 nitro
              [(lit "name", VStr (lit "Nitro"))] false 0 1
              ltac:(lia) eq_refl eq_refl eq_refl eq_refl eq_refl eq_refl eq_refl)
    as (o & Hrun & _ & Hclaimable & _).
  exists o. split; [exact Hrun|].
  apply Hclaimable. intros [H|H]; [discriminate H | lia].
Defined.

Lemma transport_failures_exhaust_retries_witness :
  1 <= 3
  /\
  exists desc,
    check_promo_code (runtime true) (always (Failure (lit "timed out")))
      sample_code false 3 initial
    = (Ret (network_error sample_code desc),
       {| nreq := 3;
          log := [ EGet (gift_url sample_code); ESleep (PInt 2);
                   EGet (gift_url sample_code); ESleep (PInt 4);
                   EGet (gift_url sample_code) ] |})
    /\ message (network_error sample_code desc)
       = lit "❌ Network error: " ++ lit "timed out".
Proof.
  split; [lia|].
  destruct (transport_failures_exhaust_retries (runtime true)
              (always (Failure (lit "timed out"))) sample_code false 3 initial
              ltac:(lia)
              (fun i _ => ex_intro _ (lit "timed out") eq_refl))
    as (desc & Hlast & Hrun & _ & Hmsg).
  exists desc. split; [exact Hrun|].
  rewrite Hmsg. injection Hlast as <-. reflexivity.
Defined.

Lemma terminal_responses_witness :
  (1 <= 3 /\ status_code not_found = 404)
  /\
  check_promo_code (runtime true) (always (Response not_found)) sample_code false 3
    initial
  = (Ret (invalid_outcome sample_code),
     {| nreq := 1; log := [EGet (gift_url sample_code)] |}).
Proof.
  split; [split; [lia | reflexivity]|].
  exact (proj1 (proj1 (terminal_responses (runtime true)
                         (always (Response not_found)) sample_code false 3
                         initial not_found ltac:(lia) eq_refl) eq_refl)).
Defined.

Lemma lookup_returns_on_conforming_transport_witness :
  (forall k, conforming (runtime true) (always html_502 k) = true)
  /\
  exists o w',
    check_promo_code (runtime true) (always html_502) sample_code false 3 initial
    = (Ret o, w')
    /\ well_formed sample_code o.
Proof.
  split; [intros k; reflexivity|].
  exact (lookup_returns_on_conforming_transport (runtime true) (always html_502)
           sample_code false 3 initial (fun k => eq_refl)).
Defined.

Lemma raw_data_follows_debug_witness :
  (1 <= 3 /\ status_code ok_200 = 200 /\ json ok_200 = Decoded (VDict nitro))
  /\
  forall o w',
    check_promo_code (runtime true) (always (Response ok_200)) sample_code true 3
      initial = (Ret o, w') ->
    raw_data o = Some (VDict nitro).
Proof.
  split; [repeat split; (lia || reflexivity)|].
  intros o w' Hrun.
  exact (proj1 (raw_data_follows_debug (runtime true)
                  (always (Response ok_200))
                  sample_code true 3 initial ok_200 (VDict nitro)
                  ltac:(lia) eq_refl eq_refl eq_refl) o w' Hrun).
Defined.


Lemma main_delay_cases_witness :
  ((60 < inject_Z 75)%Q
   /\ (if nonempty (strip (lit " 75 "))
       then py_float (runtime true) (strip (lit " 75 ")) else None)
      <> Some PNaN)
  /\ main_delay (runtime true) (lit " 75 ") = PFin (60 # 1)
  /\ exists q, main_delay (runtime true) (lit " 75 ") = PFin q /\ (0 <= q <= 60)%Q.
Proof.
  assert (H : (60 < inject_Z 75)%Q) by (unfold Qlt; simpl; lia).
  assert (Hn : (if nonempty (strip (lit " 75 "))
                then py_float (runtime true) (strip (lit " 75 ")) else None)
               <> Some PNaN) by (vm_compute; discriminate).
  split; [split; [exact H | exact Hn]|].
  split.
  - exact (proj1 (proj2 (proj1 (main_delay_cases (runtime true) (lit " 75 ")))) H).
  - exact (proj2 (main_delay_cases (runtime true) (lit " 75 ")) Hn).
Defined.

Lemma extract_gift_code_spec_witness :
  (nth_error patterns 0 = Some (lit "discord.gift/")
   /\ ~ In dot (lit "https://")
   /\ forallb isalnum sample_code = true
   /\ (16 <= length sample_code <= 25)%nat)
  /\
  extract_gift_code (lit "https://" ++ lit "discord.gift/" ++ sample_code ++ [])
  = Some sample_code.
Proof.
  assert (Hpre : ~ In dot (lit "https://")).
  { cbv. intros H. repeat (destruct H as [H|H]; [discriminate H|]). exact H. }
  assert (Hlen : (16 <= length sample_code <= 25)%nat) by (cbv; lia).
  split; [split; [reflexivity|]; split; [exact Hpre|]; split; [reflexivity|exact Hlen]|].
  exact (proj1 (proj2 (proj2 (proj2 extract_gift_code_spec)))
           0%nat (lit "discord.gift/") (lit "https://") sample_code []
           eq_refl Hpre (fun H => H) eq_refl Hlen I).
Defined.

Lemma batch_lookups_witness :
  (codes_of_lines codes_txt = [sample_code]
   /\ sleep_error (runtime true) (PFloat (PFin (5 # 2))) = None)
  /\
  exists w1 results,
    bulk_check_from_file (runtime true) (always (Response not_found))
      (fun _ => Some codes_txt) (lit "codes.txt") None (PFloat (PFin (5 # 2)))
      initial
    = (Ret tt,
       {| nreq := nreq w1;
          log := log w1 ++ [EWrite (lit "results_20240101_120000.txt") results] |})
    /\ files_of (log w1) = []
    /\ entries results = 1%nat.
Proof.
  split; [split; reflexivity|].
  exact (proj2 (proj2 (proj2 (proj2 (proj2
           (batch_lookups (runtime true) (always (Response not_found))
              (fun _ => Some codes_txt) (lit "codes.txt") None
              (PFloat (PFin (5 # 2))) codes_txt initial eq_refl)))))
           ltac:(cbv; discriminate) (fun k => eq_refl) eq_refl).
Defined.

End Run.

(* ================================================================== *)
(** * Further properties of the extraction *)

Lemma search_position (p : str) :
  forall t g, Re.search p t = Some g ->
              exists k, Re.match_at p (skipn k t) = Some g.
Proof.
  intros t. induction t as [|c t IH]; intros g; rewrite search_unfold.
  - destruct (Re.match_at p []) as [g'|] eqn:E; [|discriminate].
    intros [= <-]. exists 0%nat. exact E.
  - destruct (Re.match_at p (c :: t)) as [g'|] eqn:E.
    + intros [= <-]. exists 0%nat. exact E.
    + intros H. destruct (IH g H) as [k Hk]. exists (S k). exact Hk.
Qed.

Lemma search_infix (p t g : str) :
  Re.search p t = Some g -> exists pre post, t = pre ++ g ++ post.
Proof.
  intros H. destruct (search_position p t g H) as [k Hk].
  destruct (match_at_some _ _ _ Hk) as (rest & Ht & Hg & _).
  exists (firstn k t ++ p),
    (skipn 25 (takewhile isalnum rest)
       ++ skipn (length (takewhile isalnum rest)) rest).
  rewrite <- (firstn_skipn k t) at 1. rewrite Ht, <- app_assoc. f_equal. f_equal.
  rewrite (takewhile_skipn isalnum rest) at 1.
  rewrite <- (firstn_skipn 25 (takewhile isalnum rest)) at 1.
  rewrite <- Hg, <- app_assoc. reflexivity.
Qed.

Lemma lstrip_suffix (s : str) :
  exists a, s = a ++ lstrip s /\ forallb isspace a = true.
Proof.
  induction s as [|c s [a [Ha Hsp]]]; cbn.
  - exists []. split; reflexivity.
  - destruct (isspace c) eqn:E.
    + exists (c :: a). cbn. rewrite E, Hsp. split; [f_equal; exact Ha | reflexivity].
    + exists []. split; reflexivity.
Qed.

(** What [strip] removes is white space on both sides. *)
Lemma strip_infix (s : str) :
  exists a b, s = a ++ strip s ++ b
              /\ forallb isspace a = true /\ forallb isspace b = true.
Proof.
  destruct (lstrip_suffix s) as [a [Ha Hsa]].
  destruct (lstrip_suffix (rev (lstrip s))) as [b [Hb Hsb]].
  exists a, (rev b). split; [|split; [exact Hsa | apply forallb_rev; exact Hsb]].
  unfold strip, rstrip.
  rewrite <- rev_app_distr, <- Hb, rev_involutive. exact Ha.
Qed.

Lemma lstrip_spaces (ws s : str) :
  forallb isspace ws = true -> lstrip (ws ++ s) = lstrip s.
Proof.
  induction ws as [|c ws IH]; cbn; [reflexivity|].
  intros H. apply andb_prop in H. destruct H as [Hc Hws].
  rewrite Hc. exact (IH Hws).
Qed.

Lemma space_not_dot (ws : str) : forallb isspace ws = true -> ~ In dot ws.
Proof.
  intros H Hin. rewrite forallb_forall in H. specialize (H dot Hin). discriminate.
Qed.

Lemma no_pattern_without_dot (t : str) :
  ~ In dot t -> first_match patterns t = None.
Proof.
  intros Hd. apply first_match_none. intros p Hp.
  apply (search_missing_char p t dot); [exact (patterns_have_dot p Hp) | exact Hd].
Qed.

Lemma extract_bare_code (c : str) :
  forallb isalnum c = true -> (16 <= length c <= 25)%nat ->
  extract_gift_code c = Some c.
Proof.
  intros Hall Hlen. unfold extract_gift_code.
  rewrite (no_pattern_without_dot c (alnum_not_dot c Hall)), match_token_strip.
  rewrite (strip_alnum c Hall), Hall. cbn [andb].
  destruct (Nat.leb_spec 16 (length c)); [|lia].
  destruct (Nat.leb_spec (length c) 25); [reflexivity|lia].
Qed.

(** X1: whatever the input, a code that [extract_gift_code] returns consists
    of 16 to 25 letters and digits. *)
Theorem extracted_is_a_code (text c : str) :
  extract_gift_code text = Some c ->
  forallb isalnum c = true /\ (16 <= length c <= 25)%nat.
Proof. exact (extract_gift_code_some text c). Qed.

(** X2: extraction is idempotent: a code that was extracted from some text
    is extracted from itself unchanged. *)
Theorem extract_gift_code_idempotent (text c : str) :
  extract_gift_code text = Some c -> extract_gift_code c = Some c.
Proof.
  intros H. destruct (extract_gift_code_some text c H) as [Hall Hlen].
  exact (extract_bare_code c Hall Hlen).
Qed.

(** X3: the code that is returned is a contiguous part of the input, so a
    text of fewer than 16 characters gives [None]. *)
Theorem extracted_is_part_of_input (text c : str) :
  extract_gift_code text = Some c ->
  (exists pre post, text = pre ++ c ++ post) /\ (16 <= length text)%nat.
Proof.
  intros H.
  assert (Hpart : exists pre post, text = pre ++ c ++ post).
  { unfold extract_gift_code in H.
    destruct (first_match patterns text) as [g|] eqn:E.
    - injection H as <-.
      destruct (first_match_some text patterns g E) as (p & _ & Hs).
      exact (search_infix p text g Hs).
    - destruct (Re.match_token (strip text)); [|discriminate].
      injection H as <-.
      destruct (strip_infix text) as (a & b & Hs & _). exists a, b. exact Hs. }
  split; [exact Hpart|].
  destruct Hpart as (pre & post & ->).
  destruct (extract_gift_code_some _ c H) as [_ Hlen].
  rewrite !length_app. lia.
Qed.

(** X4: white space around a bare code does not matter. *)
Theorem extract_ignores_surrounding_space (ws1 c ws2 : str) :
  forallb isspace ws1 = true -> forallb isspace ws2 = true ->
  forallb isalnum c = true -> (16 <= length c <= 25)%nat ->
  extract_gift_code (ws1 ++ c ++ ws2) = Some c.
Proof.
  intros H1 H2 Hall Hlen.
  assert (Hstrip : strip (ws1 ++ c ++ ws2) = c).
  { unfold strip, rstrip. rewrite (lstrip_spaces ws1 _ H1).
    assert (Hl : lstrip (c ++ ws2) = c ++ ws2).
    { destruct c as [|x c]; [cbn in Hlen; lia|].
      cbn in Hall. apply andb_prop in Hall. destruct Hall as [Hx _].
      cbn. rewrite (alnum_not_space x Hx). reflexivity. }
    rewrite Hl, rev_app_distr, (lstrip_spaces (rev ws2) _ (forallb_rev _ _ H2)).
    rewrite (lstrip_alnum (rev c) (forallb_rev _ _ Hall)). apply rev_involutive. }
  unfold extract_gift_code.
  rewrite no_pattern_without_dot.
  - rewrite match_token_strip, Hstrip, Hall. cbn [andb].
    destruct (Nat.leb_spec 16 (length c)); [|lia].
    destruct (Nat.leb_spec (length c) 25); [reflexivity|lia].
  - intros Hin. apply in_app_or in Hin. destruct Hin as [Hin|Hin];
      [exact (space_not_dot ws1 H1 Hin)|].
    apply in_app_or in Hin. destruct Hin as [Hin|Hin];
      [exact (alnum_not_dot c Hall Hin) | exact (space_not_dot ws2 H2 Hin)].
Qed.

(* ================================================================== *)
(** * The shape of a lookup *)

Section LookupShape.

Variable rt : Runtime.
Variable net : nat -> behaviour.
Variables (code : str) (debug : bool) (max_retries : Z).

Lemma sleep_error_none_nonneg (z : Z) : sleep_error rt (PInt z) = None -> 0 <= z.
Proof.
  intros H. destruct (Z_lt_le_dec z 0) as [Hneg|Hok]; [|exact Hok].
  pose proof (time_sleep_negative rt z {| nreq := 0; log := [] |} Hneg) as Hs.
  unfold time_sleep in Hs. rewrite H in Hs. discriminate Hs.
Qed.

Lemma waits_or_ends_sleep (attempt z : Z) :
  z <= 30 -> attempt < max_retries - 1 ->
  waits_or_ends max_retries attempt (bind (time_sleep rt (PInt z)) (fun _ => ret Continue)).
Proof.
  intros Hz Hlt w res w'. unfold bind, time_sleep.
  destruct (sleep_error rt (PInt z)) as [e|] eqn:E.
  - intros [= <- <-]. right. split; [discriminate | reflexivity].
  - cbn. intros [= <- <-]. left. split; [reflexivity|]. split; [exact Hlt|].
    exists z. split; [|reflexivity].
    split; [exact (sleep_error_none_nonneg z E) | exact Hz].
Qed.

Lemma waits_or_ends_on_request_exception (attempt : Z) (desc : str) :
  waits_or_ends max_retries attempt (on_request_exception rt code max_retries attempt desc).
Proof.
  unfold on_request_exception.
  destruct (attempt <? max_retries - 1) eqn:E.
  - apply waits_or_ends_sleep; [lia | apply Z.ltb_lt; exact E].
  - intros w res w' [= <- <-]. right. split; [discriminate | reflexivity].
Qed.

Lemma waits_or_ends_on_429 (attempt : Z) (r : response) :
  waits_or_ends max_retries attempt (on_429 rt code max_retries attempt r).
Proof.
  unfold on_429.
  destruct (attempt <? max_retries - 1) eqn:E.
  - destruct (match retry_after r with None => Some 3 | Some h => py_int rt h end).
    + apply waits_or_ends_sleep; [lia | apply Z.ltb_lt; exact E].
    + intros w res w' [= <- <-]. right. split; [discriminate | reflexivity].
  - intros w res w' [= <- <-]. right. split; [discriminate | reflexivity].
Qed.

Lemma waits_or_ends_finish (res0 : result Outcome) (attempt : Z) :
  waits_or_ends max_retries attempt (finish rt code max_retries res0 attempt).
Proof.
  unfold finish. destruct res0 as [o|[desc| | | | |]];
    try (intros w res w' [= <- <-]; right; split; [discriminate | reflexivity]).
  apply waits_or_ends_on_request_exception.
Qed.

Lemma attempt_shape (attempt : Z) :
  forall w res w',
    attempt_once rt net code debug max_retries attempt w = (res, w') ->
    (res = Ret Continue /\ attempt < max_retries - 1 /\
     exists z, short_wait z /\
               w' = after_sleep (PInt z) (after_get (gift_url code) w))
    \/ (res <> Ret Continue /\ w' = after_get (gift_url code) w).
Proof.
  intros w res w'.
  destruct (net (nreq w)) as [r|desc] eqn:Hnet.
  - destruct (Z.eq_dec (status_code r) 200) as [H2|H2];
      [|destruct (Z.eq_dec (status_code r) 404) as [H4|H4];
        [|destruct (Z.eq_dec (status_code r) 429) as [H9|H9]]].
    + rewrite (attempt_200 rt net code debug max_retries attempt w r Hnet H2).
      apply waits_or_ends_finish.
    + rewrite (attempt_404 rt net code debug max_retries attempt w r Hnet H4).
      intros [= <- <-]. right. split; [discriminate | reflexivity].
    + rewrite (attempt_429 rt net code debug max_retries attempt w r Hnet H9).
      apply waits_or_ends_on_429.
    + rewrite (attempt_other rt net code debug max_retries attempt w r Hnet H2 H4 H9).
      apply waits_or_ends_finish.
  - rewrite (attempt_failure rt net code debug max_retries attempt w desc Hnet).
    apply waits_or_ends_on_request_exception.
Qed.

Lemma retry_loop_log (n : nat) :
  forall (attempt : Z) (w w' : world) (r : result (option Outcome)),
    attempt + Z.of_nat (S n) = max_retries ->
    retry_loop rt net code debug max_retries (S n) attempt w = (r, w') ->
    exists waits,
      (length waits <= n)%nat /\ Forall short_wait waits /\
      w' = {| nreq := nreq w + S (length waits);
              log := log w ++ lookup_log code waits |}.
Proof.
  induction n as [|n IH]; intros attempt w w' r Hsum.
  - cbn [retry_loop]. unfold bind.
    destruct (attempt_once rt net code debug max_retries attempt w)
      as [res w1] eqn:E.
    destruct (attempt_shape attempt w res w1 E)
      as [(-> & Hlt & _)|(Hne & ->)]; [lia|].
    intros H. exists []. split; [cbn; lia|]. split; [constructor|].
    assert (Hw : w' = after_get (gift_url code) w).
    { destruct res as [[o|]|e]; [| contradiction Hne; reflexivity |];
        injection H as _ <-; reflexivity. }
    rewrite Hw. unfold after_get. cbn [length lookup_log]. f_equal. lia.
  - change (retry_loop rt net code debug max_retries (S (S n)) attempt w)
      with (bind (attempt_once rt net code debug max_retries attempt)
              (fun f => match f with
                        | Return o => ret (Some o)
                        | Continue =>
                          retry_loop rt net code debug max_retries (S n) (attempt + 1)
                        end) w).
    unfold bind.
    destruct (attempt_once rt net code debug max_retries attempt w)
      as [res w1] eqn:E.
    destruct (attempt_shape attempt w res w1 E)
      as [(-> & Hlt & z & Hz & ->)|(Hne & ->)].
    + intros H. destruct (IH (attempt + 1) _ _ _ ltac:(lia) H)
        as (waits & Hlen & Hall & ->).
      exists (z :: waits). split; [cbn; lia|]. split; [constructor; assumption|].
      cbn [after_sleep after_get nreq log length lookup_log].
      f_equal; [lia|]. rewrite <- !app_assoc. reflexivity.
    + intros H. exists []. split; [cbn; lia|]. split; [constructor|].
      assert (Hw : w' = after_get (gift_url code) w).
      { destruct res as [[o|]|e]; [| contradiction Hne; reflexivity |];
          injection H as _ <-; reflexivity. }
      rewrite Hw. unfold after_get. cbn [length lookup_log]. f_equal. lia.
Qed.

Lemma check_promo_code_log (w w' : world) (r : result Outcome) :
  check_promo_code rt net code debug max_retries w = (r, w') ->
  (max_retries <= 0 /\ w' = w)
  \/ (1 <= max_retries /\
      exists waits,
        Z.of_nat (length waits) < max_retries /\ Forall short_wait waits /\
        w' = {| nreq := nreq w + S (length waits);
                log := log w ++ lookup_log code waits |}).
Proof.
  unfold check_promo_code, bind.
  destruct (Z.to_nat max_retries) as [|n] eqn:En.
  - cbn [retry_loop ret]. intros [= _ <-]. left. split; [lia | reflexivity].
  - destruct (retry_loop rt net code debug max_retries (S n) 0 w)
      as [res w1] eqn:E.
    destruct (retry_loop_log n 0 w w1 res ltac:(lia) E)
      as (waits & Hlen & Hall & Hw).
    intros H. right. split; [lia|]. exists waits.
    split; [lia|]. split; [exact Hall|].
    destruct res as [[o|]|e]; injection H as _ <-; exact Hw.
Qed.

(** X5: however the transport behaves and however the lookup ends (with an
    outcome or with an exception), what it did is [k] requests for the URL of
    the code with a sleep of whole seconds, 30 at most, between one request
    and the next, [1 <= k <= max_retries]; with [max_retries <= 0] it did
    nothing.  In particular it never sleeps after its last request and never
    writes a file. *)
Theorem lookup_is_requests_and_short_waits (w w' : world) (r : result Outcome) :
  check_promo_code rt net code debug max_retries w = (r, w') ->
  (max_retries <= 0 /\ w' = w)
  \/ (1 <= max_retries /\
      exists waits,
        Z.of_nat (length waits) < max_retries /\ Forall short_wait waits /\
        w' = {| nreq := nreq w + S (length waits);
                log := log w ++ lookup_log code waits |}).
Proof. exact (check_promo_code_log w w' r). Qed.

End LookupShape.

(* ================================================================== *)
(** * Retries that end with an answer *)

Section RetriesThenAnswer.

Variable rt : Runtime.
Variable net : nat -> behaviour.
Variables (code : str) (debug : bool) (max_retries : Z).

Lemma attempt_backoff (attempt z : Z) (w : world) :
  0 <= attempt -> attempt < max_retries - 1 ->
  backoff rt (net (nreq w)) attempt = Some z ->
  attempt_once rt net code debug max_retries attempt w
  = (Ret Continue, after_sleep (PInt z) (after_get (gift_url code) w)).
Proof.
  intros Ha Hlt Hb. unfold backoff in Hb.
  destruct (net (nreq w)) as [r|desc] eqn:Hnet.
  - destruct (Z.eqb_spec (status_code r) 429) as [H9|]; [|discriminate].
    destruct (retry_seconds rt r) as [n|] eqn:Hn; [|discriminate].
    destruct (Z.leb_spec 0 n); [|discriminate]. injection Hb as <-.
    rewrite (attempt_429 rt net code debug max_retries attempt w r Hnet H9).
    apply on_429_retry; assumption.
  - injection Hb as <-.
    rewrite (attempt_failure rt net code debug max_retries attempt w desc Hnet).
    apply on_request_exception_retry; assumption.
Qed.

Lemma attempt_answer (attempt : Z) (w : world) (r : response) (o : Outcome) :
  net (nreq w) = Response r ->
  answer rt code debug r = Some o ->
  attempt_once rt net code debug max_retries attempt w
  = (Ret (Return o), after_get (gift_url code) w).
Proof.
  intros Hnet Ha. unfold answer in Ha.
  destruct (Z.eqb_spec (status_code r) 200) as [H2|H2];
    [|destruct (Z.eqb_spec (status_code r) 404) as [H4|H4];
      [|destruct (Z.eqb_spec (status_code r) 429) as [H9|H9]]].
  - rewrite (attempt_200 rt net code debug max_retries attempt w r Hnet H2).
    destruct (on_200 rt code debug r); [|discriminate].
    injection Ha as <-. reflexivity.
  - injection Ha as <-.
    exact (attempt_404 rt net code debug max_retries attempt w r Hnet H4).
  - discriminate.
  - rewrite (attempt_other rt net code debug max_retries attempt w r Hnet H2 H4 H9).
    destruct (on_other rt code r); [|discriminate].
    injection Ha as <-. reflexivity.
Qed.

Lemma retry_loop_answer (waits : list Z) :
  forall (n : nat) (attempt : Z) (w : world) (r : response) (o : Outcome),
    0 <= attempt ->
    attempt + Z.of_nat (length waits) < max_retries ->
    (length waits < n)%nat ->
    retried rt net (nreq w) attempt waits ->
    net (nreq w + length waits) = Response r ->
    answer rt code debug r = Some o ->
    retry_loop rt net code debug max_retries n attempt w
    = (Ret (Some o),
       {| nreq := nreq w + S (length waits);
          log := log w ++ lookup_log code waits |}).
Proof.
  induction waits as [|z waits IH]; intros n attempt w r o Ha Hlt Hn Hre Hnet Hans;
    (destruct n as [|n]; [cbn in Hn; lia|]); cbn [retry_loop]; unfold bind.
  - cbn [length] in Hnet. rewrite Nat.add_0_r in Hnet.
    rewrite (attempt_answer attempt w r o Hnet Hans).
    unfold ret, after_get. cbn [length lookup_log]. do 2 f_equal. lia.
  - cbn [retried] in Hre. destruct Hre as [Hb Hre].
    cbn [length] in Hlt, Hn, Hnet.
    rewrite (attempt_backoff attempt z w Ha ltac:(lia) Hb).
    rewrite (IH n (attempt + 1) _ r o ltac:(lia) ltac:(lia) ltac:(lia)).
    + cbn [after_sleep after_get nreq log length lookup_log].
      do 2 f_equal; [lia|]. rewrite <- !app_assoc. reflexivity.
    + exact Hre.
    + cbn [after_sleep after_get nreq].
      replace (S (nreq w) + length waits)%nat
        with (nreq w + S (length waits))%nat by lia.
      exact Hnet.
    + exact Hans.
Qed.

(** X6: when the first attempts are retried (transport failures, or 429s
    with a usable Retry-After) and fewer of them than [max_retries], and the
    next response ends the lookup with an outcome, then the lookup returns
    this outcome; it has made one request more than it waited, and has
    waited [min(2 * 2^i, 10)] seconds after failure number [i] and
    [min(retry_after * 2^i, 30)] after a 429. *)
Theorem retries_then_answer (waits : list Z) (w : world) (r : response)
    (o : Outcome) :
  Z.of_nat (length waits) < max_retries ->
  retried rt net (nreq w) 0 waits ->
  net (nreq w + length waits) = Response r ->
  answer rt code debug r = Some o ->
  check_promo_code rt net code debug max_retries w
  = (Ret o,
     {| nreq := nreq w + S (length waits);
        log := log w ++ lookup_log code waits |}).
Proof.
  intros Hlt Hre Hnet Hans. unfold check_promo_code, bind.
  rewrite (retry_loop_answer waits (Z.to_nat max_retries) 0 w r o
             ltac:(lia) ltac:(lia) ltac:(lia) Hre Hnet Hans).
  reflexivity.
Qed.

End RetriesThenAnswer.

(* ================================================================== *)
(** * The outcomes of a lookup *)

Section Outcomes.

Variable rt : Runtime.
Variable net : nat -> behaviour.
Variables (code : str) (debug : bool) (max_retries : Z).

Lemma consistent_failed (status emoji message : str) :
  In status [lit "INVALID"; lit "RATE_LIMITED"; lit "ERROR"] ->
  startswith message emoji = true ->
  consistent code (failed code status emoji message).
Proof.
  intros Hin Hstart. split; [reflexivity|]. split; [exact Hstart|].
  right. repeat split. exact Hin.
Qed.

Lemma consistent_invalid : consistent code (invalid_outcome code).
Proof.
  apply consistent_failed; [left; reflexivity | reflexivity].
Qed.

Lemma consistent_rate_limited : consistent code (rate_limited_outcome code).
Proof.
  apply consistent_failed; [right; left; reflexivity | reflexivity].
Qed.

Lemma consistent_network_error (desc : str) :
  consistent code (network_error code desc).
Proof.
  apply consistent_failed; [right; right; left; reflexivity | reflexivity].
Qed.

Lemma consistent_error (error_msg : value) :
  consistent code (error_outcome rt code error_msg).
Proof.
  apply consistent_failed; [right; right; left; reflexivity | reflexivity].
Qed.

Lemma consistent_max_retries_exceeded : consistent code (max_retries_exceeded code).
Proof.
  apply consistent_failed; [right; right; left; reflexivity | reflexivity].
Qed.

Lemma on_200_consistent (r : response) (o : Outcome) :
  on_200 rt code debug r = Ret o -> consistent code o.
Proof.
  intros H. unfold on_200 in H.
  repeat match type of H with
         | match ?x with _ => _ end = _ => destruct x eqn:?; try discriminate
         end.
  injection H as <-. unfold consistent, code_of.
  cbn [valid status emoji message uses max_uses raw_data].
  split; [reflexivity|]. split.
  - match goal with
    | |- context [if ?b then lit "❌" else _] => destruct b; reflexivity
    end.
  - left. split; [reflexivity|]. split.
    + match goal with
      | |- context [if ?b then lit "❌" else _] =>
        destruct b; [right | left]; split; reflexivity
      end.
    + repeat split; discriminate.
Qed.

Lemma on_other_error (r : response) (o : Outcome) :
  on_other rt code r = Ret o -> exists error_msg, o = error_outcome rt code error_msg.
Proof.
  unfold on_other. intros H.
  repeat match type of H with
         | match ?x with _ => _ end = _ => destruct x eqn:?; try discriminate
         end.
  injection H as <-. eexists. reflexivity.
Qed.

Lemma attempt_consistent (attempt : Z) (w w' : world) (o : Outcome) :
  attempt_once rt net code debug max_retries attempt w = (Ret (Return o), w') ->
  consistent code o.
Proof.
  destruct (net (nreq w)) as [r|desc] eqn:Hnet.
  - destruct (Z.eq_dec (status_code r) 200) as [H2|H2];
      [|destruct (Z.eq_dec (status_code r) 404) as [H4|H4];
        [|destruct (Z.eq_dec (status_code r) 429) as [H9|H9]]].
    + rewrite (attempt_200 rt net code debug max_retries attempt w r Hnet H2).
      intros H. apply finish_flow in H.
      destruct H as [(o' & Ho & [= ->])|(d & _ & [[[=] _]|[= ->]])].
      * exact (on_200_consistent r o' Ho).
      * apply consistent_network_error.
    + rewrite (attempt_404 rt net code debug max_retries attempt w r Hnet H4).
      intros [= <- _]. apply consistent_invalid.
    + rewrite (attempt_429 rt net code debug max_retries attempt w r Hnet H9).
      intros H. apply on_429_flow in H. destruct H as [[[=] _]|[= ->]].
      apply consistent_rate_limited.
    + rewrite (attempt_other rt net code debug max_retries attempt w r Hnet H2 H4 H9).
      intros H. apply finish_flow in H.
      destruct H as [(o' & Ho & [= ->])|(d & _ & [[[=] _]|[= ->]])].
      * destruct (on_other_error r o' Ho) as [m ->]. apply consistent_error.
      * apply consistent_network_error.
  - rewrite (attempt_failure rt net code debug max_retries attempt w desc Hnet).
    intros H. apply on_request_exception_flow in H.
    destruct H as [[[=] _]|[= ->]]. apply consistent_network_error.
Qed.

Lemma retry_loop_consistent (n : nat) :
  forall (attempt : Z) (w w' : world) (o : Outcome),
    retry_loop rt net code debug max_retries n attempt w = (Ret (Some o), w') ->
    consistent code o.
Proof.
  induction n as [|n IH]; intros attempt w w' o.
  - discriminate.
  - cbn [retry_loop]. unfold bind.
    destruct (attempt_once rt net code debug max_retries attempt w)
      as [[[o1|]|e] w1] eqn:E.
    + intros [= <- _]. exact (attempt_consistent attempt w w1 o1 E).
    + apply IH.
    + discriminate.
Qed.

Lemma check_promo_code_consistent (w w' : world) (o : Outcome) :
  check_promo_code rt net code debug max_retries w = (Ret o, w') ->
  consistent code o.
Proof.
  unfold check_promo_code, bind.
  destruct (retry_loop rt net code debug max_retries (Z.to_nat max_retries) 0 w)
    as [[[o1|]|e] w1] eqn:E.
  - intros [= <- _]. exact (retry_loop_consistent _ _ _ _ _ E).
  - intros [= <- _]. apply consistent_max_retries_exceeded.
  - discriminate.
Qed.

(** X7: every dict that a lookup returns, whatever the transport did, is for
    the code that was asked for and has a message that starts with its
    emoji; it is either an answer ([valid], CLAIMABLE with the check mark or
    CLAIMED with the cross, with the keys [uses], [max_uses] and
    [raw_data]) or a refusal (not [valid], INVALID, RATE_LIMITED or ERROR,
    plan "N/A", without those keys). *)
Theorem lookup_outcome_is_consistent (w w' : world) (o : Outcome) :
  check_promo_code rt net code debug max_retries w = (Ret o, w') ->
  consistent code o.
Proof. exact (check_promo_code_consistent w w' o). Qed.

End Outcomes.

(* ================================================================== *)
(** * The message of an answer *)

Section AnswerMessage.

Variable rt : Runtime.
Variable net : nat -> behaviour.
Variables (code : str) (debug : bool) (max_retries : Z).

Lemma on_200_typed (r : response) (d p : list (str * value)) (b : bool) (u m : Z) :
  json r = Decoded (VDict d) ->
  body_redeemed d = Some b ->
  body_count d (lit "uses") 0 = Some u ->
  body_count d (lit "max_uses") 1 = Some m ->
  body_plan d = Some p ->
  exists o,
    on_200 rt code debug r = Ret o /\
    plan o = field p (lit "name") (VStr (lit "Unknown")) /\
    uses o = Some (VInt u) /\ max_uses o = Some (VInt m) /\
    message o
    = emoji o ++ lit " Code is " ++ status o ++ lit " - " ++ py_str rt (plan o)
      ++ (if (0 <? u) || (1 <? m)
          then lit " (Uses: " ++ str_of_Z u ++ lit "/" ++ str_of_Z m ++ lit ")"
          else []).
Proof.
  intros Hj Hb Hu Hm Hp. unfold on_200, response_json. rewrite Hj.
  cbn [py_get]. fold (field d (lit "redeemed") (VBool false)).
  fold (field d (lit "uses") (VInt 0)).
  fold (field d (lit "max_uses") (VInt 1)).
  fold (field d (lit "subscription_plan") (VDict [])).
  rewrite (body_plan_field d p Hp), (body_redeemed_field d b Hb).
  rewrite (body_count_field _ _ _ _ Hu), (body_count_field _ _ _ _ Hm).
  cbn [py_get truthy].
  rewrite (py_cmp_num Ge (VInt u) (VInt m) (PInt u) (PInt m) eq_refl eq_refl).
  rewrite (py_cmp_num Gt (VInt u) (VInt 0) (PInt u) (PInt 0) eq_refl eq_refl).
  rewrite (py_cmp_num Gt (VInt m) (VInt 1) (PInt m) (PInt 1) eq_refl eq_refl).
  cbn [num_cmp]. rewrite !num_lt_int.
  fold (field p (lit "name") (VStr (lit "Unknown"))).
  destruct b; [|destruct (num_le (PInt m) (PInt u))];
    destruct (0 <? u); try destruct (1 <? m);
    (eexists; split; [reflexivity|];
     cbn [plan uses max_uses message emoji status orb py_str];
     repeat split; reflexivity).
Qed.

(** X8: for a 200 response with the documented body, the answer repeats the
    counts of the body (0 and 1 when absent), takes the plan name from
    [subscription_plan.name] ("Unknown" when absent), and its message is
    mark, "Code is", status, plan name and, exactly when [uses > 0] or
    [max_uses > 1], the counts as "(Uses: uses/max_uses)". *)
Theorem answer_message (w : world) (r : response)
    (d p : list (str * value)) (b : bool) (u m : Z) :
  1 <= max_retries ->
  net (nreq w) = Response r -> status_code r = 200 ->
  json r = Decoded (VDict d) ->
  body_redeemed d = Some b ->
  body_count d (lit "uses") 0 = Some u ->
  body_count d (lit "max_uses") 1 = Some m ->
  body_plan d = Some p ->
  exists o,
    check_promo_code rt net code debug max_retries w
    = (Ret o, after_get (gift_url code) w) /\
    plan o = field p (lit "name") (VStr (lit "Unknown")) /\
    uses o = Some (VInt u) /\ max_uses o = Some (VInt m) /\
    message o
    = emoji o ++ lit " Code is " ++ status o ++ lit " - " ++ py_str rt (plan o)
      ++ (if (0 <? u) || (1 <? m)
          then lit " (Uses: " ++ str_of_Z u ++ lit "/" ++ str_of_Z m ++ lit ")"
          else []).
Proof.
  intros Hpos Hnet Hs Hj Hb Hu Hm Hp.
  destruct (on_200_typed r d p b u m Hj Hb Hu Hm Hp) as (o & Ho & Hrest).
  exists o. split; [|exact Hrest].
  apply check_first_return; [assumption|].
  rewrite (attempt_200 rt net code debug max_retries 0 w r Hnet Hs).
  rewrite Ho. reflexivity.
Qed.

End AnswerMessage.

(* ================================================================== *)
(** * The results of a batch *)

Lemma str_eqb_eq (a b : str) : str_eqb a b = true -> a = b.
Proof.
  unfold str_eqb. destruct (list_eq_dec N.eq_dec a b); [auto | discriminate].
Qed.

Lemma str_eqb_neq (a b : str) : str_eqb a b = false -> a <> b.
Proof.
  unfold str_eqb. destruct (list_eq_dec N.eq_dec a b); [discriminate | auto].
Qed.

Lemma consistent_status_kind (code : str) (o : Outcome) :
  consistent code o -> In (status o) kinds.
Proof.
  intros (_ & _ & [(_ & [[-> _]|[-> _]] & _)|(_ & Hin & _)]).
  - left. reflexivity.
  - right. left. reflexivity.
  - cbn in Hin. destruct Hin as [<-|[<-|[<-|[]]]].
    + do 2 right. left. reflexivity.
    + do 3 right. left. reflexivity.
    + do 4 right. left. reflexivity.
Qed.

Lemma Forall_snoc {A} (P : A -> Prop) (l : list A) (x : A) :
  Forall P l -> P x -> Forall P (l ++ [x]).
Proof.
  intros Hl Hx. apply Forall_app. split; [exact Hl|].
  constructor; [exact Hx | constructor].
Qed.

Lemma record_result_classified (results : Results) (result : Outcome) :
  classified results -> In (status result) kinds ->
  classified (record_result results result).
Proof.
  intros (H1 & H2 & H3 & H4 & H5) Hkind. unfold record_result, classified.
  destruct (str_eqb (status result) (lit "CLAIMABLE")) eqn:E1.
  { apply str_eqb_eq in E1. cbn [claimable claimed invalid rate_limited error].
    repeat split; try assumption. apply Forall_snoc; assumption. }
  destruct (str_eqb (status result) (lit "CLAIMED")) eqn:E2.
  { apply str_eqb_eq in E2. cbn [claimable claimed invalid rate_limited error].
    repeat split; try assumption. apply Forall_snoc; assumption. }
  destruct (str_eqb (status result) (lit "INVALID")) eqn:E3.
  { apply str_eqb_eq in E3. cbn [claimable claimed invalid rate_limited error].
    repeat split; try assumption. apply Forall_snoc; assumption. }
  destruct (str_eqb (status result) (lit "RATE_LIMITED")) eqn:E4.
  { apply str_eqb_eq in E4. cbn [claimable claimed invalid rate_limited error].
    repeat split; try assumption. apply Forall_snoc; assumption. }
  apply str_eqb_neq in E1, E2, E3, E4.
  cbn [claimable claimed invalid rate_limited error].
  repeat split; try assumption. apply Forall_snoc; [assumption|].
  cbn in Hkind.
  destruct Hkind as [H|[H|[H|[H|[H|[]]]]]]; symmetry in H;
    try contradiction; exact H.
Qed.

Lemma Permutation_snoc_middle {A} (a b : list A) (x : A) :
  Permutation ((a ++ [x]) ++ b) ((a ++ b) ++ [x]).
Proof.
  rewrite <- !app_assoc. apply Permutation_app_head. apply Permutation_app_comm.
Qed.

Lemma record_result_entries (results : Results) (result : Outcome) :
  Permutation (all_entries (record_result results result))
    (all_entries results ++ [result]).
Proof.
  unfold record_result, all_entries.
  repeat match goal with
         | |- context [if ?b then _ else _] => destruct b
         end;
    cbn [claimable claimed invalid rate_limited error].
  - apply Permutation_snoc_middle.
  - rewrite <- (app_assoc (claimable results) _ [result]).
    apply Permutation_app_head. apply Permutation_snoc_middle.
  - rewrite <- (app_assoc (claimable results) _ [result]).
    rewrite <- (app_assoc (claimed results) _ [result]).
    do 2 apply Permutation_app_head. apply Permutation_snoc_middle.
  - rewrite <- (app_assoc (claimable results) _ [result]).
    rewrite <- (app_assoc (claimed results) _ [result]).
    rewrite <- (app_assoc (invalid results) _ [result]).
    do 3 apply Permutation_app_head. apply Permutation_snoc_middle.
  - rewrite <- !app_assoc. reflexivity.
Qed.

Lemma classified_empty : classified empty_results.
Proof. repeat split; constructor. Qed.

Section BatchResults.

Variable rt : Runtime.
Variable net : nat -> behaviour.
Variable delay : pynum.
Variable total : nat.

Lemma check_all_results (codes : list str) :
  forall (i : nat) (results res : Results) (w w' : world),
    check_all rt net delay total codes i results w = (Ret res, w') ->
    classified results ->
    classified res
    /\ Permutation (map code_of (all_entries res))
         (map code_of (all_entries results) ++ codes).
Proof.
  induction codes as [|c codes IH]; intros i results res w w'.
  - intros [= <- _] Hcl. split; [exact Hcl|]. rewrite app_nil_r. reflexivity.
  - cbn [check_all]. unfold bind at 1.
    destruct (check_promo_code rt net c false 3 w) as [[o|e] w1] eqn:E;
      [|discriminate].
    pose proof (check_promo_code_consistent rt net c false 3 w w1 o E) as Hcons.
    unfold bind at 1.
    destruct ((if (i <? total)%nat then time_sleep rt delay else ret tt) w1)
      as [[[]|e] w2]; [|discriminate].
    intros H Hcl.
    destruct (IH _ _ _ _ _ H
                (record_result_classified results o Hcl
                   (consistent_status_kind c o Hcons)))
      as [Hres Hperm].
    split; [exact Hres|].
    rewrite Hperm.
    rewrite (Permutation_map code_of (record_result_entries results o)).
    rewrite map_app, <- app_assoc. cbn [map app].
    destruct Hcons as [-> _]. reflexivity.
Qed.

End BatchResults.

Section BatchReport.

Variable rt : Runtime.
Variable net : nat -> behaviour.
Variable fs : str -> option (list str).

(** A batch that ends normally has run its loop to the end and then saved
    the results. *)
Lemma bulk_returns (filename : str) (output_file : option str) (delay : pynum)
    (lines : list str) (w w' : world) :
  fs filename = Some lines ->
  codes_of_lines lines <> [] ->
  bulk_check_from_file rt net fs filename output_file delay w = (Ret tt, w') ->
  exists w1 res,
    check_all rt net delay (length (codes_of_lines lines)) (codes_of_lines lines)
      1%nat empty_results w = (Ret res, w1)
    /\ w' = {| nreq := nreq w1;
               log := log w1 ++ [EWrite (report_name rt output_file) res] |}.
Proof.
  intros Hfs Hne.
  rewrite (bulk_unfold rt net fs filename output_file delay lines w Hfs Hne).
  unfold bind.
  destruct (check_all rt net delay (length (codes_of_lines lines))
              (codes_of_lines lines) 1 empty_results w) as [[res|e] w1];
    [|discriminate].
  rewrite save_results_log. intros [= <-]. exists w1, res. split; reflexivity.
Qed.

(** X9: in the results that a batch saves, every entry is in the list of
    its status: the list [claimable] holds CLAIMABLE outcomes only, and so
    on; what is under [error] has the status ERROR. *)
Theorem saved_results_are_classified (filename : str) (output_file : option str)
    (delay : pynum) (lines : list str) (w w' : world) :
  fs filename = Some lines ->
  codes_of_lines lines <> [] ->
  bulk_check_from_file rt net fs filename output_file delay w = (Ret tt, w') ->
  exists l res,
    log w' = l ++ [EWrite (report_name rt output_file) res] /\ classified res.
Proof.
  intros Hfs Hne Hrun.
  destruct (bulk_returns filename output_file delay lines w w' Hfs Hne Hrun)
    as (w1 & res & Hloop & ->).
  exists (log w1), res. split; [reflexivity|].
  exact (proj1 (check_all_results rt net delay _ _ _ _ _ _ _ Hloop classified_empty)).
Qed.

(** X10: the results that a batch saves hold each code of the input once:
    the codes of the entries, all categories together, are the codes of the
    file up to their order. *)
Theorem saved_results_hold_every_code (filename : str) (output_file : option str)
    (delay : pynum) (lines : list str) (w w' : world) :
  fs filename = Some lines ->
  codes_of_lines lines <> [] ->
  bulk_check_from_file rt net fs filename output_file delay w = (Ret tt, w') ->
  exists l res,
    log w' = l ++ [EWrite (report_name rt output_file) res] /\
    Permutation (map code_of (all_entries res)) (codes_of_lines lines).
Proof.
  intros Hfs Hne Hrun.
  destruct (bulk_returns filename output_file delay lines w w' Hfs Hne Hrun)
    as (w1 & res & Hloop & ->).
  exists (log w1), res. split; [reflexivity|].
  exact (proj2 (check_all_results rt net delay _ _ _ _ _ _ _ Hloop classified_empty)).
Qed.

(** X11: a report is written at the very end or not at all: a batch that
    raises has written no file, and one that returns has written one file
    when the input had a code and none when it had not. *)
Theorem report_is_written_last_or_never (filename : str)
    (output_file : option str) (delay : pynum) (lines : list str)
    (w w' : world) (r : result unit) :
  fs filename = Some lines ->
  bulk_check_from_file rt net fs filename output_file delay w = (r, w') ->
  files_of (log w')
  = files_of (log w)
    ++ match r with
       | Ret _ =>
         if nonempty (codes_of_lines lines) then [report_name rt output_file]
         else []
       | Raise _ => []
       end.
Proof.
  intros Hfs.
  destruct (codes_of_lines lines) as [|c cs] eqn:Ecodes.
  - unfold bulk_check_from_file. rewrite Hfs, Ecodes. cbn [nonempty negb].
    intros [= <- <-]. rewrite app_nil_r. reflexivity.
  - rewrite (bulk_unfold rt net fs filename output_file delay lines w Hfs)
      by (rewrite Ecodes; discriminate).
    rewrite Ecodes. unfold bind.
    destruct (check_all rt net delay (length (c :: cs)) (c :: cs) 1 empty_results w)
      as [[res|e] w1] eqn:E;
      destruct (check_all_requests rt net delay _ _ _ _ _ _ _ E)
        as (ks & _ & _ & _ & Hf & _).
    + rewrite save_results_log. intros [= <- <-]. cbn [log nonempty].
      rewrite files_of_app, Hf. reflexivity.
    + intros [= <- <-]. rewrite app_nil_r. exact Hf.
Qed.

End BatchReport.

(* ================================================================== *)
(** * The pauses of a batch *)




Section Pauses.

Variable rt : Runtime.
Variable net : nat -> behaviour.
Variable f : pyfloat.
Variable total : nat.



End Pauses.

Section BatchPauses.

Variable rt : Runtime.
Variable net : nat -> behaviour.
Variable fs : str -> option (list str).


End BatchPauses.

(* ================================================================== *)
(** * Bulk mode from [main] *)

Section MainBulk.

Variable rt : Runtime.
Variable net : nat -> behaviour.
Variable lower : str -> str.
Variable fs : str -> option (list str).

Lemma sleep_error_minute (q : Q) :
  (0 <= q <= 60)%Q -> sleep_error rt (PFloat (PFin q)) = None.
Proof.
  intros [Hlo Hhi]. unfold sleep_error. cbn [float_of_num].
  assert (H0 : Qlt_bool q 0 = false) by (apply Qlt_bool_false; exact Hlo).
  assert (H1 : Qle_bool q (sleep_max rt) = true).
  { apply Qle_bool_iff. apply Qle_trans with (y := (60 # 1)%Q);
      [exact Hhi | apply (sleep_max_minute rt)]. }
  rewrite H0, H1. reflexivity.
Qed.

(** Unless it is NaN, the delay that [main] computes is one that
    [time.sleep] accepts. *)
Lemma main_delay_sleeps (entered : str) :
  main_delay rt entered <> PNaN ->
  sleep_error rt (PFloat (main_delay rt entered)) = None.
Proof.
  assert (Hdefault : sleep_error rt (PFloat (PFin (5 # 2))) = None).
  { apply sleep_error_minute. split; unfold Qle; simpl; lia. }
  assert (Hmax : sleep_error rt (PFloat (PFin (60 # 1))) = None).
  { apply sleep_error_minute. split; unfold Qle; simpl; lia. }
  unfold main_delay.
  destruct (nonempty (strip entered)); [|intros _; exact Hdefault].
  destruct (py_float rt (strip entered)) as [[| | |q]|]; cbn [float_lt float_of_num];
    try (intros _; assumption).
  - intros H. contradiction H. reflexivity.
  - change (inject_Z 0) with 0%Q. change (inject_Z 60) with (60 # 1)%Q.
    destruct (Qlt_bool q 0) eqn:E0; [intros _; exact Hdefault|].
    destruct (Qlt_bool (60 # 1) q) eqn:E60; [intros _; exact Hmax|].
    intros _. apply sleep_error_minute.
    split; [apply Qlt_bool_false; exact E0 | apply Qlt_bool_false; exact E60].
Qed.

Lemma main_bulk_mode (entered filename delay_input : str) (rest : list str)
    (w : world) :
  strip entered = lit "2" ->
  main rt net lower fs (entered :: filename :: delay_input :: rest) w
  = main_bulk rt net fs filename delay_input w.
Proof. intros H. unfold main. rewrite H. reflexivity. Qed.

(** X13: in bulk mode [main] passes a delay that reads as NaN on to the
    batch as it is, and [time.sleep] refuses it: with two codes or more in
    the file, the run raises [ValueError] right after the first lookup,
    without a second request and without a report. *)
Theorem main_with_nan_delay_raises (entered filename delay_input : str)
    (rest lines codes : list str) (c1 c2 : str) (o : Outcome) (w w1 : world) :
  strip entered = lit "2" ->
  strip delay_input <> [] ->
  py_float rt (strip delay_input) = Some PNaN ->
  fs (strip filename) = Some lines ->
  codes_of_lines lines = c1 :: c2 :: codes ->
  check_promo_code rt net c1 false 3 w = (Ret o, w1) ->
  main rt net lower fs (entered :: filename :: delay_input :: rest) w
  = (Raise ValueError, w1).
Proof.
  intros Hchoice Hne Hnan Hfs Hcodes Hfirst.
  rewrite (main_bulk_mode entered filename delay_input rest w Hchoice).
  assert (Hdelay : main_delay rt delay_input = PNaN).
  { unfold main_delay. destruct (strip delay_input); [contradiction|].
    cbn [nonempty]. rewrite Hnan. reflexivity. }
  unfold main_bulk. rewrite Hdelay.
  rewrite (bulk_unfold rt net fs (strip filename) None (PFloat PNaN) lines w Hfs)
    by (rewrite Hcodes; discriminate).
  rewrite Hcodes. unfold bind at 1. cbn [check_all length].
  unfold bind at 1. rewrite Hfirst. unfold bind at 1.
  cbn [Nat.ltb Nat.leb]. reflexivity.
Qed.

(** X14: in bulk mode [main] runs the batch to its end whenever the delay
    does not read as NaN: on a conforming transport, with a file that has a
    code, it returns after writing one report, under the default name, with
    one entry for each code. *)
Theorem main_bulk_completes (entered filename delay_input : str)
    (rest lines : list str) (w : world) :
  strip entered = lit "2" ->
  main_delay rt delay_input <> PNaN ->
  fs (strip filename) = Some lines ->
  codes_of_lines lines <> [] ->
  (forall k, conforming rt (net k) = true) ->
  exists w1 res,
    main rt net lower fs (entered :: filename :: delay_input :: rest) w
    = (Ret tt,
       {| nreq := nreq w1;
          log := log w1
                 ++ [EWrite (lit "results_" ++ timestamp rt ++ lit ".txt") res] |})
    /\ files_of (log w1) = files_of (log w)
    /\ entries res = length (codes_of_lines lines).
Proof.
  intros Hchoice Hdelay Hfs Hne Hc.
  rewrite (main_bulk_mode entered filename delay_input rest w Hchoice).
  unfold main_bulk.
  rewrite (bulk_unfold rt net fs (strip filename) None _ lines w Hfs Hne).
  unfold bind at 1.
  destruct (check_all_conforming rt net (PFloat (main_delay rt delay_input))
              (length (codes_of_lines lines)) (codes_of_lines lines) Hc
              (main_delay_sleeps delay_input Hdelay) 1%nat empty_results w)
    as (res & w1 & Hrun).
  rewrite Hrun, save_results_log.
  destruct (check_all_requests rt net _ _ _ _ _ _ _ _ Hrun)
    as (ks & _ & _ & _ & Hf & Hres).
  exists w1, res. split; [reflexivity|]. split; [exact Hf|].
  exact (proj2 (Hres res eq_refl)).
Qed.

End MainBulk.

(* ================================================================== *)
(** * The exceptions of a lookup *)

Section LookupExceptions.

Variable rt : Runtime.
Variable net : nat -> behaviour.
Variables (code : str) (debug : bool) (max_retries : Z).

Lemma response_json_raises (r : response) (e : pyexn) :
  response_json rt r = Raise e -> e <> EOFError.
Proof.
  unfold response_json. destruct (json r) as [v|desc]; [discriminate|].
  destruct (json_error_is_request_exception rt); intros [= <-]; discriminate.
Qed.

Lemma on_200_raises (r : response) (e : pyexn) :
  on_200 rt code debug r = Raise e -> e <> EOFError.
Proof.
  intros H. unfold on_200 in H.
  repeat match type of H with
         | match ?x with _ => _ end = _ =>
           let E := fresh "E" in destruct x eqn:E; try discriminate
         end;
    injection H as <-;
    match goal with
    | E : response_json _ _ = Raise _ |- _ => exact (response_json_raises _ _ E)
    | E : py_get _ _ _ = Raise _ |- _ =>
      rewrite (py_get_raises_attribute_error _ _ _ _ E); discriminate
    | E : (if truthy ?a then _ else _) = Raise _ |- _ =>
      destruct (truthy a); [discriminate|];
      rewrite (py_cmp_raises_type_error _ _ _ _ E); discriminate
    | E : match py_cmp Gt ?a (VInt 0) with _ => _ end = Raise _ |- _ =>
      destruct (py_cmp Gt a (VInt 0)) as [[|]|] eqn:Eg;
      [ discriminate
      | rewrite (py_cmp_raises_type_error _ _ _ _ E); discriminate
      | injection E as <-;
        rewrite (py_cmp_raises_type_error _ _ _ _ Eg); discriminate ]
    end.
Qed.

Lemma on_other_raises (r : response) (e : pyexn) :
  on_other rt code r = Raise e -> e <> EOFError.
Proof.
  unfold on_other.
  destruct (nonempty (text r)).
  - destruct (response_json rt r) as [v|e0] eqn:E.
    + destruct (py_get v _ _) as [m|e1] eqn:Eg; [discriminate|].
      intros [= <-]. rewrite (py_get_raises_attribute_error _ _ _ _ Eg).
      discriminate.
    + intros [= <-]. exact (response_json_raises _ _ E).
  - cbn. discriminate.
Qed.

Lemma time_sleep_raises (d : pynum) (w w' : world) (e : pyexn) :
  time_sleep rt d w = (Raise e, w') -> e <> EOFError.
Proof.
  unfold time_sleep. destruct (sleep_error rt d) as [e0|] eqn:E; [|discriminate].
  intros [= <- _]. destruct (sleep_error_kind rt d e0 E) as [-> | ->]; discriminate.
Qed.

Lemma on_request_exception_raises (attempt : Z) (desc : str) (w w' : world)
    (e : pyexn) :
  on_request_exception rt code max_retries attempt desc w = (Raise e, w') ->
  e <> EOFError.
Proof.
  unfold on_request_exception.
  destruct (attempt <? max_retries - 1); [|discriminate].
  unfold bind.
  destruct (time_sleep rt _ w) as [[[]|e0] w0] eqn:E; [discriminate|].
  intros [= <- _]. exact (time_sleep_raises _ _ _ _ E).
Qed.

Lemma on_429_raises (attempt : Z) (r : response) (w w' : world) (e : pyexn) :
  on_429 rt code max_retries attempt r w = (Raise e, w') -> e <> EOFError.
Proof.
  unfold on_429.
  destruct (attempt <? max_retries - 1); [|discriminate].
  destruct (match retry_after r with None => Some 3 | Some h => py_int rt h end);
    [|intros [= <- _]; discriminate].
  unfold bind.
  destruct (time_sleep rt _ w) as [[[]|e0] w0] eqn:E; [discriminate|].
  intros [= <- _]. exact (time_sleep_raises _ _ _ _ E).
Qed.

Lemma finish_raises (res : result Outcome) (attempt : Z) (w w' : world)
    (e : pyexn) :
  (forall e0, res = Raise e0 -> e0 <> EOFError) ->
  finish rt code max_retries res attempt w = (Raise e, w') -> e <> EOFError.
Proof.
  intros Hres. unfold finish.
  destruct res as [o|e0]; [discriminate|].
  pose proof (Hres e0 eq_refl) as Hne.
  destruct e0 as [desc| | | | |];
    try (intros [= <- _]; discriminate).
  - apply on_request_exception_raises.
  - contradiction Hne. reflexivity.
Qed.

Lemma attempt_once_raises (attempt : Z) (w w' : world) (e : pyexn) :
  attempt_once rt net code debug max_retries attempt w = (Raise e, w') ->
  e <> EOFError.
Proof.
  destruct (net (nreq w)) as [r|desc] eqn:Hnet.
  - destruct (Z.eq_dec (status_code r) 200) as [H2|H2];
      [|destruct (Z.eq_dec (status_code r) 404) as [H4|H4];
        [|destruct (Z.eq_dec (status_code r) 429) as [H9|H9]]].
    + rewrite (attempt_200 rt net code debug max_retries attempt w r Hnet H2).
      apply finish_raises. intros e0. apply on_200_raises.
    + rewrite (attempt_404 rt net code debug max_retries attempt w r Hnet H4).
      discriminate.
    + rewrite (attempt_429 rt net code debug max_retries attempt w r Hnet H9).
      apply on_429_raises.
    + rewrite (attempt_other rt net code debug max_retries attempt w r Hnet H2 H4 H9).
      apply finish_raises. intros e0. apply on_other_raises.
  - rewrite (attempt_failure rt net code debug max_retries attempt w desc Hnet).
    apply on_request_exception_raises.
Qed.

Lemma retry_loop_raises (n : nat) :
  forall (attempt : Z) (w w' : world) (e : pyexn),
    retry_loop rt net code debug max_retries n attempt w = (Raise e, w') ->
    e <> EOFError.
Proof.
  induction n as [|n IH]; intros attempt w w' e; [discriminate|].
  cbn [retry_loop]. unfold bind.
  destruct (attempt_once rt net code debug max_retries attempt w)
    as [[[o|]|e0] w1] eqn:E.
  - discriminate.
  - apply IH.
  - intros [= <- _]. exact (attempt_once_raises attempt w w1 e0 E).
Qed.

(** A lookup raises what the builtins it calls raise; the [EOFError] of
    [input()] is not among them. *)
Lemma check_promo_code_raises (w w' : world) (e : pyexn) :
  check_promo_code rt net code debug max_retries w = (Raise e, w') ->
  e <> EOFError.
Proof.
  unfold check_promo_code, bind.
  destruct (retry_loop rt net code debug max_retries (Z.to_nat max_retries) 0 w)
    as [[[o|]|e0] w1] eqn:E; try discriminate.
  intros [= <- _]. exact (retry_loop_raises _ _ _ _ _ E).
Qed.

End LookupExceptions.

(* ================================================================== *)
(** * The console session *)

Section Session.

Variable rt : Runtime.
Variable net : nat -> behaviour.
Variable lower : str -> str.

Lemma session_codes_cons (entered : str) (inputs : list str) :
  session_codes lower (entered :: inputs)
  = if quits lower (strip entered) then []
    else codes_of_entry lower entered ++ session_codes lower inputs.
Proof.
  unfold session_codes, spoken. cbn [takewhile].
  destruct (quits lower (strip entered)); reflexivity.
Qed.

Lemma interactive_loop_requests (inputs : list str) :
  forall (debug_mode : bool) (w w' : world) (r : result unit),
    interactive_loop rt net lower inputs debug_mode w = (r, w') ->
    exists ks,
      (length ks <= length (session_codes lower inputs))%nat /\
      Forall attempts_ok ks /\
      requests_of (log w')
      = requests_of (log w) ++ lookups (session_codes lower inputs) ks /\
      files_of (log w') = files_of (log w) /\
      (r = Ret tt \/ r = Raise EOFError ->
       length ks = length (session_codes lower inputs)
       /\ r = session_result lower inputs).
Proof.
  induction inputs as [|entered inputs IH]; intros debug_mode w w' r.
  - intros [= <- <-]. exists []. cbn. rewrite app_nil_r.
    split; [lia|]. split; [constructor|]. split; [reflexivity|].
    split; [reflexivity|]. intros _. split; reflexivity.
  - cbn [interactive_loop]. rewrite session_codes_cons.
    unfold session_result. cbn [existsb].
    destruct (quits lower (strip entered)) eqn:Eq.
    { intros [= <- <-]. exists []. cbn. rewrite app_nil_r.
      split; [lia|]. split; [constructor|]. split; [reflexivity|].
      split; [reflexivity|]. intros _. split; reflexivity. }
    cbn [orb]. fold (session_result lower inputs). unfold codes_of_entry.
    destruct (str_eqb (lower (strip entered)) (lit "debug")); [apply IH|].
    destruct (strip entered) as [|x user_input] eqn:Eu; [apply IH|].
    cbn [nonempty negb].
    destruct (extract_gift_code (x :: user_input)) as [c|] eqn:Ex; [|apply IH].
    destruct (extract_gift_code_some _ c Ex) as [_ Hlen].
    destruct c as [|y c]; [cbn in Hlen; lia|]. cbn [nonempty negb].
    set (code := y :: c). cbn [app].
    unfold bind at 1.
    destruct (check_promo_code rt net code debug_mode 3 w) as [[o|e] w1] eqn:E;
      destruct (check_promo_code_requests rt net code debug_mode w w1 _ E)
        as (k & Hk & Hr & Hf).
    + unfold bind at 1.
      destruct (time_sleep rt (PFloat (PFin (1 # 2))) w1) as [[[]|e] w2] eqn:Es;
        destruct (quiet_sleep rt _ _ _ _ Es) as [Hr2 Hf2].
      * intros H. destruct (IH _ _ _ _ H) as (ks & Hlen' & Hall & Hr' & Hf' & Hres).
        exists (k :: ks). cbn [length lookups].
        split; [lia|]. split; [constructor; assumption|].
        split; [rewrite Hr', Hr2, Hr, <- app_assoc; reflexivity|].
        split; [congruence|].
        intros Hend. destruct (Hres Hend) as [Hl He]. split; [lia | exact He].
      * intros [= <- <-]. exists [k]. cbn [length lookups].
        rewrite lookups_nil_r, app_nil_r.
        split; [lia|]. split; [constructor; [exact Hk | constructor]|].
        split; [congruence|]. split; [congruence|].
        intros [Hend|Hend]; [discriminate Hend|]. injection Hend as ->.
        contradiction (time_sleep_raises rt _ _ _ _ Es). reflexivity.
    + intros [= <- <-]. exists [k]. cbn [length lookups].
      rewrite lookups_nil_r, app_nil_r.
      split; [lia|]. split; [constructor; [exact Hk | constructor]|].
      split; [assumption|]. split; [assumption|].
      intros [Hend|Hend]; [discriminate Hend|]. injection Hend as ->.
      contradiction (check_promo_code_raises rt net code debug_mode 3 _ _ _ E).
      reflexivity.
Qed.

(** X15: whatever the transport does, a console session looks up the codes
    of the lines entered before a word that ends it, in their order, one
    lookup of one to three requests for each, and nothing else: lines that
    give no code and the word "debug" cause no request, and no file is
    written.  A session in which no lookup and no pause raises has looked up
    all of them; it returns exactly when such a word was entered, and ends
    with the [EOFError] of [input()] otherwise. *)
Theorem session_requests (inputs : list str) (w w' : world)
    (r : result unit) :
  interactive_mode rt net lower inputs w = (r, w') ->
  exists ks,
    (length ks <= length (session_codes lower inputs))%nat /\
    Forall attempts_ok ks /\
    requests_of (log w')
    = requests_of (log w) ++ lookups (session_codes lower inputs) ks /\
    files_of (log w') = files_of (log w) /\
    (r = Ret tt \/ r = Raise EOFError ->
     length ks = length (session_codes lower inputs)
     /\ r = session_result lower inputs).
Proof. exact (interactive_loop_requests inputs false w w' r). Qed.



End Session.

(* ================================================================== *)
(** * The report *)

Lemma filter_flat_map_one {A B} (f : B -> bool) (g : A -> list B) (h : A -> B)
    (l : list A) :
  (forall r, filter f (g r) = [h r]) -> filter f (flat_map g l) = map h l.
Proof.
  intros H. induction l as [|r l IH]; cbn [flat_map map]; [reflexivity|].
  rewrite filter_app, H, IH. reflexivity.
Qed.

Lemma filter_flat_map_none {A B} (f : B -> bool) (g : A -> list B) (l : list A) :
  (forall r, filter f (g r) = []) -> filter f (flat_map g l) = [].
Proof.
  intros H. induction l as [|r l IH]; cbn [flat_map]; [reflexivity|].
  rewrite filter_app, H, IH. reflexivity.
Qed.

Lemma filter_report_section {A B} (f : B -> bool) (head tail : list B)
    (g : A -> list B) (h : A -> B) (l : list A) :
  filter f head = [] -> filter f tail = [] ->
  (forall r, filter f (g r) = [h r]) ->
  filter f (if nonempty l then head ++ flat_map g l ++ tail else []) = map h l.
Proof.
  intros Hhead Htail Hg. destruct l as [|r l]; [reflexivity|].
  cbv [nonempty]. rewrite !filter_app, Hhead, Htail, app_nil_r.
  apply filter_flat_map_one, Hg.
Qed.

Lemma filter_report_section_none {A B} (f : B -> bool) (head tail : list B)
    (g : A -> list B) (l : list A) :
  filter f head = [] ->
  (forall r, filter f (g r) = []) ->
  filter f (if nonempty l then head ++ flat_map g l ++ tail else [])
  = if nonempty l then filter f tail else [].
Proof.
  intros Hhead Hg. destruct l as [|r l]; [reflexivity|].
  cbv [nonempty]. rewrite !filter_app, Hhead.
  rewrite (filter_flat_map_none f g (r :: l) Hg). reflexivity.
Qed.

Lemma startswith_prefix (p s : str) : startswith (p ++ s) p = true.
Proof.
  induction p as [|a p IH]; [destruct s; reflexivity|].
  cbn [app startswith]. rewrite N.eqb_refl. exact IH.
Qed.

Lemma is_code_line_code (c : str) : is_code_line (code_line c) = true.
Proof. apply startswith_prefix. Qed.

Ltac code_chunks :=
  let r := fresh "r" in
  intros r;
  change (lit "Code: " ++ code r ++ newline) with (code_line (code r));
  cbn [filter]; rewrite is_code_line_code; f_equal;
  vm_compute; reflexivity.

Lemma filter_report_section_empty {A B} (f : B -> bool) (head tail : list B)
    (g : A -> list B) (l : list A) :
  filter f head = [] -> filter f tail = [] ->
  (forall r, filter f (g r) = []) ->
  filter f (if nonempty l then head ++ flat_map g l ++ tail else []) = [].
Proof.
  intros Hhead Htail Hg. rewrite filter_report_section_none by assumption.
  rewrite Htail. destruct (nonempty l); reflexivity.
Qed.

Ltac no_tip := intros; reflexivity.

Section ReportFacts.

Variable rt : Runtime.
Variable now : str.

(** X17: the report names every entry of the results once, category after
    category in the order claimable, claimed, invalid, rate limited, error,
    and within a category in the order of the checks: its "Code:" lines are
    those of all the entries. *)
Theorem report_names_every_entry (results : Results) :
  filter is_code_line (report_writes rt now results)
  = map (fun o => code_line (code o)) (all_entries results).
Proof.
  unfold report_writes, all_entries.
  rewrite !filter_app, !map_app.
  match goal with
  | |- filter is_code_line ?head ++ _ = _ =>
      change (filter is_code_line head) with (@nil str)
  end.
  rewrite app_nil_l.
  f_equal; [|f_equal; [|f_equal; [|f_equal]]].
  - apply filter_report_section; [reflexivity | reflexivity | code_chunks].
  - apply filter_report_section; [reflexivity | reflexivity | code_chunks].
  - apply filter_report_section; [reflexivity | reflexivity | code_chunks].
  - apply filter_report_section; [reflexivity | reflexivity | code_chunks].
  - rewrite <- (app_nil_r (flat_map _ (error results))).
    apply filter_report_section; [reflexivity | reflexivity | code_chunks].
Qed.

(** X18: the report carries the advice to re-run with a higher delay exactly
    when some code ended rate limited, and then once. *)
Theorem report_tip_iff_rate_limited (results : Results) :
  filter is_tip (report_writes rt now results)
  = if nonempty (rate_limited results)
    then [ lit "💡 TIP: Re-run these codes with a higher delay (3-5 seconds)"
             ++ newline ]
    else [].
Proof.
  unfold report_writes.
  rewrite !filter_app.
  match goal with
  | |- _ = ?tip =>
      transitivity ([] ++ [] ++ [] ++ [] ++ tip ++ []);
      [| cbn [app]; apply app_nil_r]
  end.
  apply (f_equal2 (@app str)); [reflexivity|].
  apply (f_equal2 (@app str)); [apply filter_report_section_empty; no_tip|].
  apply (f_equal2 (@app str)); [apply filter_report_section_empty; no_tip|].
  apply (f_equal2 (@app str)); [apply filter_report_section_empty; no_tip|].
  apply (f_equal2 (@app str)).
  - etransitivity; [apply filter_report_section_none; no_tip|].
    destruct (nonempty (rate_limited results)); [vm_compute|]; reflexivity.
  - rewrite <- (app_nil_r (flat_map _ (error results))).
    apply filter_report_section_empty; no_tip.
Qed.

End ReportFacts.

(* ================================================================== *)
(** * Runs of the further facts *)

Module Examples.

Import Fixture.

Lemma extracted_is_a_code_witness :
  extract_gift_code (lit "see https://discord.gift/ABCDEFGHIJKLMNOP1234 now")
  = Some sample_code
  /\
  (forallb isalnum sample_code = true /\ (16 <= length sample_code <= 25)%nat).
Proof.
  assert (H : extract_gift_code
                (lit "see https://discord.gift/ABCDEFGHIJKLMNOP1234 now")
              = Some sample_code) by (vm_compute; reflexivity).
  split; [exact H|].
  exact (extracted_is_a_code _ sample_code H).
Defined.

Lemma extract_gift_code_idempotent_witness :
  extract_gift_code (lit "https://discord.com/gifts/ABCDEFGHIJKLMNOP1234")
  = Some sample_code
  /\
  extract_gift_code sample_code = Some sample_code.
Proof.
  assert (H : extract_gift_code
                (lit "https://discord.com/gifts/ABCDEFGHIJKLMNOP1234")
              = Some sample_code) by (vm_compute; reflexivity).
  split; [exact H|].
  exact (extract_gift_code_idempotent _ sample_code H).
Defined.

Lemma extracted_is_part_of_input_witness :
  extract_gift_code (lit "  ABCDEFGHIJKLMNOP1234 ") = Some sample_code
  /\
  ((exists pre post, lit "  ABCDEFGHIJKLMNOP1234 " = pre ++ sample_code ++ post)
   /\ (16 <= length (lit "  ABCDEFGHIJKLMNOP1234 "))%nat).
Proof.
  assert (H : extract_gift_code (lit "  ABCDEFGHIJKLMNOP1234 ") = Some sample_code)
    by (vm_compute; reflexivity).
  split; [exact H|].
  exact (extracted_is_part_of_input _ sample_code H).
Defined.

Lemma extract_ignores_surrounding_space_witness :
  (forallb isspace (lit "  ") = true /\ forallb isspace newline = true
   /\ forallb isalnum sample_code = true /\ (16 <= length sample_code <= 25)%nat)
  /\
  extract_gift_code (lit "  " ++ sample_code ++ newline) = Some sample_code.
Proof.
  assert (Hlen : (16 <= length sample_code <= 25)%nat) by (cbv; lia).
  split; [repeat split; (reflexivity || exact (proj1 Hlen) || exact (proj2 Hlen))|].
  exact (extract_ignores_surrounding_space (lit "  ") sample_code newline
           eq_refl eq_refl eq_refl Hlen).
Defined.

Lemma lookup_is_requests_and_short_waits_witness :
  check_promo_code (runtime true) (always (Response rate_limit)) sample_code false 3
    initial
  = (Ret (rate_limited_outcome sample_code),
     {| nreq := 3; log := lookup_log sample_code [5; 10] |})
  /\
  ((3 <= 0 /\ {| nreq := 3; log := lookup_log sample_code [5; 10] |} = initial)
   \/ (1 <= 3 /\
       exists waits,
         Z.of_nat (length waits) < 3 /\ Forall short_wait waits /\
         {| nreq := 3; log := lookup_log sample_code [5; 10] |}
         = {| nreq := nreq initial + S (length waits);
              log := log initial ++ lookup_log sample_code waits |})).
Proof.
  assert (H : check_promo_code (runtime true) (always (Response rate_limit))
                sample_code false 3 initial
              = (Ret (rate_limited_outcome sample_code),
                 {| nreq := 3; log := lookup_log sample_code [5; 10] |}))
    by (vm_compute; reflexivity).
  split; [exact H|].
  exact (lookup_is_requests_and_short_waits (runtime true)
           (always (Response rate_limit)) sample_code false 3 initial _ _ H).
Defined.

Lemma retries_then_answer_witness :
  (Z.of_nat (length [5]) < 3
   /\ retried (runtime true) Console.limited_once (nreq initial) 0 [5]
   /\ Console.limited_once (nreq initial + length [5]) = Response ok_200
   /\ answer (runtime true) sample_code false ok_200
      = Some {| code := sample_code; valid := true;
                status := lit "CLAIMABLE"; emoji := lit "✅";
                plan := VStr (lit "Nitro");
                uses := Some (VInt 0); max_uses := Some (VInt 1);
                message := lit "✅ Code is CLAIMABLE - Nitro";
                raw_data := Some VNone |})
  /\
  check_promo_code (runtime true) Console.limited_once sample_code false 3 initial
  = (Ret {| code := sample_code; valid := true;
            status := lit "CLAIMABLE"; emoji := lit "✅";
            plan := VStr (lit "Nitro");
            uses := Some (VInt 0); max_uses := Some (VInt 1);
            message := lit "✅ Code is CLAIMABLE - Nitro";
            raw_data := Some VNone |},
     {| nreq := nreq initial + S (length [5]);
        log := log initial ++ lookup_log sample_code [5] |}).
Proof.
  assert (Hlt : Z.of_nat (length [5]) < 3) by (cbv; reflexivity).
  assert (Hre : retried (runtime true) Console.limited_once (nreq initial) 0 [5])
    by (split; [vm_compute; reflexivity | exact I]).
  assert (Hans : answer (runtime true) sample_code false ok_200
                 = Some {| code := sample_code; valid := true;
                           status := lit "CLAIMABLE"; emoji := lit "✅";
                           plan := VStr (lit "Nitro");
                           uses := Some (VInt 0); max_uses := Some (VInt 1);
                           message := lit "✅ Code is CLAIMABLE - Nitro";
                           raw_data := Some VNone |})
    by (vm_compute; reflexivity).
  split; [split; [exact Hlt | split; [exact Hre | split; [reflexivity | exact Hans]]]|].
  exact (retries_then_answer (runtime true) Console.limited_once sample_code false 3
           [5] initial ok_200 _ Hlt Hre eq_refl Hans).
Defined.

Lemma lookup_outcome_is_consistent_witness :
  check_promo_code (runtime true) (always (Response rate_limit)) sample_code false 3
    initial
  = (Ret (rate_limited_outcome sample_code),
     {| nreq := 3; log := lookup_log sample_code [5; 10] |})
  /\
  consistent sample_code (rate_limited_outcome sample_code).
Proof.
  assert (H : check_promo_code (runtime true) (always (Response rate_limit))
                sample_code false 3 initial
              = (Ret (rate_limited_outcome sample_code),
                 {| nreq := 3; log := lookup_log sample_code [5; 10] |}))
    by (vm_compute; reflexivity).
  split; [exact H|].
  exact (lookup_outcome_is_consistent (runtime true)
           (always (Response rate_limit)) sample_code false 3 initial _ _ H).
Defined.

Lemma answer_message_witness :
  (1 <= 3
   /\ always (Response ok_200) (nreq initial) = Response ok_200
   /\ status_code ok_200 = 200
   /\ json ok_200 = Decoded (VDict nitro)
   /\ body_redeemed nitro = Some false
   /\ body_count nitro (lit "uses") 0 = Some 0
   /\ body_count nitro (lit "max_uses") 1 = Some 1
   /\ body_plan nitro = Some [(lit "name", VStr (lit "Nitro"))])
  /\
  exists o,
    check_promo_code (runtime true) (always (Response ok_200)) sample_code false 3
      initial
    = (Ret o, after_get (gift_url sample_code) initial) /\
    plan o = field [(lit "name", VStr (lit "Nitro"))] (lit "name")
               (VStr (lit "Unknown")) /\
    uses o = Some (VInt 0) /\ max_uses o = Some (VInt 1) /\
    message o
    = emoji o ++ lit " Code is " ++ status o ++ lit " - "
      ++ py_str (runtime true) (plan o)
      ++ (if (0 <? 0) || (1 <? 1)
          then lit " (Uses: " ++ str_of_Z 0 ++ lit "/" ++ str_of_Z 1 ++ lit ")"
          else []).
Proof.
  split; [repeat split; (lia || reflexivity)|].
  exact (answer_message (runtime true) (always (Response ok_200)) sample_code false 3
           initial ok_200 nitro [(lit "name", VStr (lit "Nitro"))] false 0 1
           ltac:(lia) eq_refl eq_refl eq_refl eq_refl eq_refl eq_refl eq_refl).
Defined.

Lemma saved_results_are_classified_witness :
  ((fun _ : str => Some Console.two_codes) (lit "codes.txt") = Some Console.two_codes
   /\ codes_of_lines Console.two_codes <> []
   /\ bulk_check_from_file (runtime true) (always (Response not_found))
        (fun _ => Some Console.two_codes) (lit "codes.txt") None
        (PFloat (PFin (5 # 2))) initial
      = (Ret tt,
         {| nreq := 2;
            log := [ EGet (gift_url sample_code); ESleep (PFloat (PFin (5 # 2)));
                     EGet (gift_url (lit "QRSTUVWXYZ0123456789"));
                     EWrite (lit "results_20240101_120000.txt")
                       {| claimable := []; claimed := [];
                          invalid := [ invalid_outcome sample_code;
                                       invalid_outcome (lit "QRSTUVWXYZ0123456789") ];
                          rate_limited := []; error := [] |} ] |}))
  /\
  exists l res,
    [ EGet (gift_url sample_code); ESleep (PFloat (PFin (5 # 2)));
      EGet (gift_url (lit "QRSTUVWXYZ0123456789"));
      EWrite (lit "results_20240101_120000.txt")
        {| claimable := []; claimed := [];
           invalid := [ invalid_outcome sample_code;
                        invalid_outcome (lit "QRSTUVWXYZ0123456789") ];
           rate_limited := []; error := [] |} ]
    = l ++ [EWrite (report_name (runtime true) None) res] /\ classified res.
Proof.
  assert (Hne : codes_of_lines Console.two_codes <> [])
    by (vm_compute; discriminate).
  assert (Hrun : bulk_check_from_file (runtime true) (always (Response not_found))
                   (fun _ => Some Console.two_codes) (lit "codes.txt") None
                   (PFloat (PFin (5 # 2))) initial
                 = (Ret tt,
                    {| nreq := 2;
                       log := [ EGet (gift_url sample_code);
                                ESleep (PFloat (PFin (5 # 2)));
                                EGet (gift_url (lit "QRSTUVWXYZ0123456789"));
                                EWrite (lit "results_20240101_120000.txt")
                                  {| claimable := []; claimed := [];
                                     invalid :=
                                       [ invalid_outcome sample_code;
                                         invalid_outcome
                                           (lit "QRSTUVWXYZ0123456789") ];
                                     rate_limited := []; error := [] |} ] |}))
    by (vm_compute; reflexivity).
  split; [split; [reflexivity | split; [exact Hne | exact Hrun]]|].
  exact (saved_results_are_classified (runtime true) (always (Response not_found))
           (fun _ => Some Console.two_codes) (lit "codes.txt") None
           (PFloat (PFin (5 # 2))) Console.two_codes initial _ eq_refl Hne Hrun).
Defined.

Lemma saved_results_hold_every_code_witness :
  ((fun _ : str => Some codes_txt) (lit "codes.txt") = Some codes_txt
   /\ codes_of_lines codes_txt <> []
   /\ bulk_check_from_file (runtime true) (always (Response ok_200))
        (fun _ => Some codes_txt) (lit "codes.txt") (Some (lit "out.txt"))
        (PFloat (PFin (5 # 2))) initial
      = (Ret tt,
         {| nreq := 1;
            log := [ EGet (gift_url sample_code);
                     EWrite (lit "out.txt")
                       {| claimable :=
                            [ {| code := sample_code; valid := true;
                                 status := lit "CLAIMABLE"; emoji := lit "✅";
                                 plan := VStr (lit "Nitro");
                                 uses := Some (VInt 0); max_uses := Some (VInt 1);
                                 message := lit "✅ Code is CLAIMABLE - Nitro";
                                 raw_data := Some VNone |} ];
                          claimed := []; invalid := [];
                          rate_limited := []; error := [] |} ] |}))
  /\
  exists l res,
    [ EGet (gift_url sample_code);
      EWrite (lit "out.txt")
        {| claimable :=
             [ {| code := sample_code; valid := true;
                  status := lit "CLAIMABLE"; emoji := lit "✅";
                  plan := VStr (lit "Nitro");
                  uses := Some (VInt 0); max_uses := Some (VInt 1);
                  message := lit "✅ Code is CLAIMABLE - Nitro";
                  raw_data := Some VNone |} ];
           claimed := []; invalid := [];
           rate_limited := []; error := [] |} ]
    = l ++ [EWrite (report_name (runtime true) (Some (lit "out.txt"))) res] /\
    Permutation (map code_of (all_entries res)) (codes_of_lines codes_txt).
Proof.
  assert (Hne : codes_of_lines codes_txt <> []) by (vm_compute; discriminate).
  assert (Hrun : bulk_check_from_file (runtime true) (always (Response ok_200))
                   (fun _ => Some codes_txt) (lit "codes.txt")
                   (Some (lit "out.txt")) (PFloat (PFin (5 # 2))) initial
                 = (Ret tt,
                    {| nreq := 1;
                       log := [ EGet (gift_url sample_code);
                                EWrite (lit "out.txt")
                                  {| claimable :=
                                       [ {| code := sample_code; valid := true;
                                            status := lit "CLAIMABLE";
                                            emoji := lit "✅";
                                            plan := VStr (lit "Nitro");
                                            uses := Some (VInt 0);
                                            max_uses := Some (VInt 1);
                                            message :=
                                              lit "✅ Code is CLAIMABLE - Nitro";
                                            raw_data := Some VNone |} ];
                                     claimed := []; invalid := [];
                                     rate_limited := []; error := [] |} ] |}))
    by (vm_compute; reflexivity).
  split; [split; [reflexivity | split; [exact Hne | exact Hrun]]|].
  exact (saved_results_hold_every_code (runtime true) (always (Response ok_200))
           (fun _ => Some codes_txt) (lit "codes.txt") (Some (lit "out.txt"))
           (PFloat (PFin (5 # 2))) codes_txt initial _ eq_refl Hne Hrun).
Defined.

Lemma report_is_written_last_or_never_witness :
  ((fun _ : str => Some Console.two_codes) (lit "codes.txt") = Some Console.two_codes
   /\ bulk_check_from_file (runtime true) (always (Response not_found))
        (fun _ => Some Console.two_codes) (lit "codes.txt") None
        (PFloat PNaN) initial
      = (Raise ValueError, after_get (gift_url sample_code) initial))
  /\
  files_of (log (after_get (gift_url sample_code) initial))
  = files_of (log initial) ++ [].
Proof.
  assert (Hrun : bulk_check_from_file (runtime true) (always (Response not_found))
                   (fun _ => Some Console.two_codes) (lit "codes.txt") None
                   (PFloat PNaN) initial
                 = (Raise ValueError, after_get (gift_url sample_code) initial))
    by (vm_compute; reflexivity).
  split; [split; [reflexivity | exact Hrun]|].
  exact (report_is_written_last_or_never (runtime true)
           (always (Response not_found)) (fun _ => Some Console.two_codes)
           (lit "codes.txt") None (PFloat PNaN) Console.two_codes initial _
           (Raise ValueError) eq_refl Hrun).
Defined.


Lemma main_with_nan_delay_raises_witness :
  (strip (lit " 2 ") = lit "2"
   /\ strip (lit "NaN") <> []
   /\ py_float Console.runtime (strip (lit "NaN")) = Some PNaN
   /\ (fun _ : str => Some Console.two_codes) (strip (lit "codes.txt"))
      = Some Console.two_codes
   /\ codes_of_lines Console.two_codes
      = sample_code :: lit "QRSTUVWXYZ0123456789" :: []
   /\ check_promo_code Console.runtime (always (Response not_found)) sample_code
        false 3 initial
      = (Ret (invalid_outcome sample_code),
         after_get (gift_url sample_code) initial))
  /\
  main Console.runtime (always (Response not_found)) Console.ascii_lower
    (fun _ => Some Console.two_codes)
    (lit " 2 " :: lit "codes.txt" :: lit "NaN" :: []) initial
  = (Raise ValueError, after_get (gift_url sample_code) initial).
Proof.
  assert (Hne : strip (lit "NaN") <> []) by (vm_compute; discriminate).
  assert (Hcodes : codes_of_lines Console.two_codes
                   = sample_code :: lit "QRSTUVWXYZ0123456789" :: [])
    by (vm_compute; reflexivity).
  assert (Hfirst : check_promo_code Console.runtime (always (Response not_found))
                     sample_code false 3 initial
                   = (Ret (invalid_outcome sample_code),
                      after_get (gift_url sample_code) initial))
    by (vm_compute; reflexivity).
  assert (Hnan : py_float Console.runtime (strip (lit "NaN")) = Some PNaN)
    by (vm_compute; reflexivity).
  split; [split; [reflexivity | split; [exact Hne | split; [exact Hnan
          | split; [reflexivity | split; [exact Hcodes | exact Hfirst]]]]]|].
  exact (main_with_nan_delay_raises Console.runtime (always (Response not_found))
           Console.ascii_lower (fun _ => Some Console.two_codes)
           (lit " 2 ") (lit "codes.txt") (lit "NaN") [] Console.two_codes []
           sample_code (lit "QRSTUVWXYZ0123456789") (invalid_outcome sample_code)
           initial _ eq_refl Hne Hnan eq_refl Hcodes Hfirst).
Defined.

Lemma main_bulk_completes_witness :
  (strip (lit "2") = lit "2"
   /\ main_delay (runtime true) (lit "") <> PNaN
   /\ (fun _ : str => Some codes_txt) (strip (lit "codes.txt")) = Some codes_txt
   /\ codes_of_lines codes_txt <> []
   /\ (forall k, conforming (runtime true) (always html_502 k) = true))
  /\
  exists w1 res,
    main (runtime true) (always html_502) Console.ascii_lower
      (fun _ => Some codes_txt) (lit "2" :: lit "codes.txt" :: lit "" :: []) initial
    = (Ret tt,
       {| nreq := nreq w1;
          log := log w1
                 ++ [EWrite (lit "results_" ++ timestamp (runtime true)
                               ++ lit ".txt") res] |})
    /\ files_of (log w1) = files_of (log initial)
    /\ entries res = length (codes_of_lines codes_txt).
Proof.
  assert (Hdelay : main_delay (runtime true) (lit "") <> PNaN)
    by (vm_compute; discriminate).
  assert (Hne : codes_of_lines codes_txt <> []) by (vm_compute; discriminate).
  split; [split; [reflexivity | split; [exact Hdelay | split; [reflexivity
          | split; [exact Hne | intros k; reflexivity]]]]|].
  exact (main_bulk_completes (runtime true) (always html_502) Console.ascii_lower
           (fun _ => Some codes_txt) (lit "2") (lit "codes.txt") (lit "") []
           codes_txt initial eq_refl Hdelay eq_refl Hne (fun k => eq_refl)).
Defined.

Lemma session_requests_witness :
  interactive_mode (runtime true) (always (Response not_found)) Console.ascii_lower
    [lit "debug"; lit " ABCDEFGHIJKLMNOP1234 "; lit "hello"; lit "Quit"; lit "x"]
    initial
  = (Ret tt,
     {| nreq := 1;
        log := [EGet (gift_url sample_code); ESleep (PFloat (PFin (1 # 2)))] |})
  /\
  exists ks,
    (length ks
     <= length (session_codes Console.ascii_lower
                  [lit "debug"; lit " ABCDEFGHIJKLMNOP1234 "; lit "hello";
                   lit "Quit"; lit "x"]))%nat /\
    Forall attempts_ok ks /\
    requests_of [EGet (gift_url sample_code); ESleep (PFloat (PFin (1 # 2)))]
    = requests_of (log initial)
      ++ lookups (session_codes Console.ascii_lower
                    [lit "debug"; lit " ABCDEFGHIJKLMNOP1234 "; lit "hello";
                     lit "Quit"; lit "x"]) ks /\
    files_of [EGet (gift_url sample_code); ESleep (PFloat (PFin (1 # 2)))]
    = files_of (log initial) /\
    (@Ret unit tt = Ret tt \/ @Ret unit tt = Raise EOFError ->
     length ks
     = length (session_codes Console.ascii_lower
                 [lit "debug"; lit " ABCDEFGHIJKLMNOP1234 "; lit "hello";
                  lit "Quit"; lit "x"])
     /\ Ret tt = session_result Console.ascii_lower
                   [lit "debug"; lit " ABCDEFGHIJKLMNOP1234 "; lit "hello";
                    lit "Quit"; lit "x"]).
Proof.
  assert (Hrun : interactive_mode (runtime true) (always (Response not_found))
                   Console.ascii_lower
                   [lit "debug"; lit " ABCDEFGHIJKLMNOP1234 "; lit "hello";
                    lit "Quit"; lit "x"] initial
                 = (Ret tt,
                    {| nreq := 1;
                       log := [EGet (gift_url sample_code);
                               ESleep (PFloat (PFin (1 # 2)))] |}))
    by (vm_compute; reflexivity).
  split; [exact Hrun|].
  exact (session_requests (runtime true) (always (Response not_found))
           Console.ascii_lower _ initial _ _ Hrun).
Defined.


End Examples.
